(** * CodeFormer2 (basicsr/archs/codeformer_arch_2.py): a shallow embedding

    The module defines a sine position embedding, one pre-norm self-attention
    layer and the [CodeFormer2] network, a frozen multi-scale VQVAE tokenizer
    followed by per-scale embedding tables, a stack of self-attention layers
    and a linear prediction head.

    Tensors are modelled the way torch presents them to the Python code: a
    shape (a list of extents) and an element for every index.  Floating-point
    arithmetic is kept abstract in the class [Scalar]; the structure of the
    computation (shapes, indexing, data flow, errors, frozen parameters, use
    of the random generator) is what is verified. *)

From Stdlib Require Import List String Bool Arith PeanoNat Lia QArith.
From Stdlib Require Import Reals Lra.
Import ListNotations.
Local Open Scope string_scope.
Local Open Scope nat_scope.
Local Open Scope list_scope.

Set Implicit Arguments.

(* ------------------------------------------------------------------ *)
(** ** Python exceptions and the result of a call *)

Inductive exn : Type :=
| ValueError (msg : string)
| RuntimeError (msg : string)
| AssertionError (msg : string)
| AttributeError (name : string)
| IndexError (msg : string)
| IOError (path : string).

Inductive result (A : Type) : Type :=
| Ok (a : A)
| Raise (e : exn).
Arguments Ok {A} a.
Arguments Raise {A} e.

Definition rbind {A B} (r : result A) (k : A -> result B) : result B :=
  match r with
  | Ok a => k a
  | Raise e => Raise e
  end.

(** A call that may read and advance torch's global random generator. *)
Definition M (G A : Type) : Type := G -> result (A * G).

Definition ret {G A} (a : A) : M G A := fun g => Ok (a, g).

Definition bind {G A B} (m : M G A) (k : A -> M G B) : M G B :=
  fun g => match m g with
           | Ok (a, g') => k a g'
           | Raise e => Raise e
           end.

Definition lift {G A} (r : result A) : M G A :=
  fun g => match r with Ok a => Ok (a, g) | Raise e => Raise e end.

Definition raise {G A} (e : exn) : M G A := fun _ => Raise e.

Declare Scope torch_scope.
Delimit Scope torch_scope with torch.
Notation "x <- m ;; k" := (bind m (fun x => k))
  (at level 61, m at next level, right associativity) : torch_scope.
Notation "x <~ r ;; k" := (rbind r (fun x => k))
  (at level 61, r at next level, right associativity) : torch_scope.
Local Open Scope torch_scope.

(** [for x in xs: acc = f(acc, x)] with effects. *)
Fixpoint foldM {G A B} (f : A -> B -> M G A) (xs : list B) (a : A) : M G A :=
  match xs with
  | [] => ret a
  | x :: r => a' <- f a x ;; foldM f r a'
  end.

(** [[f(x) for x in xs]] with effects, left to right. *)
Fixpoint mapM {G A B} (f : A -> M G B) (xs : list A) : M G (list B) :=
  match xs with
  | [] => ret []
  | x :: r => y <- f x ;; ys <- mapM f r ;; ret (y :: ys)
  end.

(* ------------------------------------------------------------------ *)
(** ** Scalars

    The float32 operations the code reaches through torch.  They are an
    interface: theorems hold for every implementation, witnesses run on the
    integers, and the counterexample on the position embedding is read in the
    real numbers. *)

Class Scalar (F : Type) : Type := {
  f0 : F;
  f1 : F;
  fadd : F -> F -> F;
  fsub : F -> F -> F;
  fmul : F -> F -> F;
  fdiv : F -> F -> F;
  fpow : F -> F -> F;
  fsqrt : F -> F;
  fsin : F -> F;
  fcos : F -> F;
  f_of_nat : nat -> F;
  f_of_Q : Q -> F;
  fpi : F
}.

(** The scalar functions behind [F.relu], [F.gelu] and [F.glu]. *)
Class Pointwise (F : Type) : Type := {
  frelu : F -> F;
  fgelu : F -> F;
  fsigmoid : F -> F
}.

(* ------------------------------------------------------------------ *)
(** ** Tensors *)

Record Tensor (A : Type) : Type := mkTensor {
  shape : list nat;
  get : list nat -> A
}.
Arguments mkTensor {A} shape get.

Definition numel (s : list nat) : nat := fold_right Nat.mul 1 s.

Definition shape_eqb (s t : list nat) : bool :=
  if list_eq_dec Nat.eq_dec s t then true else false.

(** All indices of a tensor of shape [s], in row-major order. *)
Fixpoint indices (s : list nat) : list (list nat) :=
  match s with
  | [] => [[]]
  | n :: r => flat_map (fun i => map (cons i) (indices r)) (seq 0 n)
  end.

(** Row-major offset of an index. *)
Fixpoint offset (s ix : list nat) : nat :=
  match s, ix with
  | n :: r, i :: jx => i * numel r + offset r jx
  | _, _ => 0
  end.

Definition tensor_of_list {A} (d : A) (s : list nat) (l : list A) : Tensor A :=
  mkTensor s (fun ix => nth (offset s ix) l d).

Definition full {A} (s : list nat) (a : A) : Tensor A := mkTensor s (fun _ => a).

Definition tmap {A B} (f : A -> B) (t : Tensor A) : Tensor B :=
  mkTensor (shape t) (fun ix => f (get t ix)).

(** Every entry of an index tensor is a token id in [0, v). *)
Definition token_ids_below (v : nat) (idx : Tensor nat) : bool :=
  forallb (fun ix => get idx ix <? v) (indices (shape idx)).

Definition set_last (ix : list nat) (j : nat) : list nat := removelast ix ++ [j].

(** [a + b] on tensors of one shape.  The code only adds tensors of equal
    shape; operands of different shapes (which torch would try to broadcast)
    are reported as an error, and nothing below relies on that error. *)
Definition tensor_add {F} `{Scalar F} (a b : Tensor F) : result (Tensor F) :=
  if shape_eqb (shape a) (shape b)
  then Ok (mkTensor (shape a) (fun ix => fadd (get a ix) (get b ix)))
  else Raise (RuntimeError "The size of tensor a must match the size of tensor b").

(** [sum(f(k) for k in range(n))] *)
Definition fsum {F} `{Scalar F} (n : nat) (f : nat -> F) : F :=
  fold_left (fun acc k => fadd acc (f k)) (seq 0 n) f0.

(** [t.permute(1, 0, 2)] *)
Definition permute102 {A} (t : Tensor A) : result (Tensor A) :=
  match shape t with
  | [a; b; c] =>
      Ok (mkTensor [b; a; c]
            (fun ix => match ix with
                       | [j; i; k] => get t [i; j; k]
                       | _ => get t ix
                       end))
  | _ => Raise (RuntimeError "permute: number of dims does not match")
  end.

(** [t.unsqueeze(1)] *)
Definition unsqueeze1 {A} (t : Tensor A) : result (Tensor A) :=
  match shape t with
  | a :: r =>
      Ok (mkTensor (a :: 1 :: r)
            (fun ix => match ix with
                       | i :: _ :: jx => get t (i :: jx)
                       | _ => get t ix
                       end))
  | [] => Raise (IndexError "Dimension out of range")
  end.

(** [t.repeat(r0, r1, r2)] on a tensor of three axes. *)
Definition repeat3 {A} (t : Tensor A) (r0 r1 r2 : nat) : result (Tensor A) :=
  match shape t with
  | [a; b; c] =>
      Ok (mkTensor [a * r0; b * r1; c * r2]
            (fun ix => match ix with
                       | [i; j; k] => get t [i mod a; j mod b; k mod c]
                       | _ => get t ix
                       end))
  | _ => Raise (RuntimeError "Number of dimensions of repeat dims can not be smaller than number of dimensions of tensor")
  end.

(** Element of [torch.cat(ts, dim=1)] at row [i], position [j] of axis 1. *)
Fixpoint cat1_get {A} (d : A) (ts : list (Tensor A)) (i j : nat) (rest : list nat) : A :=
  match ts with
  | [] => d
  | t :: r =>
      let n := nth 1 (shape t) 0 in
      if j <? n then get t (i :: j :: rest) else cat1_get d r i (j - n) rest
  end.

Definition same_but_axis1 (s t : list nat) : bool :=
  match s, t with
  | a :: _ :: r, a' :: _ :: r' => (a =? a') && shape_eqb r r'
  | _, _ => false
  end.

(** [torch.cat(ts, dim=1)] *)
Definition cat1 {A} (ts : list (Tensor A)) : result (Tensor A) :=
  match ts with
  | [] => Raise (RuntimeError "torch.cat(): expected a non-empty list of Tensors")
  | t0 :: _ =>
      if forallb (fun t => same_but_axis1 (shape t0) (shape t)) ts
      then
        let total := list_sum (map (fun t => nth 1 (shape t) 0) ts) in
        Ok (mkTensor (hd 0 (shape t0) :: total :: tl (tl (shape t0)))
              (fun ix => match ix with
                         | i :: j :: rest => cat1_get (get t0 ix) ts i j rest
                         | _ => get t0 ix
                         end))
      else Raise (RuntimeError "Sizes of tensors must match except in dimension 1")
  end.

(* ------------------------------------------------------------------ *)
(** ** torch.nn: parameters and the library modules the file instantiates *)

(** [nn.Parameter]: a tensor and its [requires_grad] flag. *)
Record Param (F : Type) : Type := mkParam {
  data : Tensor F;
  requires_grad : bool
}.
Arguments mkParam {F} data requires_grad.

(** [nn.Parameter(t)]: trainable unless said otherwise. *)
Definition new_parameter {F} (t : Tensor F) : Param F := mkParam t true.

Definition set_requires_grad {F} (b : bool) (p : Param F) : Param F :=
  mkParam (data p) b.

(** torch's default generator: the source of initial weights and of dropout
    masks. *)
Class Generator (G F : Type) : Type := {
  sample : G -> F * G;
  bernoulli : Q -> G -> bool * G
}.

Section Random.
Context {F G : Type} `{Scalar F} `{Generator G F}.

Fixpoint samples (n : nat) (g : G) : list F * G :=
  match n with
  | O => ([], g)
  | S k => let '(x, g1) := sample g in
           let '(l, g2) := samples k g1 in
           (x :: l, g2)
  end.

(** A freshly initialised tensor ([normal_], [kaiming_uniform_],
    [xavier_uniform_]: one draw per element). *)
Definition random_tensor (s : list nat) : M G (Tensor F) :=
  fun g => let '(l, g') := samples (numel s) g in Ok (tensor_of_list f0 s l, g').

Fixpoint bernoullis (p : Q) (n : nat) (g : G) : list bool * G :=
  match n with
  | O => ([], g)
  | S k => let '(b, g1) := bernoulli p g in
           let '(l, g2) := bernoullis p k g1 in
           (b :: l, g2)
  end.
End Random.

Module Embedding.
Section Def.
Context {F G : Type} `{Scalar F} `{Generator G F}.

Record t : Type := mk {
  num_embeddings : nat;
  embedding_dim : nat;
  weight : Param F
}.

Definition __init__ (num_embeddings embedding_dim : nat) : M G t :=
  w <- random_tensor [num_embeddings; embedding_dim] ;;
  ret (mk num_embeddings embedding_dim (new_parameter w)).

(** [F.embedding(idx, weight)]: every index selects a row of the table. *)
Definition forward (self : t) (idx : Tensor nat) : result (Tensor F) :=
  match shape (data (weight self)) with
  | [v; d] =>
      if token_ids_below v idx
      then Ok (mkTensor (shape idx ++ [d])
                 (fun ix => get (data (weight self))
                              [get idx (removelast ix); last ix 0]))
      else Raise (IndexError "index out of range in self")
  | _ => Raise (RuntimeError "'weight' must be 2-D")
  end.

Definition parameters (self : t) : list (Param F) := [weight self].
End Def.
End Embedding.

Module Linear.
Section Def.
Context {F G : Type} `{Scalar F} `{Generator G F}.

Record t : Type := mk {
  in_features : nat;
  out_features : nat;
  weight : Param F;
  bias : option (Param F)
}.

Definition __init__ (in_features out_features : nat) (with_bias : bool) : M G t :=
  w <- random_tensor [out_features; in_features] ;;
  if with_bias
  then b <- random_tensor [out_features] ;;
       ret (mk in_features out_features (new_parameter w) (Some (new_parameter b)))
  else ret (mk in_features out_features (new_parameter w) None).

(** [F.linear(x, weight, bias)]: [x @ weight.T + bias] on the last axis. *)
Definition forward (self : t) (x : Tensor F) : result (Tensor F) :=
  match shape (data (weight self)) with
  | [o; i] =>
      if negb (List.length (shape x) =? 0) && (last (shape x) 0 =? i)
      then Ok (mkTensor (removelast (shape x) ++ [o])
                 (fun ix =>
                    let j := last ix 0 in
                    let dot := fsum i (fun k => fmul (get x (set_last ix k))
                                                    (get (data (weight self)) [j; k])) in
                    match bias self with
                    | Some b => fadd dot (get (data b) [j])
                    | None => dot
                    end))
      else Raise (RuntimeError "mat1 and mat2 shapes cannot be multiplied")
  | _ => Raise (RuntimeError "linear: weight must be 2-D")
  end.

Definition parameters (self : t) : list (Param F) :=
  weight self :: match bias self with Some b => [b] | None => [] end.
End Def.
End Linear.

Module LayerNorm.
Section Def.
Context {F : Type} `{Scalar F}.

Record t : Type := mk {
  normalized_shape : nat;
  eps : Q;
  weight : Param F;
  bias : Param F
}.

(** [nn.LayerNorm(n)]: weight ones, bias zeros, [eps=1e-5]. *)
Definition __init__ (n : nat) : t :=
  mk n (1 # 100000) (new_parameter (full [n] f1)) (new_parameter (full [n] f0)).

(** [F.layer_norm] over the last axis, with the biased variance. *)
Definition forward (self : t) (x : Tensor F) : result (Tensor F) :=
  let n := normalized_shape self in
  if negb (List.length (shape x) =? 0) && (last (shape x) 0 =? n)
  then Ok (mkTensor (shape x)
             (fun ix =>
                let row k := get x (set_last ix k) in
                let mean := fdiv (fsum n row) (f_of_nat n) in
                let var := fdiv (fsum n (fun k => fmul (fsub (row k) mean)
                                                       (fsub (row k) mean)))
                                (f_of_nat n) in
                let j := last ix 0 in
                fadd (fmul (fdiv (fsub (get x ix) mean)
                                 (fsqrt (fadd var (f_of_Q (eps self)))))
                           (get (data (weight self)) [j]))
                     (get (data (bias self)) [j])))
  else Raise (RuntimeError "Given normalized_shape, expected input with matching last dimension").

Definition parameters (self : t) : list (Param F) := [weight self; bias self].
End Def.
End LayerNorm.

Module Dropout.
Section Def.
Context {F G : Type} `{Scalar F} `{Generator G F}.

Record t : Type := mk {
  p : Q;
  training : bool
}.

(** [nn.Dropout(p)]; a new module is in training mode. *)
Definition __init__ (p : Q) : result t :=
  if Qle_bool 0 p && Qle_bool p 1
  then Ok (mk p true)
  else Raise (ValueError "dropout probability has to be between 0 and 1").

(** [F.dropout(x, p, training)]: the input itself when [p == 0] or outside
    training, zeros when [p == 1], and otherwise a Bernoulli mask drawn
    from the generator, one draw per element. *)
Definition functional (p : Q) (training : bool) (x : Tensor F) : M G (Tensor F) :=
  if negb (Qle_bool 0 p && Qle_bool p 1)
  then raise (ValueError "dropout probability has to be between 0 and 1")
  else if Qeq_bool p 0 || negb training then ret x
  else if Qeq_bool p 1 then ret (tmap (fun v => fmul v f0) x)
  else fun g =>
    let '(keep, g') := bernoullis (1 - p) (numel (shape x)) g in
    Ok (mkTensor (shape x)
          (fun ix => if nth (offset (shape x) ix) keep false
                     then fmul (get x ix) (f_of_Q (1 / (1 - p)))
                     else fmul (get x ix) f0), g').

Definition forward (self : t) (x : Tensor F) : M G (Tensor F) :=
  functional (p self) (training self) x.
End Def.
End Dropout.

(** The functions of [torch.nn.functional] that [_get_activation_fn] hands
    out. *)
Inductive activation_fn : Type := F_relu | F_gelu | F_glu.

Section Activation.
Context {F : Type} `{Scalar F} `{Pointwise F}.

(** [F.relu] and [F.gelu] act element by element; [F.glu] splits the last
    axis in two halves [a, b] and returns [a * sigmoid(b)], so its result
    has half the extent on that axis. *)
Definition apply_activation (a : activation_fn) (x : Tensor F) : result (Tensor F) :=
  match a with
  | F_relu => Ok (tmap frelu x)
  | F_gelu => Ok (tmap fgelu x)
  | F_glu =>
      let n := last (shape x) 0 in
      if List.length (shape x) =? 0
      then Raise (RuntimeError "glu does not support scalars because halving size must be even")
      else if Nat.even n
      then Ok (mkTensor (removelast (shape x) ++ [n / 2])
                 (fun ix => fmul (get x ix)
                              (fsigmoid (get x (set_last ix (last ix 0 + n / 2))))))
      else Raise (RuntimeError "Halving dimension must be even")
  end.
End Activation.

Module MultiheadAttention.
Section Def.
Context {F G : Type} `{Scalar F} `{Generator G F}.

Record t : Type := mk {
  embed_dim : nat;
  num_heads : nat;
  dropout : Q;
  training : bool;
  in_proj_weight : Param F;
  in_proj_bias : Param F;
  out_proj : Linear.t (F := F)
}.

(** The two deterministic halves of torch's scaled dot-product attention,
    around the dropout it applies to the attention weights:
    [weights] projects the query and the key, splits the heads and returns
    the softmax of the scaled, masked scores; [output] multiplies the
    weights with the projected value, merges the heads and applies
    [out_proj]. *)
Class Kernel : Type := {
  weights : t -> Tensor F -> Tensor F ->
            option (Tensor F) -> option (Tensor bool) -> result (Tensor F);
  output : t -> Tensor F -> Tensor F -> result (Tensor F)
}.

Definition __init__ (embed_dim num_heads : nat) (dropout : Q) : M G t :=
  if (num_heads =? 0) || negb (embed_dim mod num_heads =? 0)
  then raise (AssertionError "embed_dim must be divisible by num_heads")
  else
    out <- Linear.__init__ embed_dim embed_dim true ;;
    w <- random_tensor [3 * embed_dim; embed_dim] ;;
    ret (mk embed_dim num_heads dropout true
            (new_parameter w)
            (new_parameter (full [3 * embed_dim] f0))
            (Linear.mk embed_dim embed_dim (Linear.weight out)
               (Some (new_parameter (full [embed_dim] f0))))).

(** [self_attn(query, key, value=..., attn_mask=..., key_padding_mask=...)]:
    the attention output and the attention weights. *)
Definition forward `{Kernel} (self : t) (query key value : Tensor F)
    (attn_mask : option (Tensor F)) (key_padding_mask : option (Tensor bool))
  : M G (Tensor F * Tensor F) :=
  w <- lift (weights self query key attn_mask key_padding_mask) ;;
  w' <- (if training self && negb (Qle_bool (dropout self) 0)
         then Dropout.functional (dropout self) true w
         else ret w) ;;
  o <- lift (output self w' value) ;;
  ret (o, w').

Definition parameters (self : t) : list (Param F) :=
  [in_proj_weight self; in_proj_bias self] ++ Linear.parameters (out_proj self).
End Def.
End MultiheadAttention.

(* ------------------------------------------------------------------ *)
(** ** The source file *)

(** [_get_activation_fn(activation)] *)
Definition _get_activation_fn (activation : string) : result activation_fn :=
  if (activation =? "relu")%string then Ok F_relu
  else if (activation =? "gelu")%string then Ok F_gelu
  else if (activation =? "glu")%string then Ok F_glu
  else Raise (RuntimeError ("activation should be relu/gelu, not " ++ activation ++ ".")).

(** The names [_get_activation_fn] accepts. *)
Definition supported_activations : list string := ["relu"; "gelu"; "glu"].

Module TransformerSALayer.
Section Def.
Context {F G : Type} `{Scalar F} `{Pointwise F} `{Generator G F}
        `{MultiheadAttention.Kernel (F := F)}.

Record t : Type := mk {
  self_attn : MultiheadAttention.t (F := F);
  linear1 : Linear.t (F := F);
  dropout : Dropout.t;
  linear2 : Linear.t (F := F);
  norm1 : LayerNorm.t (F := F);
  norm2 : LayerNorm.t (F := F);
  dropout1 : Dropout.t;
  dropout2 : Dropout.t;
  activation : activation_fn
}.

(** Defaults of the constructor's keyword arguments. *)
Definition default_nhead : nat := 8.
Definition default_dim_mlp : nat := 2048.
Definition default_dropout : Q := 0.
Definition default_activation : string := "gelu".

Definition __init__ (embed_dim nhead dim_mlp : nat) (dropout : Q)
    (activation : string) : M G t :=
  self_attn <- MultiheadAttention.__init__ embed_dim nhead dropout ;;
  linear1 <- Linear.__init__ embed_dim dim_mlp true ;;
  dropout0 <- lift (Dropout.__init__ dropout) ;;
  linear2 <- Linear.__init__ dim_mlp embed_dim true ;;
  let norm1 := LayerNorm.__init__ embed_dim in
  let norm2 := LayerNorm.__init__ embed_dim in
  dropout1 <- lift (Dropout.__init__ dropout) ;;
  dropout2 <- lift (Dropout.__init__ dropout) ;;
  act <- lift (_get_activation_fn activation) ;;
  ret (mk self_attn linear1 dropout0 linear2 norm1 norm2 dropout1 dropout2 act).

Definition with_pos_embed (tensor : Tensor F) (pos : option (Tensor F))
  : result (Tensor F) :=
  match pos with
  | None => Ok tensor
  | Some pos => tensor_add tensor pos
  end.

Definition forward (self : t) (tgt : Tensor F)
    (tgt_mask : option (Tensor F)) (tgt_key_padding_mask : option (Tensor bool))
    (query_pos : option (Tensor F)) : M G (Tensor F) :=
  (* self attention *)
  tgt2 <- lift (LayerNorm.forward (norm1 self) tgt) ;;
  q <- lift (with_pos_embed tgt2 query_pos) ;;
  let k := q in
  att <- MultiheadAttention.forward (self_attn self) q k tgt2
           tgt_mask tgt_key_padding_mask ;;
  let tgt2 := fst att in
  d1 <- Dropout.forward (dropout1 self) tgt2 ;;
  tgt <- lift (tensor_add tgt d1) ;;
  (* ffn *)
  tgt2 <- lift (LayerNorm.forward (norm2 self) tgt) ;;
  h <- lift (Linear.forward (linear1 self) tgt2) ;;
  a <- lift (apply_activation (activation self) h) ;;
  d <- Dropout.forward (dropout self) a ;;
  tgt2 <- lift (Linear.forward (linear2 self) d) ;;
  d2 <- Dropout.forward (dropout2 self) tgt2 ;;
  tgt <- lift (tensor_add tgt d2) ;;
  ret tgt.

(** The step as the specification words it, without the dropout modules:
    normalize, attend with query and key [n1 + query_pos] and value [n1],
    add to [tgt], normalize, [linear2(activation(linear1(.)))], add. *)
Definition spec_forward (self : t) (tgt : Tensor F)
    (tgt_mask : option (Tensor F)) (tgt_key_padding_mask : option (Tensor bool))
    (query_pos : option (Tensor F)) : result (Tensor F) :=
  n1 <~ LayerNorm.forward (norm1 self) tgt ;;
  q <~ with_pos_embed n1 query_pos ;;
  w <~ MultiheadAttention.weights (self_attn self) q q tgt_mask tgt_key_padding_mask ;;
  att <~ MultiheadAttention.output (self_attn self) w n1 ;;
  t1 <~ tensor_add tgt att ;;
  n2 <~ LayerNorm.forward (norm2 self) t1 ;;
  h <~ Linear.forward (linear1 self) n2 ;;
  a <~ apply_activation (activation self) h ;;
  f <~ Linear.forward (linear2 self) a ;;
  tensor_add t1 f.

Definition parameters (self : t) : list (Param F) :=
  MultiheadAttention.parameters (self_attn self)
    ++ Linear.parameters (linear1 self)
    ++ Linear.parameters (linear2 self)
    ++ LayerNorm.parameters (norm1 self)
    ++ LayerNorm.parameters (norm2 self).
End Def.
End TransformerSALayer.

(** *** The inherited tokenizer

    [CodeFormer2] extends [VQVAE] (basicsr/archs/vqvae_arch.py), whose code is
    not part of this file.  Its state is an [nn.Module] tree of named
    parameters and named sub-modules; its computations are an interface. *)

Local Unset Elimination Schemes.
Inductive nn_Module (F : Type) : Type :=
| nn_mk (own : list (string * Param F)) (children : list (string * nn_Module F)).
Local Set Elimination Schemes.
Arguments nn_mk {F} own children.

Section ModuleTree.
Context {F : Type}.

Definition own_parameters (m : nn_Module F) : list (string * Param F) :=
  match m with nn_mk own _ => own end.

Definition named_children (m : nn_Module F) : list (string * nn_Module F) :=
  match m with nn_mk _ cs => cs end.

(** [m.parameters()] *)
Fixpoint parameters (m : nn_Module F) : list (Param F) :=
  match m with
  | nn_mk own cs => map snd own ++ flat_map (fun c => parameters (snd c)) cs
  end.

(** [for param in m.parameters(): param.requires_grad = b] *)
Fixpoint requires_grad_ (b : bool) (m : nn_Module F) : nn_Module F :=
  match m with
  | nn_mk own cs =>
      nn_mk (map (fun np => (fst np, set_requires_grad b (snd np))) own)
            (map (fun c => (fst c, requires_grad_ b (snd c))) cs)
  end.

Fixpoint assoc {A} (name : string) (l : list (string * A)) : option A :=
  match l with
  | [] => None
  | (n, a) :: r => if (n =? name)%string then Some a else assoc name r
  end.

Fixpoint update {A} (name : string) (f : A -> A) (l : list (string * A))
  : list (string * A) :=
  match l with
  | [] => []
  | (n, a) :: r =>
      if (n =? name)%string then (n, f a) :: r else (n, a) :: update name f r
  end.

(** [getattr(m, name)] for a sub-module. *)
Definition getattr (m : nn_Module F) (name : string) : result (nn_Module F) :=
  match assoc name (named_children m) with
  | Some c => Ok c
  | None => Raise (AttributeError name)
  end.

(** [for param in getattr(m, name).parameters(): param.requires_grad = b] *)
Definition requires_grad_in (b : bool) (m : nn_Module F) (name : string)
  : result (nn_Module F) :=
  _ <~ getattr m name ;;
  Ok (nn_mk (own_parameters m) (update name (requires_grad_ b) (named_children m))).
End ModuleTree.

Record VQVAEConfig : Type := mkVQVAEConfig {
  vocab_size : nat;
  z_channels : nat;
  ch : nat;
  test_mode : bool;
  share_quant_resi : nat;
  v_patch_nums : list nat
}.

(** Modelled from the spec: [VQVAE.patch_hws] is not in this file; the spec
    describes the scales as the fixed list of patch sizes 1x1, 2x2, ...,
    16x16, one pair (ph, pw) per configured patch number. *)
Definition patch_hws_of (cfg : VQVAEConfig) : list (nat * nat) :=
  map (fun pn => (pn, pn)) (v_patch_nums cfg).

(** Modelled from the spec: what the file uses of [VQVAE], whose code is not
    in this file, and of torch's checkpoint loading.  The spec gives the
    tokenizer as the interface [encode(image) -> latent] and
    [quantize_to_indices(latent) -> index tensors]: its calls are functions
    of the sub-module and of the input, they draw nothing from the random
    generator and write nothing to the model. *)
Class Tokenizer (F G : Type) : Type := {
  state_dict : Type;
  (** [VQVAE.__init__] with the keyword arguments of the configuration *)
  VQVAE_init : VQVAEConfig -> M G (nn_Module F);
  (** [torch.load(path, map_location='cpu')] *)
  torch_load : string -> result state_dict;
  (** [self.load_state_dict(sd)] *)
  load_state_dict : nn_Module F -> state_dict -> result (nn_Module F);
  (** [self.encoder(x)], [self.quant_conv(x)]: calling a sub-module *)
  call : nn_Module F -> Tensor F -> result (Tensor F);
  (** [self.quantize.f_to_idxBl_or_fhat(f, to_fhat=False)] *)
  f_to_idxBl : nn_Module F -> Tensor F -> result (list (Tensor nat))
}.

(** What the layer asks of torch's attention on sequences of shape
    (L, B, E): with the given masks it returns the attention weights, and
    from weights of that shape and the value an output of shape (L, B, E). *)
Definition attention_contract {F : Type} {SF : Scalar F}
    (K : MultiheadAttention.Kernel (F := F)) (L B E : nat)
    (attn_mask : option (Tensor F)) (key_padding_mask : option (Tensor bool)) : Prop :=
  forall (m : MultiheadAttention.t) (q k v : Tensor F),
    MultiheadAttention.embed_dim m = E ->
    shape q = [L; B; E] -> shape k = [L; B; E] -> shape v = [L; B; E] ->
    exists w,
      MultiheadAttention.weights m q k attn_mask key_padding_mask = Ok w
      /\ forall w', shape w' = shape w ->
                    exists o, MultiheadAttention.output m w' v = Ok o
                              /\ shape o = [L; B; E].

(** Number of tokens of a scale (ph, pw). *)
Definition tokens (hw : nat * nat) : nat := fst hw * snd hw.

(** Where the tokens of scale [i] start in the concatenated sequence: the
    token counts of the scales before it. *)
Definition level_offset (hws : list (nat * nat)) (i : nat) : nat :=
  list_sum (map tokens (firstn i hws)).

(** Modelled from the spec: the index pyramid the quantizer returns, whose
    code is not in this file: one tensor per scale (ph, pw), of shape
    (batch, ph * pw), holding token ids in [0, codebook_size). *)
Definition pyramid (batch codebook_size : nat) (hws : list (nat * nat))
    (idx_list : list (Tensor nat)) : Prop :=
  Forall2 (fun idx hw => shape idx = [batch; tokens hw]
                         /\ token_ids_below codebook_size idx = true)
          idx_list hws.

(** Modelled from the spec: what the inherited tokenizer does on an image
    batch [x], its code not being in this file: the sub-modules [quant_conv],
    [encoder] and [quantize] exist, the encoder followed by the quantization
    convolution returns the latent [lat] of shape (batch, 32, 16, 16), and
    the quantizer returns from it the index pyramid of the scales [hws]. *)
Definition tokenizer_contract {F G : Type} (T : Tokenizer F G) (vqvae : nn_Module F)
    (batch codebook_size : nat) (hws : list (nat * nat))
    (x lat : Tensor F) : Prop :=
  exists quant_conv encoder quantize e idx_list,
    getattr vqvae "quant_conv" = Ok quant_conv
    /\ getattr vqvae "encoder" = Ok encoder
    /\ getattr vqvae "quantize" = Ok quantize
    /\ call encoder x = Ok e
    /\ call quant_conv e = Ok lat
    /\ shape lat = [batch; 32; 16; 16]
    /\ f_to_idxBl quantize lat = Ok idx_list
    /\ pyramid batch codebook_size hws idx_list.

(** A call that neither reads nor advances the generator. *)
Definition pure_call {G A : Type} (c : M G A) : Prop :=
  exists r : result A, forall g, c g = lift r g.

(** The same tokenizer behind another [VQVAE.__init__]. *)
Definition with_VQVAE_init {F G} (T : Tokenizer F G)
    (init : VQVAEConfig -> M G (nn_Module F)) : Tokenizer F G :=
  {| state_dict := @state_dict F G T;
     VQVAE_init := init;
     torch_load := @torch_load F G T;
     load_state_dict := @load_state_dict F G T;
     call := @call F G T;
     f_to_idxBl := @f_to_idxBl F G T |}.

Module CodeFormer2.
Section Def.
Context {F G : Type} `{Scalar F} `{Pointwise F} `{Generator G F}
        `{MultiheadAttention.Kernel (F := F)} `{Tokenizer F G}.

Record t : Type := mk {
  vqvae : nn_Module F;                 (* the state inherited from VQVAE *)
  patch_hws : list (nat * nat);
  connect_list : list string;
  n_layers : nat;
  dim_embd : nat;
  dim_mlp : nat;
  position_emb : Param F;
  feat_emb : list (Embedding.t (F := F));
  ft_layers : list (TransformerSALayer.t (F := F));
  idx_pred_layer : LayerNorm.t (F := F) * Linear.t (F := F)
}.

(** The arguments of [super().__init__]. *)
Definition super_args (codebook_size : nat) : VQVAEConfig :=
  mkVQVAEConfig codebook_size 32 160 false 4 [1; 2; 3; 4; 5; 6; 8; 10; 13; 16].

Definition fix_modules : list string := ["decoder"; "quantize"; "post_quant_conv"].

Fixpoint freeze_modules (names : list string) (m : nn_Module F)
  : result (nn_Module F) :=
  match names with
  | [] => Ok m
  | module :: r => m' <~ requires_grad_in false m module ;; freeze_modules r m'
  end.

Definition __init__ (dim_embd n_head n_layers codebook_size latent_size : nat)
    (connect_list : list string) (vqvae_path : option string) : M G t :=
  let cfg := super_args codebook_size in
  base <- VQVAE_init cfg ;;
  base <- match vqvae_path with
          | Some path =>
              sd <- lift (torch_load path) ;; lift (load_state_dict base sd)
          | None => ret base
          end ;;
  let base := requires_grad_ false base in
  base <- lift (freeze_modules fix_modules base) ;;
  let dim_mlp := dim_embd * 2 in
  let position_emb := new_parameter (full [680; dim_embd] f0) in
  feat_emb <- mapM (fun _ => Embedding.__init__ codebook_size dim_embd)
                   (patch_hws_of cfg) ;;
  ft_layers <- mapM (fun _ => TransformerSALayer.__init__ dim_embd n_head dim_mlp 0
                                TransformerSALayer.default_activation)
                    (seq 0 n_layers) ;;
  lin <- Linear.__init__ dim_embd codebook_size false ;;
  ret (mk base (patch_hws_of cfg) connect_list n_layers dim_embd dim_mlp
          position_emb feat_emb ft_layers (LayerNorm.__init__ dim_embd, lin)).

(** [for i, idx in enumerate(idx_list): idx_embed_all.append(self.feat_emb[i](idx))] *)
Fixpoint embed_levels (tables : list (Embedding.t (F := F))) (i : nat)
    (idx_list : list (Tensor nat)) : result (list (Tensor F)) :=
  match idx_list with
  | [] => Ok []
  | idx :: r =>
      table <~ match nth_error tables i with
               | Some e => Ok e
               | None => Raise (IndexError "index out of range")
               end ;;
      e <~ Embedding.forward table idx ;;
      es <~ embed_levels tables (S i) r ;;
      Ok (e :: es)
  end.

Definition shape0 {A} (x : Tensor A) : result nat :=
  match shape x with
  | b :: _ => Ok b
  | [] => Raise (IndexError "tuple index out of range")
  end.

(** [idx_embed = torch.cat(idx_embed_all, dim=1).permute(1, 0, 2)] after the
    loop over the levels. *)
Definition embed_tokens (self : t) (idx_list : list (Tensor nat))
  : result (Tensor F) :=
  idx_embed_all <~ embed_levels (feat_emb self) 0 idx_list ;;
  c <~ cat1 idx_embed_all ;;
  permute102 c.

Definition forward (self : t) (x : Tensor F)
    (w : F) (detach_16 code_only adain : bool) : M G (Tensor F * Tensor F) :=
  (* Encoder *)
  quant_conv <- lift (getattr (vqvae self) "quant_conv") ;;
  encoder <- lift (getattr (vqvae self) "encoder") ;;
  e <- lift (call encoder x) ;;
  x <- lift (call quant_conv e) ;;
  let lq_feat := x in
  quantize <- lift (getattr (vqvae self) "quantize") ;;
  idx_list <- lift (f_to_idxBl quantize lq_feat) ;;
  u <- lift (unsqueeze1 (data (position_emb self))) ;;
  b <- lift (shape0 x) ;;
  pos_emb <- lift (repeat3 u 1 b 1) ;;
  idx_embed <- lift (embed_tokens self idx_list) ;;
  let query_emb := idx_embed in
  query_emb <- foldM (fun q layer =>
                        TransformerSALayer.forward layer q None None (Some pos_emb))
                     (ft_layers self) query_emb ;;
  n <- lift (LayerNorm.forward (fst (idx_pred_layer self)) query_emb) ;;
  logits <- lift (Linear.forward (snd (idx_pred_layer self)) n) ;;
  logits <- lift (permute102 logits) ;;
  ret (logits, lq_feat).
(** The modules [_init_weights] tells apart with [isinstance]. *)
Inductive submodule : Type :=
| IsLinear (m : Linear.t (F := F))
| IsEmbedding (m : Embedding.t (F := F))
| IsLayerNorm (m : LayerNorm.t (F := F))
| IsOther (m : nn_Module F).

(** [p.data = d]: the flag of the parameter is kept. *)
Definition set_data (p : Param F) (d : Tensor F) : Param F :=
  mkParam d (requires_grad p).

Definition _init_weights (module : submodule) : M G submodule :=
  match module with
  | IsLinear m =>
      w <- random_tensor (shape (data (Linear.weight m))) ;;
      let bias := match Linear.bias m with
                  | Some b => Some (set_data b (full (shape (data b)) f0))
                  | None => None
                  end in
      ret (IsLinear (Linear.mk (Linear.in_features m) (Linear.out_features m)
                       (set_data (Linear.weight m) w) bias))
  | IsEmbedding m =>
      w <- random_tensor (shape (data (Embedding.weight m))) ;;
      ret (IsEmbedding (Embedding.mk (Embedding.num_embeddings m)
                          (Embedding.embedding_dim m)
                          (set_data (Embedding.weight m) w)))
  | IsLayerNorm m =>
      let b := LayerNorm.bias m in
      let w := LayerNorm.weight m in
      ret (IsLayerNorm (LayerNorm.mk (LayerNorm.normalized_shape m) (LayerNorm.eps m)
                          (set_data w (full (shape (data w)) f1))
                          (set_data b (full (shape (data b)) f0))))
  | IsOther m => ret (IsOther m)
  end.

Definition submodule_parameters (module : submodule) : list (Param F) :=
  match module with
  | IsLinear m => Linear.parameters m
  | IsEmbedding m => Embedding.parameters m
  | IsLayerNorm m => LayerNorm.parameters m
  | IsOther m => parameters m
  end.

(** The parameters the constructor adds to the inherited ones. *)
Definition new_parameters (self : t) : list (Param F) :=
  position_emb self
    :: flat_map Embedding.parameters (feat_emb self)
    ++ flat_map TransformerSALayer.parameters (ft_layers self)
    ++ LayerNorm.parameters (fst (idx_pred_layer self))
    ++ Linear.parameters (snd (idx_pred_layer self)).

(** The sub-modules of the tokenizer the freezing policy names. *)
Definition tokenizer_modules : list string :=
  ["encoder"; "decoder"; "quantize"; "quant_conv"; "post_quant_conv"].
End Def.
End CodeFormer2.

Module PositionEmbeddingSine.
Section Def.
Context {F : Type} `{Scalar F}.

Record t : Type := mk {
  num_pos_feats : nat;
  temperature : F;
  normalize : bool;
  scale : F
}.

Definition __init__ (num_pos_feats : nat) (temperature : F) (normalize : bool)
    (scale : option F) : result t :=
  match scale, normalize with
  | Some _, false => Raise (ValueError "normalize should be True if scale is passed")
  | _, _ =>
      let scale := match scale with
                   | None => fmul (f_of_nat 2) fpi
                   | Some s => s
                   end in
      Ok (mk num_pos_feats temperature normalize scale)
  end.

(** [x.size(d)] *)
Definition size {A} (x : Tensor A) (d : nat) : result nat :=
  match nth_error (shape x) d with
  | Some n => Ok n
  | None => Raise (IndexError "Dimension out of range")
  end.

Definition count_true (l : list bool) : nat := List.length (filter (fun b => b) l).

(** [m.cumsum(1, dtype=torch.float32)] on a mask of three axes. *)
Definition cumsum1 (m : Tensor bool) : Tensor F :=
  mkTensor (shape m)
    (fun ix => match ix with
               | [b; i; j] =>
                   f_of_nat (count_true (map (fun i' => get m [b; i'; j]) (seq 0 (S i))))
               | _ => f0
               end).

(** [m.cumsum(2, dtype=torch.float32)] *)
Definition cumsum2 (m : Tensor bool) : Tensor F :=
  mkTensor (shape m)
    (fun ix => match ix with
               | [b; i; j] =>
                   f_of_nat (count_true (map (fun j' => get m [b; i; j']) (seq 0 (S j))))
               | _ => f0
               end).

(** [eps = 1e-6] *)
Definition eps : Q := 1 # 1000000.

(** [y_embed / (y_embed[:, -1:, :] + eps) * scale] *)
Definition normalize_y (self : t) (y_embed : Tensor F) : Tensor F :=
  let h := nth 1 (shape y_embed) 0 in
  mkTensor (shape y_embed)
    (fun ix => match ix with
               | [b; i; j] =>
                   fmul (fdiv (get y_embed ix)
                              (fadd (get y_embed [b; h - 1; j]) (f_of_Q eps)))
                        (scale self)
               | _ => get y_embed ix
               end).

(** [x_embed / (x_embed[:, :, -1:] + eps) * scale] *)
Definition normalize_x (self : t) (x_embed : Tensor F) : Tensor F :=
  let w := nth 2 (shape x_embed) 0 in
  mkTensor (shape x_embed)
    (fun ix => match ix with
               | [b; i; j] =>
                   fmul (fdiv (get x_embed ix)
                              (fadd (get x_embed [b; i; w - 1]) (f_of_Q eps)))
                        (scale self)
               | _ => get x_embed ix
               end).

(** [dim_t = temperature ** (2 * (arange(num_pos_feats) // 2) / num_pos_feats)];
    [arange] holds the integers 0, 1, ..., on which the floor division by
    2 is the integer one. *)
Definition dim_t (self : t) : Tensor F :=
  mkTensor [num_pos_feats self]
    (fun ix => match ix with
               | [i] => fpow (temperature self)
                          (fdiv (fmul (f_of_nat 2) (f_of_nat (i / 2)))
                                (f_of_nat (num_pos_feats self)))
               | _ => f0
               end).

(** [embed[:, :, :, None] / dim_t] *)
Definition div_dim_t (embed dim_t : Tensor F) : Tensor F :=
  mkTensor (shape embed ++ shape dim_t)
    (fun ix => match ix with
               | [b; i; j; c] => fdiv (get embed [b; i; j]) (get dim_t [c])
               | _ => f0
               end).

(** [torch.stack((p[:, :, :, 0::2].sin(), p[:, :, :, 1::2].cos()), dim=4).flatten(3)]:
    the two slices have [(n + 1) / 2] and [n / 2] channels and [stack]
    wants them equal; channel [2k + s] of the result is entry [k] of
    slice [s]. *)
Definition sin_cos (p : Tensor F) : result (Tensor F) :=
  match shape p with
  | [b; h; w; n] =>
      if (n + 1) / 2 =? n / 2
      then Ok (mkTensor [b; h; w; n / 2 * 2]
                 (fun ix => match ix with
                            | [bi; i; j; c] =>
                                if c mod 2 =? 0
                                then fsin (get p [bi; i; j; 2 * (c / 2)])
                                else fcos (get p [bi; i; j; 2 * (c / 2) + 1])
                            | _ => f0
                            end))
      else Raise (RuntimeError "stack expects each tensor to be equal size")
  | _ => Raise (IndexError "too many indices for tensor")
  end.

(** [torch.cat((pos_y, pos_x), dim=3).permute(0, 3, 1, 2)] *)
Definition cat3_permute (pos_y pos_x : Tensor F) : result (Tensor F) :=
  match shape pos_y, shape pos_x with
  | [b; h; w; n], [b'; h'; w'; n'] =>
      if (b =? b') && (h =? h') && (w =? w')
      then Ok (mkTensor [b; n + n'; h; w]
                 (fun ix => match ix with
                            | [bi; c; i; j] =>
                                if c <? n then get pos_y [bi; i; j; c]
                                else get pos_x [bi; i; j; c - n]
                            | _ => f0
                            end))
      else Raise (RuntimeError "Sizes of tensors must match except in dimension 3")
  | _, _ => Raise (RuntimeError "Tensors must have same number of dimensions")
  end.

(** The mask the call works on: the one passed, or
    [torch.zeros((x.size(0), x.size(2), x.size(3)), dtype=torch.bool)]. *)
Definition mask_or_default (x : Tensor F) (mask : option (Tensor bool))
  : result (Tensor bool) :=
  match mask with
  | Some m => Ok m
  | None =>
      b <~ size x 0 ;; h <~ size x 2 ;; w <~ size x 3 ;;
      Ok (full [b; h; w] false)
  end.

(** [y_embed] and [x_embed] as they are when the division by [dim_t]
    happens: the cumulative counts of unmasked pixels, normalized if the
    module says so. *)
Definition y_embed_of (self : t) (mask : Tensor bool) : Tensor F :=
  let not_mask := tmap negb mask in
  let y_embed := cumsum1 not_mask in
  if normalize self then normalize_y self y_embed else y_embed.

Definition x_embed_of (self : t) (mask : Tensor bool) : Tensor F :=
  let not_mask := tmap negb mask in
  let x_embed := cumsum2 not_mask in
  if normalize self then normalize_x self x_embed else x_embed.

Definition forward (self : t) (x : Tensor F) (mask : option (Tensor bool))
  : result (Tensor F) :=
  mask <~ mask_or_default x mask ;;
  (* with a mask of fewer axes [cumsum] raises, with one of more axes
     [torch.stack] does: the slices [0::2] and [1::2] then cut an axis of
     extent 1 *)
  if negb (List.length (shape mask) =? 3)
  then Raise (RuntimeError "the mask must have three axes")
  else
    let y_embed := y_embed_of self mask in
    let x_embed := x_embed_of self mask in
    let dim_t := dim_t self in
    let pos_x := div_dim_t x_embed dim_t in
    let pos_y := div_dim_t y_embed dim_t in
    pos_x <~ sin_cos pos_x ;;
    pos_y <~ sin_cos pos_y ;;
    cat3_permute pos_y pos_x.

(** The divisor of channel [c] as the code computes it:
    [temperature ** (2 * (c // 2) / num_pos_feats)]. *)
Definition channel_divisor (self : t) (c : nat) : F :=
  fpow (temperature self)
    (fdiv (fmul (f_of_nat 2) (f_of_nat (c / 2))) (f_of_nat (num_pos_feats self))).

(** The divisor as the specification words it:
    [temperature ^ (2 * (2 i) / num_pos_feats)]. *)
Definition spec_divisor (self : t) (i : nat) : F :=
  fpow (temperature self)
    (fdiv (fmul (f_of_nat 2) (fmul (f_of_nat 2) (f_of_nat i)))
          (f_of_nat (num_pos_feats self))).

(** Sine at even channels, cosine at odd ones. *)
Definition sin_or_cos (c : nat) (v : F) : F :=
  if Nat.even c then fsin v else fcos v.
End Def.
End PositionEmbeddingSine.

(* ------------------------------------------------------------------ *)
(** ** Adaptive instance normalization *)

Section AdaIN.
Context {F : Type} `{Scalar F}.

(** [a op b] on tensors of one shape. *)
Definition tensor_map2 (op : F -> F -> F) (a b : Tensor F) : result (Tensor F) :=
  if shape_eqb (shape a) (shape b)
  then Ok (mkTensor (shape a) (fun ix => op (get a ix) (get b ix)))
  else Raise (RuntimeError "The size of tensor a must match the size of tensor b").

(** [feat.view(b, c, -1)] on a contiguous tensor of four axes: the last two
    axes are read in row-major order.  With no element and [b * c = 0] the
    extent [-1] stands for is ambiguous, and [view] raises. *)
Definition view_b_c (feat : Tensor F) (b c : nat) : result (Tensor F) :=
  match shape feat with
  | [_; _; h; w] =>
      if b * c =? 0
      then Raise (RuntimeError "cannot reshape tensor of 0 elements: the unspecified dimension size -1 can be any value and is ambiguous")
      else Ok (mkTensor [b; c; h * w]
                 (fun ix => match ix with
                            | [bi; ci; k] => get feat [bi; ci; k / w; k mod w]
                            | _ => f0
                            end))
  | _ => Raise (RuntimeError "shape is invalid for input")
  end.

(** [t.mean(dim=2)] on a tensor of three axes. *)
Definition mean_dim2 (t : Tensor F) : Tensor F :=
  let n := nth 2 (shape t) 0 in
  mkTensor (firstn 2 (shape t))
    (fun ix => match ix with
               | [bi; ci] => fdiv (fsum n (fun k => get t [bi; ci; k])) (f_of_nat n)
               | _ => f0
               end).

(** [t.var(dim=2)]: the unbiased variance, over [n - 1]. *)
Definition var_dim2 (t : Tensor F) : Tensor F :=
  let n := nth 2 (shape t) 0 in
  mkTensor (firstn 2 (shape t))
    (fun ix => match ix with
               | [bi; ci] =>
                   let mean := fdiv (fsum n (fun k => get t [bi; ci; k])) (f_of_nat n) in
                   fdiv (fsum n (fun k => fmul (fsub (get t [bi; ci; k]) mean)
                                              (fsub (get t [bi; ci; k]) mean)))
                        (f_of_nat (n - 1))
               | _ => f0
               end).

(** [t.view(b, c, 1, 1)] on a tensor of shape (b, c). *)
Definition view_b_c_1_1 (t : Tensor F) (b c : nat) : Tensor F :=
  mkTensor [b; c; 1; 1]
    (fun ix => match ix with
               | [bi; ci; _; _] => get t [bi; ci]
               | _ => f0
               end).

(** [eps=1e-5] *)
Definition default_eps : Q := 1 # 100000.

Definition calc_mean_std (feat : Tensor F) (eps : Q) : result (Tensor F * Tensor F) :=
  let size := shape feat in
  if negb (List.length size =? 4)
  then Raise (AssertionError "The input feature should be 4D tensor.")
  else
    let b := nth 0 size 0 in
    let c := nth 1 size 0 in
    v <~ view_b_c feat b c ;;
    let feat_var := tmap (fun x => fadd x (f_of_Q eps)) (var_dim2 v) in
    let feat_std := view_b_c_1_1 (tmap fsqrt feat_var) b c in
    v' <~ view_b_c feat b c ;;
    let feat_mean := view_b_c_1_1 (mean_dim2 v') b c in
    Ok (feat_mean, feat_std).

(** The mean of channel [(bi, ci)] over its [h * w] pixels. *)
Definition channel_mean (feat : Tensor F) (h w bi ci : nat) : F :=
  fdiv (fsum (h * w) (fun k => get feat [bi; ci; k / w; k mod w])) (f_of_nat (h * w)).

(** Its standard deviation: the root of the unbiased variance plus [eps]. *)
Definition channel_std (feat : Tensor F) (eps : Q) (h w bi ci : nat) : F :=
  fsqrt (fadd (fdiv (fsum (h * w)
                       (fun k => fmul (fsub (get feat [bi; ci; k / w; k mod w])
                                            (channel_mean feat h w bi ci))
                                      (fsub (get feat [bi; ci; k / w; k mod w])
                                            (channel_mean feat h w bi ci))))
                    (f_of_nat (h * w - 1)))
              (f_of_Q eps)).

(** An extent [expand] accepts for a requested extent [n]. *)
Definition compatible (n' n : nat) : Prop := n' = n \/ n' = 1.

(** [t.expand(size)] on four axes: an axis of extent 1 is repeated, any other
    extent has to be the requested one. *)
Definition expand (t : Tensor F) (size : list nat) : result (Tensor F) :=
  match shape t, size with
  | [a; b; c; d], [a'; b'; c'; d'] =>
      if ((a =? a') || (a =? 1)) && ((b =? b') || (b =? 1))
         && ((c =? c') || (c =? 1)) && ((d =? d') || (d =? 1))
      then Ok (mkTensor size
                 (fun ix => match ix with
                            | [i; j; k; l] =>
                                get t [if a =? 1 then 0 else i;
                                       if b =? 1 then 0 else j;
                                       if c =? 1 then 0 else k;
                                       if d =? 1 then 0 else l]
                            | _ => f0
                            end))
      else Raise (RuntimeError "The expanded size of the tensor must match the existing size at non-singleton dimension")
  | _, _ => Raise (RuntimeError "expand: the number of sizes provided must be greater or equal to the number of dimensions in the tensor")
  end.

Definition adaptive_instance_normalization (content_feat style_feat : Tensor F)
  : result (Tensor F) :=
  let size := shape content_feat in
  style <~ calc_mean_std style_feat default_eps ;;
  let '(style_mean, style_std) := style in
  content <~ calc_mean_std content_feat default_eps ;;
  let '(content_mean, content_std) := content in
  cm <~ expand content_mean size ;;
  centred <~ tensor_map2 fsub content_feat cm ;;
  cs <~ expand content_std size ;;
  normalized_feat <~ tensor_map2 fdiv centred cs ;;
  ss <~ expand style_std size ;;
  scaled <~ tensor_map2 fmul normalized_feat ss ;;
  sm <~ expand style_mean size ;;
  tensor_map2 fadd scaled sm.
End AdaIN.

(* ------------------------------------------------------------------ *)
(** ** Evaluation mode *)

Section Eval.
Context {F : Type}.

(** [layer.eval()] on a [TransformerSALayer]: the attention and the three
    dropout modules leave training mode. *)
Definition layer_eval (layer : TransformerSALayer.t (F := F))
  : TransformerSALayer.t (F := F) :=
  let a := TransformerSALayer.self_attn layer in
  let off (d : Dropout.t) := Dropout.mk (Dropout.p d) false in
  TransformerSALayer.mk
    (MultiheadAttention.mk (MultiheadAttention.embed_dim a)
       (MultiheadAttention.num_heads a) (MultiheadAttention.dropout a) false
       (MultiheadAttention.in_proj_weight a) (MultiheadAttention.in_proj_bias a)
       (MultiheadAttention.out_proj a))
    (TransformerSALayer.linear1 layer)
    (off (TransformerSALayer.dropout layer))
    (TransformerSALayer.linear2 layer)
    (TransformerSALayer.norm1 layer)
    (TransformerSALayer.norm2 layer)
    (off (TransformerSALayer.dropout1 layer))
    (off (TransformerSALayer.dropout2 layer))
    (TransformerSALayer.activation layer).
(** A dropout module that hands its input through: its probability is in
    range and is 0, or the module is not in training mode. *)
Definition dropout_idle (d : Dropout.t) : Prop :=
  Qle_bool 0 (Dropout.p d) && Qle_bool (Dropout.p d) 1 = true
  /\ Qeq_bool (Dropout.p d) 0 || negb (Dropout.training d) = true.

End Eval.

(* ------------------------------------------------------------------ *)
(** ** Steps of the constructor of [CodeFormer2] *)

Section InitSteps.
Context {F G : Type} `{Tokenizer F G}.

(** [if vqvae_path is not None: self.load_state_dict(torch.load(vqvae_path))] *)
Definition load_step (vqvae_path : option string) (base : nn_Module F)
  : result (nn_Module F) :=
  match vqvae_path with
  | Some path => sd <~ torch_load path ;; load_state_dict base sd
  | None => Ok base
  end.

(** Every sub-module of the list is an attribute of the module. *)
Definition has_modules (m : nn_Module F) (names : list string) : Prop :=
  forall name, In name names -> exists c, getattr m name = Ok c.
End InitSteps.

(* ------------------------------------------------------------------ *)
(** ** Position encoding without a mask *)

Section Unmasked.
Context {F : Type} `{Scalar F}.

(** The position of pixel [i] on an axis of [extent] pixels none of which is
    masked: the cumulative count [i + 1], which [normalize] divides by
    [extent + eps] and multiplies by [scale]. *)
Definition unmasked_position (self : PositionEmbeddingSine.t) (extent i : nat) : F :=
  if PositionEmbeddingSine.normalize self
  then fmul (fdiv (f_of_nat (S i))
                  (fadd (f_of_nat extent) (f_of_Q PositionEmbeddingSine.eps)))
            (PositionEmbeddingSine.scale self)
  else f_of_nat (S i).
End Unmasked.

(* ------------------------------------------------------------------ *)
(** ** Broadcasting and views *)

Section Broadcasting.
Context {F : Type} `{Scalar F}.

(** The broadcast of two shapes, read from the last axis backwards: extents
    have to be equal unless one of them is 1; the shorter shape is filled
    up with the leading extents of the longer one. *)
Fixpoint broadcast_rev (a b : list nat) : option (list nat) :=
  match a, b with
  | [], _ => Some b
  | _, [] => Some a
  | x :: a', y :: b' =>
      match broadcast_rev a' b' with
      | Some r =>
          if x =? y then Some (x :: r)
          else if x =? 1 then Some (y :: r)
          else if y =? 1 then Some (x :: r)
          else None
      | None => None
      end
  end.

Definition broadcast_shapes (a b : list nat) : option (list nat) :=
  option_map (@rev nat) (broadcast_rev (rev a) (rev b)).

(** Where an operand of shape [s] is read for the entry [ix] of the
    broadcast result: the trailing axes of [ix], an axis of extent 1 at 0. *)
Definition broadcast_index (s ix : list nat) : list nat :=
  map (fun p => if fst p =? 1 then 0 else snd p)
      (combine s (skipn (List.length ix - List.length s) ix)).

(** [a op b] with broadcasting. *)
Definition broadcast2 (op : F -> F -> F) (a b : Tensor F) : result (Tensor F) :=
  match broadcast_shapes (shape a) (shape b) with
  | Some s =>
      Ok (mkTensor s (fun ix => op (get a (broadcast_index (shape a) ix))
                                   (get b (broadcast_index (shape b) ix))))
  | None => Raise (RuntimeError "The size of tensor a must match the size of tensor b at non-singleton dimension")
  end.

(** [a.op_(b)]: in place, so that the broadcast may not change the shape of
    [a]. *)
Definition broadcast2_ (op : F -> F -> F) (a b : Tensor F) : result (Tensor F) :=
  match broadcast_shapes (shape a) (shape b) with
  | Some s =>
      if shape_eqb s (shape a)
      then Ok (mkTensor s (fun ix => op (get a ix) (get b (broadcast_index (shape b) ix))))
      else Raise (RuntimeError "output with shape doesn't match the broadcast shape")
  | None => Raise (RuntimeError "The size of tensor a must match the size of tensor b at non-singleton dimension")
  end.

(** The index of the element at row-major position [k]. *)
Fixpoint unravel (s : list nat) (k : nat) : list nat :=
  match s with
  | [] => []
  | _ :: r => k / numel r :: unravel r (k mod numel r)
  end.

(** [t.view(-1, 1, 2, C)] on a contiguous tensor: the elements in row-major
    order under the new shape, whose first extent is what the number of
    elements leaves. *)
Definition view_m1_1_2_C (t : Tensor F) (C : nat) : result (Tensor F) :=
  let n := numel (shape t) in
  if 2 * C =? 0
  then Raise (RuntimeError "cannot reshape tensor into a shape with an ambiguous or invalid -1")
  else if n mod (2 * C) =? 0
  then let s := [n / (2 * C); 1; 2; C] in
       Ok (mkTensor s (fun ix => get t (unravel (shape t) (offset s ix))))
  else Raise (RuntimeError "shape is invalid for input").

(** [t.unbind(2)] on a tensor whose axis 2 has extent 2. *)
Definition unbind2 (t : Tensor F) : Tensor F * Tensor F :=
  let s := firstn 2 (shape t) ++ skipn 3 (shape t) in
  (mkTensor s (fun ix => match ix with
                         | m :: z :: r => get t (m :: z :: 0 :: r)
                         | _ => f0
                         end),
   mkTensor s (fun ix => match ix with
                         | m :: z :: r => get t (m :: z :: 1 :: r)
                         | _ => f0
                         end)).
End Broadcasting.

(** [Fuse_sft_block]: its sub-modules ([ResBlock] of another file and two
    stacks of [nn.Conv2d] and [nn.LeakyReLU]) are callables on tensors; the
    block is stated for every such callable. *)
Module Fuse_sft_block.
Section Def.
Context {F : Type} `{Scalar F}.

Record t : Type := mk {
  encode_enc : Tensor F -> result (Tensor F);
  scale : Tensor F -> result (Tensor F);
  shift : Tensor F -> result (Tensor F)
}.

Definition forward (self : t) (enc_feat dec_feat : Tensor F) (w : F)
  : result (Tensor F) :=
  c <~ cat1 [enc_feat; dec_feat] ;;
  enc_feat <~ encode_enc self c ;;
  scale <~ scale self enc_feat ;;
  shift <~ shift self enc_feat ;;
  m <~ broadcast2 fmul dec_feat scale ;;
  s <~ broadcast2 fadd m shift ;;
  let residual := tmap (fmul w) s in
  let out := broadcast2 fadd dec_feat residual in
  out.
End Def.
End Fuse_sft_block.

Module AdaLNBeforeHead.
Section Def.
Context {F G : Type} `{Scalar F} `{Pointwise F} `{Generator G F}.

(** [ln_wo_grad] is what the argument [norm_layer] of the constructor
    builds: a callable on tensors. *)
Record t : Type := mk {
  C : nat;
  D : nat;
  ln_wo_grad : Tensor F -> result (Tensor F);
  ada_lin : Linear.t (F := F)
}.

(** [norm_layer(C, elementwise_affine=False)] is the call of an argument:
    it gets [C] and the flag and returns the module, or raises. *)
Definition __init__ (C D : nat)
    (norm_layer : nat -> bool -> result (Tensor F -> result (Tensor F))) : M G t :=
  ln <- lift (norm_layer C false) ;;
  lin <- Linear.__init__ D (2 * C) true ;;
  ret (mk C D ln lin).

(** [nn.SiLU]: [x * sigmoid(x)]. *)
Definition silu (x : Tensor F) : Tensor F := tmap (fun v => fmul v (fsigmoid v)) x.

Definition forward (self : t) (x_BLC cond_BD : Tensor F) : result (Tensor F) :=
  lin <~ Linear.forward (ada_lin self) (silu cond_BD) ;;
  v <~ view_m1_1_2_C lin (C self) ;;
  let '(scale, shift) := unbind2 v in
  n <~ ln_wo_grad self x_BLC ;;
  m <~ broadcast2 fmul n (tmap (fun s => fadd s f1) scale) ;;
  broadcast2_ fadd m shift.
End Def.
End AdaLNBeforeHead.

(* ------------------------------------------------------------------ *)
(** ** What a constructed module looks like *)

Section Built.
Context {F G : Type} {SF : Scalar F} {PF : Pointwise F} {GF : Generator G F}
        {K : MultiheadAttention.Kernel (F := F)}.

(** Every parameter of a list has the flag [b]. *)
Definition all_flags (b : bool) (ps : list (Param F)) : Prop :=
  Forall (fun p => requires_grad p = b) ps.

(** A linear layer as [nn.Linear(i, o)] leaves it. *)
Definition Linear_built (i o : nat) (m : Linear.t (F := F)) : Prop :=
  shape (data (Linear.weight m)) = [o; i]
  /\ all_flags true (Linear.parameters m).

(** A self-attention module as [nn.MultiheadAttention(e, h, dropout=p)]
    leaves it. *)
Definition MultiheadAttention_built (e : nat) (p : Q)
    (m : MultiheadAttention.t (F := F)) : Prop :=
  MultiheadAttention.embed_dim m = e
  /\ MultiheadAttention.dropout m = p
  /\ all_flags true (MultiheadAttention.parameters m).

(** A layer as [TransformerSALayer(e, nhead, m, dropout=p, activation)]
    leaves it. *)
Definition Layer_built (e m : nat) (p : Q) (act : activation_fn)
    (l : TransformerSALayer.t (F := F)) : Prop :=
  MultiheadAttention_built e p (TransformerSALayer.self_attn l)
  /\ Linear_built e m (TransformerSALayer.linear1 l)
  /\ Linear_built m e (TransformerSALayer.linear2 l)
  /\ LayerNorm.normalized_shape (TransformerSALayer.norm1 l) = e
  /\ LayerNorm.normalized_shape (TransformerSALayer.norm2 l) = e
  /\ Dropout.p (TransformerSALayer.dropout l) = p
  /\ Dropout.p (TransformerSALayer.dropout1 l) = p
  /\ Dropout.p (TransformerSALayer.dropout2 l) = p
  /\ TransformerSALayer.activation l = act
  /\ all_flags true (TransformerSALayer.parameters l).

(** A model as [CodeFormer2(dim_embd, n_head, n_layers, codebook_size, ...)]
    leaves it. *)
Definition CodeFormer2_built (dim_embd n_layers codebook_size : nat)
    (connect_list : list string) (self : CodeFormer2.t) : Prop :=
  all_flags false (parameters (CodeFormer2.vqvae self))
  /\ CodeFormer2.patch_hws self
     = map (fun pn => (pn, pn)) [1; 2; 3; 4; 5; 6; 8; 10; 13; 16]
  /\ CodeFormer2.connect_list self = connect_list
  /\ CodeFormer2.position_emb self = new_parameter (full [680; dim_embd] f0)
  /\ List.length (CodeFormer2.feat_emb self) = 10
  /\ Forall (fun e => shape (data (Embedding.weight e)) = [codebook_size; dim_embd]
                      /\ all_flags true (Embedding.parameters e))
            (CodeFormer2.feat_emb self)
  /\ List.length (CodeFormer2.ft_layers self) = n_layers
  /\ Forall (Layer_built dim_embd (dim_embd * 2) 0 F_gelu)
            (CodeFormer2.ft_layers self)
  /\ fst (CodeFormer2.idx_pred_layer self) = LayerNorm.__init__ dim_embd
  /\ Linear_built dim_embd codebook_size (snd (CodeFormer2.idx_pred_layer self))
  /\ Linear.bias (snd (CodeFormer2.idx_pred_layer self)) = None.

(** The result of [table(idx)]. *)
Definition lookup (table : Embedding.t (F := F)) (d : nat) (idx : Tensor nat)
  : Tensor F :=
  mkTensor (shape idx ++ [d])
    (fun ix => get (data (Embedding.weight table))
                 [get idx (removelast ix); last ix 0]).

(** Extent of a tensor on axis 1. *)
Definition axis1 {A} (t : Tensor A) : nat := nth 1 (shape t) 0.

(** The steps of [TransformerSALayer.forward] on a layer built with
    dropout 0 and a pointwise activation. *)
Definition layer_steps (layer : TransformerSALayer.t) (tgt : Tensor F)
    (tgt_mask : option (Tensor F)) (tgt_key_padding_mask : option (Tensor bool))
    (query_pos : option (Tensor F)) (out : Tensor F) : Prop :=
  exists n1 q w att t1 n2 h a f,
    LayerNorm.forward (TransformerSALayer.norm1 layer) tgt = Ok n1
    /\ TransformerSALayer.with_pos_embed n1 query_pos = Ok q
    /\ (query_pos = None -> q = n1)
    /\ (forall pos, query_pos = Some pos ->
                    forall ix, get q ix = fadd (get n1 ix) (get pos ix))
    /\ MultiheadAttention.weights (TransformerSALayer.self_attn layer) q q
         tgt_mask tgt_key_padding_mask = Ok w
    /\ MultiheadAttention.output (TransformerSALayer.self_attn layer) w n1 = Ok att
    /\ tensor_add tgt att = Ok t1
    /\ LayerNorm.forward (TransformerSALayer.norm2 layer) t1 = Ok n2
    /\ Linear.forward (TransformerSALayer.linear1 layer) n2 = Ok h
    /\ apply_activation (TransformerSALayer.activation layer) h = Ok a
    /\ Linear.forward (TransformerSALayer.linear2 layer) a = Ok f
    /\ tensor_add t1 f = Ok out.

End Built.

(* ------------------------------------------------------------------ *)
(** ** Instances *)

(** Integers as scalars, with stand-ins for the transcendental functions:
    enough to run the code on small inputs. *)
Module ZInst.
#[export] Instance scalar : Scalar Z := {|
  f0 := 0%Z; f1 := 1%Z;
  fadd := Z.add; fsub := Z.sub; fmul := Z.mul; fdiv := Z.div;
  fpow := Z.pow; fsqrt := Z.sqrt;
  fsin := fun x => x; fcos := fun x => (x + 1)%Z;
  f_of_nat := Z.of_nat; f_of_Q := fun q => (Qnum q / Zpos (Qden q))%Z;
  fpi := 3%Z
|}.

#[export] Instance pointwise : Pointwise Z := {|
  frelu := Z.max 0; fgelu := Z.max 0; fsigmoid := fun x => x
|}.

(** A counter as generator: draw [n], move to [n + 1]. *)
#[export] Instance generator : Generator nat Z := {|
  sample := fun g => (Z.of_nat g, S g);
  bernoulli := fun _ g => (Nat.even g, S g)
|}.

(** An attention that hands the value through. *)
#[export] Instance kernel : MultiheadAttention.Kernel (F := Z) := {|
  MultiheadAttention.weights := fun _ q _ _ _ => Ok q;
  MultiheadAttention.output := fun _ _ v => Ok v
|}.

Definition leaf (flag : bool) : nn_Module Z :=
  nn_mk [("weight", mkParam (full [1] 0%Z) flag)] [].

(** A tokenizer of the documented interface: five sub-modules with one
    trainable parameter each, a latent of zeros of size (B, 32, 16, 16)
    and token 0 at every position of every scale. *)
#[export] Instance tokenizer : Tokenizer Z nat := {|
  state_dict := unit;
  VQVAE_init := fun cfg =>
    ret (nn_mk [] [("encoder", leaf true); ("decoder", leaf true);
                   ("quantize", leaf true); ("quant_conv", leaf true);
                   ("post_quant_conv", leaf true)]);
  torch_load := fun path => Raise (IOError path);
  load_state_dict := fun m _ => Ok m;
  call := fun _ x => Ok (full [hd 0 (shape x); 32; 16; 16] 0%Z);
  f_to_idxBl := fun _ f =>
    Ok (map (fun pn => full [hd 0 (shape f); pn * pn] 0)
            [1; 2; 3; 4; 5; 6; 8; 10; 13; 16])
|}.
End ZInst.

(** The real numbers: float arithmetic read exactly. *)
Module RInst.
#[export] Instance scalar : Scalar R := {|
  f0 := 0%R; f1 := 1%R;
  fadd := Rplus; fsub := Rminus; fmul := Rmult; fdiv := Rdiv;
  fpow := Rpower; fsqrt := sqrt;
  fsin := sin; fcos := cos;
  f_of_nat := INR; f_of_Q := fun q => (IZR (Qnum q) / IZR (Zpos (Qden q)))%R;
  fpi := PI
|}.
End RInst.

Import ZInst RInst.

(** [PositionEmbeddingSine(num_pos_feats=4)] and
    [PositionEmbeddingSine(num_pos_feats=1)], with the default temperature
    10000. *)
Definition sine4 : PositionEmbeddingSine.t (F := R) :=
  PositionEmbeddingSine.mk 4 10000%R false (fmul (f_of_nat 2) fpi).

Definition sine1 : PositionEmbeddingSine.t (F := R) :=
  PositionEmbeddingSine.mk 1 10000%R false (fmul (f_of_nat 2) fpi).

(** The index pyramid of a batch of two images, token 0 everywhere. *)
Definition zero_pyramid : list (Tensor nat) :=
  map (fun pn => full [2; pn * pn] 0) [1; 2; 3; 4; 5; 6; 8; 10; 13; 16].

(** A tokenizer constructor that refuses every configuration but the one of
    [CodeFormer2]. *)
Definition strict_VQVAE_init (cfg : VQVAEConfig) : M nat (nn_Module Z) :=
  if (z_channels cfg =? 32) && (ch cfg =? 160)
  then VQVAE_init cfg
  else raise (ValueError "unexpected configuration").


(* ------------------------------------------------------------------ *)
(** ** Reasoning about calls *)

Lemma bind_ok_inv {G A B} (m : M G A) (k : A -> M G B) g b g2 :
  bind m k g = Ok (b, g2) ->
  exists a g1, m g = Ok (a, g1) /\ k a g1 = Ok (b, g2).
Proof.
  unfold bind. destruct (m g) as [[a g1]|e]; [|discriminate].
  intros Hk. exists a, g1. split; [reflexivity|exact Hk].
Qed.

Lemma lift_ok_inv {G A} (r : result A) (g : G) a g' :
  lift r g = Ok (a, g') -> r = Ok a /\ g' = g.
Proof.
  unfold lift. destruct r; intros E; inversion E; subst; auto.
Qed.

Lemma ret_ok_inv {G A} (a : A) (g : G) b g' :
  ret a g = Ok (b, g') -> b = a /\ g' = g.
Proof. unfold ret. intros E; inversion E; auto. Qed.

Lemma rbind_ok_inv {A B} (r : result A) (k : A -> result B) b :
  rbind r k = Ok b -> exists a, r = Ok a /\ k a = Ok b.
Proof.
  destruct r as [a|e]; simpl; [|discriminate]. intros Hk. exists a. auto.
Qed.

Lemma bind_always_raises {G A B} (m : M G A) (k : A -> M G B) g :
  (forall a g', exists e, k a g' = Raise e) -> exists e, bind m k g = Raise e.
Proof.
  intros Hk. unfold bind. destruct (m g) as [[a g']|e]; eauto.
Qed.

(* ------------------------------------------------------------------ *)
(** ** The activation table *)

Lemma get_activation_fn_supported (activation : string) :
  In activation supported_activations ->
  exists fn, _get_activation_fn activation = Ok fn.
Proof.
  unfold supported_activations. simpl.
  intros [<-|[<-|[<-|[]]]]; eexists; reflexivity.
Qed.

Lemma get_activation_fn_unsupported (activation : string) :
  ~ In activation supported_activations ->
  _get_activation_fn activation
  = Raise (RuntimeError ("activation should be relu/gelu, not " ++ activation ++ ".")).
Proof.
  unfold supported_activations, _get_activation_fn. simpl. intros Hn.
  destruct (String.eqb_spec activation "relu") as [->|_]; [exfalso; auto|].
  destruct (String.eqb_spec activation "gelu") as [->|_]; [exfalso; auto|].
  destruct (String.eqb_spec activation "glu") as [->|_]; [exfalso; auto 6|].
  reflexivity.
Qed.

(** C9.  [_get_activation_fn] raises exactly on the names outside
    relu, gelu, glu and returns [F.relu], [F.gelu], [F.glu] on these; a
    [TransformerSALayer] asked for any other name is not constructed:
    its constructor raises, whatever its other arguments and the state of
    the generator. *)
Theorem get_activation_fn_raises_iff_unsupported :
  forall (F G : Type) (SF : Scalar F) (PF : Pointwise F) (GF : Generator G F)
         (K : MultiheadAttention.Kernel (F := F))
         (activation : string) (embed_dim nhead dim_mlp : nat) (dropout : Q) (g : G),
    ((exists e, _get_activation_fn activation = Raise e)
     <-> ~ In activation supported_activations)
    /\ _get_activation_fn "relu" = Ok F_relu
    /\ _get_activation_fn "gelu" = Ok F_gelu
    /\ _get_activation_fn "glu" = Ok F_glu
    /\ (~ In activation supported_activations ->
        exists e,
          TransformerSALayer.__init__ embed_dim nhead dim_mlp dropout activation g
          = Raise e).
Proof.
  intros. repeat split; try reflexivity.
  - intros [e He] Hin.
    destruct (get_activation_fn_supported Hin) as [fn Hfn]. congruence.
  - intros Hn. eexists. apply get_activation_fn_unsupported, Hn.
  - intros Hn. unfold TransformerSALayer.__init__.
    do 4 (apply bind_always_raises; intros). cbv zeta.
    do 2 (apply bind_always_raises; intros).
    unfold bind, lift. rewrite (get_activation_fn_unsupported Hn). eauto.
Qed.

(* ------------------------------------------------------------------ *)
(** ** Construction of the sine position embedding *)

(** C8.  [PositionEmbeddingSine.__init__] raises (a [ValueError]) exactly
    when a scale is passed while [normalize] is [False]; in every other case
    it returns the module with its arguments stored, the scale being
    [2 * math.pi] when none is passed. *)
Theorem PositionEmbeddingSine_init_raises_iff :
  forall (F : Type) (SF : Scalar F) (num_pos_feats : nat) (temperature : F)
         (normalize : bool) (scale : option F),
    ((exists e, PositionEmbeddingSine.__init__ num_pos_feats temperature normalize scale
                = Raise e)
     <-> (scale <> None /\ normalize = false))
    /\ ((scale <> None /\ normalize = false) ->
        PositionEmbeddingSine.__init__ num_pos_feats temperature normalize scale
        = Raise (ValueError "normalize should be True if scale is passed"))
    /\ (~ (scale <> None /\ normalize = false) ->
        PositionEmbeddingSine.__init__ num_pos_feats temperature normalize scale
        = Ok (PositionEmbeddingSine.mk num_pos_feats temperature normalize
                (match scale with
                 | Some s => s
                 | None => fmul (f_of_nat 2) fpi
                 end))).
Proof.
  intros. unfold PositionEmbeddingSine.__init__.
  destruct scale as [s|], normalize; simpl.
  all: split; [split|split].
  all: try (intros [e He]; discriminate He).
  all: try (intros [Hs Hn]; first [discriminate Hn | exfalso; apply Hs; reflexivity]).
  all: try reflexivity.
  all: try (intros _; first [reflexivity | eexists; reflexivity
                            | split; [discriminate | reflexivity]]).
  all: try (intros Hc; exfalso; apply Hc; split; [discriminate | reflexivity]).
Qed.

(* ------------------------------------------------------------------ *)
(** ** Arguments the network does not read *)

Section Unused.
Context {F G : Type} {SF : Scalar F} {PF : Pointwise F} {GF : Generator G F}
        {K : MultiheadAttention.Kernel (F := F)}.

(** C6.  [w], [detach_16], [code_only] and [adain] do not reach the
    computation of [forward]: the call returns the same result (the same
    pair, the same exception, the same generator state) for any two
    choices of them. *)
Theorem forward_ignores_w_and_flags :
  forall (T : Tokenizer F G) (self : CodeFormer2.t) (x : Tensor F)
         (w w' : F) (detach_16 detach_16' code_only code_only' adain adain' : bool)
         (g : G),
    CodeFormer2.forward self x w detach_16 code_only adain g
    = CodeFormer2.forward self x w' detach_16' code_only' adain' g.
Proof. reflexivity. Qed.

Lemma init_connect_list (T : Tokenizer F G)
    (dim_embd n_head n_layers codebook_size ls1 ls2 : nat)
    (cl1 cl2 : list string) (vqvae_path : option string) (g : G) :
  match CodeFormer2.__init__ dim_embd n_head n_layers codebook_size ls1 cl1 vqvae_path g,
        CodeFormer2.__init__ dim_embd n_head n_layers codebook_size ls2 cl2 vqvae_path g
  with
  | Ok (m1, g1), Ok (m2, g2) =>
      g1 = g2
      /\ CodeFormer2.connect_list m1 = cl1 /\ CodeFormer2.connect_list m2 = cl2
      /\ m2 = CodeFormer2.mk (CodeFormer2.vqvae m1) (CodeFormer2.patch_hws m1) cl2
                (CodeFormer2.n_layers m1) (CodeFormer2.dim_embd m1)
                (CodeFormer2.dim_mlp m1) (CodeFormer2.position_emb m1)
                (CodeFormer2.feat_emb m1) (CodeFormer2.ft_layers m1)
                (CodeFormer2.idx_pred_layer m1)
  | Raise e1, Raise e2 => e1 = e2
  | _, _ => False
  end.
Proof.
  unfold CodeFormer2.__init__, bind, lift, ret.
  destruct vqvae_path; cbv beta.
  all: repeat match goal with
         | |- context [match ?c with Ok _ => _ | Raise _ => _ end] =>
             match c with
             | context [match _ with Ok _ => _ | Raise _ => _ end] => fail 1
             | _ => first [destruct c as [[? ?]|?] | destruct c as [?|?]]
             end
         end; auto.
Qed.

(** C10.  [latent_size] and [connect_list] do not reach the computation:
    the inherited tokenizer is built from the configuration
    [vocab_size=codebook_size, z_channels=32, ch=160, test_mode=False,
    share_quant_resi=4, v_patch_nums=(1,2,3,4,5,6,8,10,13,16)] and from no
    other (replacing [VQVAE.__init__] by any constructor that agrees with
    it on this configuration changes nothing), and two constructions that
    differ in [latent_size] and [connect_list] only either raise the same
    exception or return models on which [forward] gives the same result
    for every input. *)
Theorem latent_size_and_connect_list_unused :
  forall (T : Tokenizer F G) (init' : VQVAEConfig -> M G (nn_Module F))
         (dim_embd n_head n_layers codebook_size ls1 ls2 : nat)
         (cl1 cl2 : list string) (vqvae_path : option string) (g : G),
    init' (mkVQVAEConfig codebook_size 32 160 false 4 [1; 2; 3; 4; 5; 6; 8; 10; 13; 16])
    = VQVAE_init (mkVQVAEConfig codebook_size 32 160 false 4
                    [1; 2; 3; 4; 5; 6; 8; 10; 13; 16]) ->
    @CodeFormer2.__init__ F G SF GF (with_VQVAE_init T init')
      dim_embd n_head n_layers codebook_size ls1 cl1 vqvae_path g
    = @CodeFormer2.__init__ F G SF GF T
        dim_embd n_head n_layers codebook_size ls1 cl1 vqvae_path g
    /\ match CodeFormer2.__init__ dim_embd n_head n_layers codebook_size ls1 cl1
               vqvae_path g,
             CodeFormer2.__init__ dim_embd n_head n_layers codebook_size ls2 cl2
               vqvae_path g
       with
       | Ok (m1, g1), Ok (m2, g2) =>
           g1 = g2
           /\ forall x w detach_16 code_only adain g',
               CodeFormer2.forward m1 x w detach_16 code_only adain g'
               = CodeFormer2.forward m2 x w detach_16 code_only adain g'
       | Raise e1, Raise e2 => e1 = e2
       | _, _ => False
       end.
Proof.
  intros T init' dim_embd n_head n_layers codebook_size ls1 ls2 cl1 cl2 path g Hinit.
  split.
  - unfold CodeFormer2.__init__, CodeFormer2.super_args, bind. simpl.
    rewrite Hinit. reflexivity.
  - pose proof (init_connect_list T dim_embd n_head n_layers codebook_size
                  ls1 ls2 cl1 cl2 path g) as Hc.
    destruct (CodeFormer2.__init__ dim_embd n_head n_layers codebook_size ls1 cl1 path g)
      as [[m1 g1]|e1];
      destruct (CodeFormer2.__init__ dim_embd n_head n_layers codebook_size ls2 cl2 path g)
      as [[m2 g2]|e2]; try exact Hc.
    destruct Hc as (Hg & _ & _ & Hm). split; [exact Hg|].
    intros. subst m2. reflexivity.
Qed.
End Unused.

(* ------------------------------------------------------------------ *)
(** ** The freezing policy *)

Section Freezing.
Context {F : Type}.

(** Induction on a module tree: the property holds of a module when it
    holds of all its sub-modules. *)
Fixpoint nn_Module_induction (P : nn_Module F -> Prop)
    (step : forall own cs, Forall (fun c => P (snd c)) cs -> P (nn_mk own cs))
    (m : nn_Module F) : P m :=
  match m with
  | nn_mk own cs =>
      step own cs
        ((fix children (l : list (string * nn_Module F))
            : Forall (fun c => P (snd c)) l :=
            match l with
            | [] => Forall_nil _
            | c :: r =>
                Forall_cons c (nn_Module_induction P step (snd c)) (children r)
            end) cs)
  end.

Lemma set_requires_grad_fixed (b : bool) (p : Param F) :
  requires_grad p = b -> set_requires_grad b p = p.
Proof. destruct p; simpl; intros ->; reflexivity. Qed.

Lemma requires_grad__all_flags (b : bool) (m : nn_Module F) :
  all_flags b (parameters (requires_grad_ b m)).
Proof.
  induction m as [own cs IH] using nn_Module_induction.
  unfold all_flags in *. simpl. apply Forall_app. split.
  - rewrite map_map. apply Forall_map. apply Forall_forall. intros; reflexivity.
  - apply Forall_flat_map. apply Forall_map. simpl.
    exact IH.
Qed.

Lemma requires_grad__fixed (b : bool) (m : nn_Module F) :
  all_flags b (parameters m) -> requires_grad_ b m = m.
Proof.
  induction m as [own cs IH] using nn_Module_induction.
  unfold all_flags in *. simpl. intros Hall.
  apply Forall_app in Hall. destruct Hall as [Hown Hcs].
  f_equal.
  - clear IH Hcs. induction own as [|[n p] own IHown]; simpl; [reflexivity|].
    simpl in Hown. inversion Hown as [|? ? Hp Hrest].
    rewrite (set_requires_grad_fixed p Hp). f_equal. auto.
  - apply Forall_flat_map in Hcs.
    induction cs as [|[n c] cs IHcs]; simpl; [reflexivity|].
    inversion IH as [|? ? IHc IHr]. inversion Hcs as [|? ? Hc Hr]. simpl in *.
    f_equal; [f_equal; auto|auto].
Qed.

Lemma update_fixed {A} (name : string) (f : A -> A) (l : list (string * A)) :
  Forall (fun c => f (snd c) = snd c) l -> update name f l = l.
Proof.
  induction 1 as [|[n a] r Ha _ IH]; simpl; [reflexivity|].
  simpl in Ha. destruct (n =? name)%string; [rewrite Ha|rewrite IH]; reflexivity.
Qed.

Lemma assoc_In {A} (name : string) (l : list (string * A)) (a : A) :
  assoc name l = Some a -> exists n, In (n, a) l.
Proof.
  induction l as [|[n x] r IH]; simpl; [discriminate|].
  destruct (n =? name)%string.
  - intros E; inversion E; subst. eauto.
  - intros E. destruct (IH E) as [n' Hn']. eauto.
Qed.

Lemma getattr_parameters (m c : nn_Module F) (name : string) (b : bool) :
  getattr m name = Ok c ->
  all_flags b (parameters m) -> all_flags b (parameters c).
Proof.
  unfold getattr, all_flags. destruct m as [own cs]. simpl.
  destruct (assoc name cs) as [c'|] eqn:E; [|discriminate].
  intros Hc Hall. inversion Hc; subst c'.
  apply Forall_app in Hall. destruct Hall as [_ Hcs].
  apply Forall_flat_map in Hcs.
  destruct (assoc_In _ _ E) as [n Hin].
  rewrite Forall_forall in Hcs. exact (Hcs _ Hin).
Qed.

Lemma requires_grad_in_fixed (b : bool) (m m' : nn_Module F) (name : string) :
  all_flags b (parameters m) ->
  requires_grad_in b m name = Ok m' -> m' = m.
Proof.
  unfold requires_grad_in. intros Hall Hr.
  apply rbind_ok_inv in Hr. destruct Hr as (c & _ & Hr).
  inversion Hr; subst m'. destruct m as [own cs]. simpl. f_equal.
  apply update_fixed.
  unfold all_flags in Hall. simpl in Hall.
  apply Forall_app in Hall. destruct Hall as [_ Hcs].
  apply Forall_flat_map in Hcs.
  eapply Forall_impl; [|exact Hcs].
  intros a Ha. apply requires_grad__fixed. exact Ha.
Qed.
End Freezing.

(* ------------------------------------------------------------------ *)
(** ** What the constructors establish *)

Section Constructors.
Context {F G : Type} {SF : Scalar F} {PF : Pointwise F} {GF : Generator G F}
        {K : MultiheadAttention.Kernel (F := F)}.

Lemma random_tensor_shape (s : list nat) (g g' : G) (t : Tensor F) :
  random_tensor s g = Ok (t, g') -> shape t = s.
Proof.
  unfold random_tensor. destruct (samples (numel s) g) as [l g1].
  intros E; inversion E; reflexivity.
Qed.

Lemma mapM_Forall {A B} (f : A -> M G B) (P : B -> Prop) :
  (forall x g y g', f x g = Ok (y, g') -> P y) ->
  forall xs g ys g', mapM f xs g = Ok (ys, g') -> Forall P ys.
Proof.
  intros Hf. induction xs as [|x xs IH]; simpl; intros g ys g' E.
  - apply ret_ok_inv in E. destruct E as [-> _]. constructor.
  - apply bind_ok_inv in E. destruct E as (y & g1 & Hy & E).
    apply bind_ok_inv in E. destruct E as (ys' & g2 & Hys & E).
    apply ret_ok_inv in E. destruct E as [-> _].
    constructor; eauto.
Qed.

Lemma mapM_length {A B} (f : A -> M G B) :
  forall xs g ys g', mapM f xs g = Ok (ys, g') -> List.length ys = List.length xs.
Proof.
  induction xs as [|x xs IH]; simpl; intros g ys g' E.
  - apply ret_ok_inv in E. destruct E as [-> _]. reflexivity.
  - apply bind_ok_inv in E. destruct E as (y & g1 & Hy & E).
    apply bind_ok_inv in E. destruct E as (ys' & g2 & Hys & E).
    apply ret_ok_inv in E. destruct E as [-> _].
    simpl. f_equal. eauto.
Qed.

Lemma Linear_init_built (i o : nat) (b : bool) (g g' : G) (m : Linear.t) :
  Linear.__init__ i o b g = Ok (m, g') -> Linear_built i o m.
Proof.
  unfold Linear.__init__. intros E.
  apply bind_ok_inv in E. destruct E as (w & g1 & Hw & E).
  apply random_tensor_shape in Hw.
  destruct b.
  - apply bind_ok_inv in E. destruct E as (bt & g2 & _ & E).
    apply ret_ok_inv in E. destruct E as [-> _].
    split; [exact Hw|]. repeat constructor.
  - apply ret_ok_inv in E. destruct E as [-> _].
    split; [exact Hw|]. repeat constructor.
Qed.

Lemma Embedding_init_built (v d : nat) (g g' : G) (m : Embedding.t) :
  Embedding.__init__ v d g = Ok (m, g') ->
  shape (data (Embedding.weight m)) = [v; d]
  /\ all_flags true (Embedding.parameters m).
Proof.
  unfold Embedding.__init__. intros E.
  apply bind_ok_inv in E. destruct E as (w & g1 & Hw & E).
  apply random_tensor_shape in Hw.
  apply ret_ok_inv in E. destruct E as [-> _].
  split; [exact Hw|]. repeat constructor.
Qed.

Lemma LayerNorm_init_flags (n : nat) :
  all_flags true (LayerNorm.parameters (LayerNorm.__init__ (F := F) n)).
Proof. repeat constructor. Qed.

Lemma Dropout_init_p (p : Q) (d : Dropout.t) :
  Dropout.__init__ p = Ok d -> Dropout.p d = p.
Proof.
  unfold Dropout.__init__. destruct (Qle_bool 0 p && Qle_bool p 1); [|discriminate].
  intros E; inversion E; reflexivity.
Qed.

Lemma MultiheadAttention_init_built (e h : nat) (p : Q) (g g' : G)
    (m : MultiheadAttention.t) :
  MultiheadAttention.__init__ e h p g = Ok (m, g') ->
  MultiheadAttention_built e p m.
Proof.
  unfold MultiheadAttention.__init__.
  destruct ((h =? 0) || negb (e mod h =? 0)); [discriminate|].
  intros E.
  apply bind_ok_inv in E. destruct E as (out & g1 & Hout & E).
  apply bind_ok_inv in E. destruct E as (w & g2 & Hw & E).
  apply ret_ok_inv in E. destruct E as [-> _].
  apply Linear_init_built in Hout. destruct Hout as [_ Hflags].
  inversion Hflags as [|? ? Hweight _].
  repeat split; repeat constructor. exact Hweight.
Qed.

Lemma Layer_init_built (e h m : nat) (p : Q) (activation : string) (g g' : G)
    (l : TransformerSALayer.t) :
  TransformerSALayer.__init__ e h m p activation g = Ok (l, g') ->
  exists act, _get_activation_fn activation = Ok act /\ Layer_built e m p act l.
Proof.
  unfold TransformerSALayer.__init__. intros E.
  apply bind_ok_inv in E. destruct E as (sa & g1 & Hsa & E).
  apply bind_ok_inv in E. destruct E as (l1 & g2 & Hl1 & E).
  apply bind_ok_inv in E. destruct E as (d0 & g3 & Hd0 & E).
  apply bind_ok_inv in E. destruct E as (l2 & g4 & Hl2 & E).
  cbv zeta in E.
  apply bind_ok_inv in E. destruct E as (d1 & g5 & Hd1 & E).
  apply bind_ok_inv in E. destruct E as (d2 & g6 & Hd2 & E).
  apply bind_ok_inv in E. destruct E as (act & g7 & Hact & E).
  apply ret_ok_inv in E. destruct E as [-> _].
  apply lift_ok_inv in Hd0, Hd1, Hd2, Hact.
  destruct Hd0 as [Hd0 _], Hd1 as [Hd1 _], Hd2 as [Hd2 _], Hact as [Hact _].
  apply MultiheadAttention_init_built in Hsa.
  apply Linear_init_built in Hl1, Hl2.
  apply Dropout_init_p in Hd0, Hd1, Hd2.
  exists act. split; [exact Hact|].
  unfold Layer_built; simpl. repeat (split; [assumption || reflexivity|]).
  destruct Hsa as (_ & _ & Hsa), Hl1 as (_ & Hl1), Hl2 as (_ & Hl2).
  change (all_flags true
            (MultiheadAttention.parameters sa ++ Linear.parameters l1
               ++ Linear.parameters l2
               ++ LayerNorm.parameters (LayerNorm.__init__ e)
               ++ LayerNorm.parameters (LayerNorm.__init__ e))).
  unfold all_flags in *.
  apply Forall_app; split; [exact Hsa|].
  apply Forall_app; split; [exact Hl1|].
  apply Forall_app; split; [exact Hl2|].
  apply Forall_app; split; apply LayerNorm_init_flags.
Qed.
End Constructors.

Section Model.
Context {F G : Type} {SF : Scalar F} {PF : Pointwise F} {GF : Generator G F}
        {K : MultiheadAttention.Kernel (F := F)} {T : Tokenizer F G}.

Lemma freeze_modules_fixed (names : list string) (m m' : nn_Module F) :
  all_flags false (parameters m) ->
  CodeFormer2.freeze_modules names m = Ok m' -> m' = m.
Proof.
  revert m. induction names as [|name names IH]; simpl; intros m Hall E.
  - inversion E; reflexivity.
  - apply rbind_ok_inv in E. destruct E as (m1 & H1 & E).
    apply requires_grad_in_fixed in H1; [|exact Hall]. subst m1. auto.
Qed.

Lemma CodeFormer2_init_built
    (dim_embd n_head n_layers codebook_size latent_size : nat)
    (connect_list : list string) (vqvae_path : option string)
    (g g' : G) (self : CodeFormer2.t) :
  CodeFormer2.__init__ dim_embd n_head n_layers codebook_size latent_size
    connect_list vqvae_path g = Ok (self, g') ->
  CodeFormer2_built dim_embd n_layers codebook_size connect_list self.
Proof.
  unfold CodeFormer2.__init__. intros E. cbv zeta in E.
  apply bind_ok_inv in E. destruct E as (base0 & g1 & _ & E).
  apply bind_ok_inv in E. destruct E as (base1 & g2 & _ & E).
  apply bind_ok_inv in E. destruct E as (base & g3 & Hbase & E).
  apply bind_ok_inv in E. destruct E as (embs & g4 & Hembs & E).
  apply bind_ok_inv in E. destruct E as (layers & g5 & Hlayers & E).
  apply bind_ok_inv in E. destruct E as (lin & g6 & Hlin & E).
  apply ret_ok_inv in E. destruct E as [-> _].
  apply lift_ok_inv in Hbase. destruct Hbase as [Hbase _].
  apply freeze_modules_fixed in Hbase; [|apply requires_grad__all_flags].
  subst base.
  unfold CodeFormer2_built; simpl.
  split; [apply requires_grad__all_flags|].
  split; [reflexivity|]. split; [reflexivity|]. split; [reflexivity|].
  split; [eapply eq_trans; [eapply mapM_length; exact Hembs|reflexivity]|].
  split; [eapply mapM_Forall; [|exact Hembs]; intros ? ? ? ?;
          apply Embedding_init_built|].
  split; [eapply eq_trans; [eapply mapM_length; exact Hlayers|apply length_seq]|].
  split.
  { eapply mapM_Forall; [|exact Hlayers]. intros ? gl l gl' Hl.
    apply Layer_init_built in Hl. destruct Hl as (act & Hact & Hl).
    inversion Hact; subst act. exact Hl. }
  split; [reflexivity|].
  split; [eapply Linear_init_built; exact Hlin|].
  revert Hlin. unfold Linear.__init__. intros Hlin.
  apply bind_ok_inv in Hlin. destruct Hlin as (w & gw & _ & Hlin).
  apply ret_ok_inv in Hlin. destruct Hlin as [-> _]. reflexivity.
Qed.

Lemma init_weights_keeps_flags (module module' : CodeFormer2.submodule) (g g' : G) :
  CodeFormer2._init_weights module g = Ok (module', g') ->
  map (@requires_grad F) (CodeFormer2.submodule_parameters module')
  = map (@requires_grad F) (CodeFormer2.submodule_parameters module).
Proof.
  destruct module as [m|m|m|m]; simpl; intros E.
  - apply bind_ok_inv in E. destruct E as (w & g1 & _ & E).
    apply ret_ok_inv in E. destruct E as [-> _].
    unfold Linear.parameters; simpl. destruct (Linear.bias m); reflexivity.
  - apply bind_ok_inv in E. destruct E as (w & g1 & _ & E).
    apply ret_ok_inv in E. destruct E as [-> _]. reflexivity.
  - apply ret_ok_inv in E. destruct E as [-> _]. reflexivity.
  - apply ret_ok_inv in E. destruct E as [-> _]. reflexivity.
Qed.

(** C2.  After [CodeFormer2.__init__] every parameter of the inherited
    tokenizer, and so every parameter of its sub-modules encoder, decoder,
    quantize, quant_conv and post_quant_conv, has [requires_grad = False],
    and every parameter of [position_emb], [feat_emb], [ft_layers] and
    [idx_pred_layer] has [requires_grad = True]; the other method that
    writes to parameters, [_init_weights], changes no flag. *)
Theorem init_freezes_tokenizer_only :
  forall (dim_embd n_head n_layers codebook_size latent_size : nat)
         (connect_list : list string) (vqvae_path : option string)
         (g g' : G) (self : CodeFormer2.t),
    CodeFormer2.__init__ dim_embd n_head n_layers codebook_size latent_size
      connect_list vqvae_path g = Ok (self, g') ->
    Forall (fun p => requires_grad p = false) (parameters (CodeFormer2.vqvae self))
    /\ (forall name m,
           In name CodeFormer2.tokenizer_modules ->
           getattr (CodeFormer2.vqvae self) name = Ok m ->
           Forall (fun p => requires_grad p = false) (parameters m))
    /\ Forall (fun p => requires_grad p = true) (CodeFormer2.new_parameters self)
    /\ (forall module module' g1 g2,
           CodeFormer2._init_weights module g1 = Ok (module', g2) ->
           map (@requires_grad F) (CodeFormer2.submodule_parameters module')
           = map (@requires_grad F) (CodeFormer2.submodule_parameters module)).
Proof.
  intros dim_embd n_head n_layers codebook_size latent_size connect_list
    vqvae_path g g' self Hinit.
  apply CodeFormer2_init_built in Hinit.
  destruct Hinit as (Hvq & _ & _ & Hpos & _ & Hemb & _ & Hlayers & Hln & Hlin & _).
  split; [exact Hvq|].
  split; [intros name m _ Hget; eapply getattr_parameters; eassumption|].
  split; [|intros; eapply init_weights_keeps_flags; eassumption].
  unfold CodeFormer2.new_parameters. constructor; [rewrite Hpos; reflexivity|].
  apply Forall_app; split.
  { apply Forall_flat_map. eapply Forall_impl; [|exact Hemb].
    intros e [_ He]. exact He. }
  apply Forall_app; split.
  { apply Forall_flat_map. eapply Forall_impl; [|exact Hlayers].
    intros l Hl. apply Hl. }
  apply Forall_app; split.
  - rewrite Hln. apply LayerNorm_init_flags.
  - apply Hlin.
Qed.
End Model.

(* ------------------------------------------------------------------ *)
(** ** The token embedding sequence *)

Lemma shape_eqb_refl (s : list nat) : shape_eqb s s = true.
Proof. unfold shape_eqb. destruct (list_eq_dec Nat.eq_dec s s); congruence. Qed.

Section TokenEmbedding.
Context {F G : Type} {SF : Scalar F} {GF : Generator G F}.

Lemma Embedding_forward_ok (table : Embedding.t (F := F)) (v d : nat)
    (idx : Tensor nat) :
  shape (data (Embedding.weight table)) = [v; d] ->
  token_ids_below v idx = true ->
  Embedding.forward table idx = Ok (lookup table d idx).
Proof.
  intros Hw Hidx. unfold Embedding.forward. rewrite Hw, Hidx. reflexivity.
Qed.

Lemma embed_levels_ok (v d : nat) (tables : list (Embedding.t (F := F))) :
  Forall (fun e => shape (data (Embedding.weight e)) = [v; d]) tables ->
  forall (idx_list : list (Tensor nat)) (i : nat),
    i + List.length idx_list <= List.length tables ->
    Forall (fun idx => token_ids_below v idx = true) idx_list ->
    exists es,
      CodeFormer2.embed_levels tables i idx_list = Ok es
      /\ Forall2 (fun e idx => shape e = shape idx ++ [d]) es idx_list
      /\ forall k idx,
          nth_error idx_list k = Some idx ->
          exists table,
            nth_error tables (i + k) = Some table
            /\ nth_error es k = Some (lookup table d idx).
Proof.
  intros Htables. induction idx_list as [|idx r IH]; intros i Hlen Hids.
  - exists []. repeat split; [constructor|].
    intros [|k] idx E; discriminate E.
  - simpl in Hlen. inversion Hids as [|? ? Hidx Hr]; subst.
    destruct (nth_error tables i) as [table|] eqn:Et.
    2:{ apply nth_error_None in Et. lia. }
    destruct (IH (S i)) as (es & Hes & Hl & Hk); [lia|exact Hr|].
    assert (Hshape : shape (data (Embedding.weight table)) = [v; d]).
    { rewrite Forall_forall in Htables. apply Htables.
      eapply nth_error_In; exact Et. }
    exists (lookup table d idx :: es). simpl. rewrite Et. simpl.
    rewrite (Embedding_forward_ok _ _ Hshape Hidx). simpl.
    rewrite Hes. simpl. split; [reflexivity|].
    split; [constructor; [reflexivity|exact Hl]|].
    intros [|k] idx' E; simpl in E.
    + inversion E; subst idx'. exists table. rewrite Nat.add_0_r. auto.
    + destruct (Hk k idx' E) as (table' & Ht' & He').
      exists table'. rewrite <- Nat.add_succ_comm. auto.
Qed.

Lemma cat1_get_at {A} (dflt : A) (b : nat) (rest : list nat) :
  forall (es : list (Tensor A)) (k : nat) (e : Tensor A) (j : nat),
    nth_error es k = Some e ->
    j < axis1 e ->
    cat1_get dflt es b (list_sum (map axis1 (firstn k es)) + j) rest
    = get e (b :: j :: rest).
Proof.
  induction es as [|t r IH]; intros [|k] e j E Hj; simpl in E; try discriminate.
  - inversion E; subst t. simpl. unfold axis1 in Hj.
    apply Nat.ltb_lt in Hj. rewrite Hj. reflexivity.
  - simpl. fold (axis1 t).
    replace (axis1 t + list_sum (map axis1 (firstn k r)) + j <? axis1 t) with false
      by (symmetry; apply Nat.ltb_ge; lia).
    replace (axis1 t + list_sum (map axis1 (firstn k r)) + j - axis1 t)
      with (list_sum (map axis1 (firstn k r)) + j) by lia.
    apply IH; assumption.
Qed.

Lemma cat1_ok {A} (b d : nat) (es : list (Tensor A)) :
  es <> [] ->
  Forall (fun e => shape e = [b; axis1 e; d]) es ->
  exists c,
    cat1 es = Ok c
    /\ shape c = [b; list_sum (map axis1 es); d]
    /\ forall k e bi j di,
        nth_error es k = Some e ->
        j < axis1 e ->
        get c [bi; list_sum (map axis1 (firstn k es)) + j; di] = get e [bi; j; di].
Proof.
  intros Hne Hall. destruct es as [|t0 r]; [congruence|].
  unfold cat1.
  assert (Hsame : forallb (fun t => same_but_axis1 (shape t0) (shape t)) (t0 :: r) = true).
  { apply forallb_forall. intros t Hin.
    rewrite Forall_forall in Hall.
    rewrite (Hall t0 (or_introl eq_refl)), (Hall t Hin). simpl.
    rewrite Nat.eqb_refl, shape_eqb_refl. reflexivity. }
  rewrite Hsame. eexists. split; [reflexivity|]. split.
  - simpl. inversion Hall as [|? ? H0 _]. rewrite H0. reflexivity.
  - intros k e bi j di E Hj. cbn [get].
    apply (cat1_get_at _ bi [di] (t0 :: r) k E Hj).
Qed.

Lemma level_offset_bound (hws : list (nat * nat)) :
  forall i hw,
    nth_error hws i = Some hw ->
    level_offset hws i + tokens hw <= list_sum (map tokens hws).
Proof.
  unfold level_offset.
  induction hws as [|h r IH]; intros [|i] hw E; simpl in E; try discriminate.
  - inversion E; subst. simpl. lia.
  - simpl. specialize (IH i hw E). lia.
Qed.

Lemma level_shapes (b d : nat) (es : list (Tensor F)) (idx_list : list (Tensor nat)) :
  Forall2 (fun e idx => shape e = shape idx ++ [d]) es idx_list ->
  forall v hws,
    pyramid b v hws idx_list ->
    Forall (fun e => shape e = [b; axis1 e; d]) es
    /\ map axis1 es = map tokens hws.
Proof.
  unfold pyramid.
  induction 1 as [|e idx es' idxs He _ IH]; intros v hws Hp;
    inversion Hp as [|? hw ? hws' [Hs _] Hr]; subst; simpl.
  - split; [constructor|reflexivity].
  - destruct (IH v hws' Hr) as [Hall Hmap].
    assert (Ha : axis1 e = tokens hw).
    { unfold axis1. rewrite He, Hs. reflexivity. }
    split.
    + constructor; [|exact Hall]. rewrite Ha, He, Hs. reflexivity.
    + rewrite Ha, Hmap. reflexivity.
Qed.
End TokenEmbedding.

Section Forward.
Context {F G : Type} {SF : Scalar F} {PF : Pointwise F} {GF : Generator G F}
        {K : MultiheadAttention.Kernel (F := F)} {T : Tokenizer F G}.

Lemma embed_tokens_layout (dim_embd n_layers codebook_size batch : nat)
    (cl : list string) (self : CodeFormer2.t) (idx_list : list (Tensor nat)) :
  CodeFormer2_built dim_embd n_layers codebook_size cl self ->
  pyramid batch codebook_size (CodeFormer2.patch_hws self) idx_list ->
  exists idx_embed,
    CodeFormer2.embed_tokens self idx_list = Ok idx_embed
    /\ shape idx_embed = [680; batch; dim_embd]
    /\ forall i hw idx,
        nth_error (CodeFormer2.patch_hws self) i = Some hw ->
        nth_error idx_list i = Some idx ->
        exists table,
          nth_error (CodeFormer2.feat_emb self) i = Some table
          /\ level_offset (CodeFormer2.patch_hws self) i + tokens hw <= 680
          /\ forall j b d,
              j < tokens hw ->
              get idx_embed [level_offset (CodeFormer2.patch_hws self) i + j; b; d]
              = get (data (Embedding.weight table)) [get idx [b; j]; d].
Proof.
  intros (_ & Hhws & _ & _ & Hlen & Htables & _) Hp.
  assert (Hn : List.length idx_list = 10).
  { apply Forall2_length in Hp. rewrite Hp, Hhws. reflexivity. }
  assert (Hids : Forall (fun idx => token_ids_below codebook_size idx = true) idx_list).
  { clear - Hp. induction Hp as [|? ? ? ? [_ H] _ IH]; constructor; assumption. }
  destruct (embed_levels_ok (v := codebook_size) (d := dim_embd)
              (tables := CodeFormer2.feat_emb self)) with (idx_list := idx_list) (i := 0)
    as (es & Hes & Hshapes & Hnth).
  { eapply Forall_impl; [|exact Htables]. intros e [He _]; exact He. }
  { lia. }
  { exact Hids. }
  destruct (@level_shapes F batch dim_embd es idx_list Hshapes codebook_size _ Hp)
    as [Hall Hmap].
  destruct (cat1_ok (b := batch) (d := dim_embd) (es := es)) as (c & Hc & Hcs & Hget).
  { apply Forall2_length in Hshapes. destruct es; simpl in *; [lia|discriminate]. }
  { exact Hall. }
  assert (Htotal : list_sum (map tokens (CodeFormer2.patch_hws self)) = 680).
  { rewrite Hhws. reflexivity. }
  unfold CodeFormer2.embed_tokens. rewrite Hes. simpl. rewrite Hc. simpl.
  unfold permute102. rewrite Hcs. eexists. split; [reflexivity|].
  split; [simpl; rewrite Hmap, Htotal; reflexivity|].
  intros i hw idx Ehw Eidx.
  destruct (Hnth i idx Eidx) as (table & Et & Ee). simpl in Et.
  exists table. split; [exact Et|].
  split; [rewrite <- Htotal; apply level_offset_bound; exact Ehw|].
  intros j b d Hj. cbn [get].
  assert (Hoff : level_offset (CodeFormer2.patch_hws self) i
                 = list_sum (map axis1 (firstn i es))).
  { unfold level_offset. rewrite <- !firstn_map, Hmap. reflexivity. }
  assert (Hax : axis1 (lookup table dim_embd idx) = tokens hw).
  { apply (f_equal (fun l => nth_error l i)) in Hmap.
    rewrite (map_nth_error axis1 i es Ee), (map_nth_error tokens i _ Ehw) in Hmap.
    inversion Hmap; reflexivity. }
  rewrite Hoff, (Hget i _ b j d Ee) by (rewrite Hax; exact Hj). reflexivity.
Qed.
End Forward.

(* ------------------------------------------------------------------ *)
(** ** One self-attention layer *)

Section Layer.
Context {F G : Type} {SF : Scalar F} {PF : Pointwise F} {GF : Generator G F}
        {K : MultiheadAttention.Kernel (F := F)}.

Lemma LayerNorm_forward_ok (m : LayerNorm.t) (x : Tensor F) (L B E : nat) :
  LayerNorm.normalized_shape m = E ->
  shape x = [L; B; E] ->
  exists y, LayerNorm.forward m x = Ok y /\ shape y = [L; B; E].
Proof.
  intros Hn Hx. unfold LayerNorm.forward. rewrite Hx, Hn. simpl.
  rewrite Nat.eqb_refl. simpl. eexists. split; reflexivity.
Qed.

Lemma Linear_forward_ok (m : Linear.t) (x : Tensor F) (L B i o : nat) :
  shape (data (Linear.weight m)) = [o; i] ->
  shape x = [L; B; i] ->
  exists y, Linear.forward m x = Ok y /\ shape y = [L; B; o].
Proof.
  intros Hw Hx. unfold Linear.forward. rewrite Hw, Hx. simpl.
  rewrite Nat.eqb_refl. simpl. eexists. split; reflexivity.
Qed.

Lemma tensor_add_ok (a b : Tensor F) (s : list nat) :
  shape a = s -> shape b = s ->
  exists c, tensor_add a b = Ok c /\ shape c = s
            /\ forall ix, get c ix = fadd (get a ix) (get b ix).
Proof.
  intros Ha Hb. unfold tensor_add. rewrite Ha, Hb, shape_eqb_refl.
  eexists. split; [reflexivity|]. split; reflexivity.
Qed.

Lemma Dropout_forward_zero (d : Dropout.t) (x : Tensor F) :
  Dropout.p d = 0%Q -> Dropout.forward (G := G) d x = ret x.
Proof.
  intros Hp. unfold Dropout.forward, Dropout.functional. rewrite Hp. reflexivity.
Qed.

Lemma MultiheadAttention_forward_zero (m : MultiheadAttention.t)
    (q k v : Tensor F) am kpm :
  MultiheadAttention.dropout m = 0%Q ->
  MultiheadAttention.forward (G := G) m q k v am kpm
  = (w <- lift (MultiheadAttention.weights m q k am kpm) ;;
     o <- lift (MultiheadAttention.output m w v) ;;
     ret (o, w)).
Proof.
  intros Hp. unfold MultiheadAttention.forward. rewrite Hp. simpl.
  rewrite andb_false_r. reflexivity.
Qed.

Lemma apply_activation_pointwise (act : activation_fn) (x : Tensor F) :
  act = F_relu \/ act = F_gelu ->
  exists y, apply_activation act x = Ok y /\ shape y = shape x.
Proof. intros [->| ->]; eexists; split; reflexivity. Qed.

Lemma Dropout_forward_shape (d : Dropout.t) (x y : Tensor F) (g g' : G) :
  Dropout.forward d x g = Ok (y, g') -> shape y = shape x.
Proof.
  unfold Dropout.forward, Dropout.functional.
  destruct (negb (Qle_bool 0 (Dropout.p d) && Qle_bool (Dropout.p d) 1));
    [discriminate|].
  destruct (Qeq_bool (Dropout.p d) 0 || negb (Dropout.training d)).
  { intros E. apply ret_ok_inv in E. destruct E as [-> _]. reflexivity. }
  destruct (Qeq_bool (Dropout.p d) 1).
  { intros E. apply ret_ok_inv in E. destruct E as [-> _]. reflexivity. }
  destruct (bernoullis (1 - Dropout.p d) (numel (shape x)) g) as [keep g1].
  intros E. inversion E. reflexivity.
Qed.

(** A layer with the activation [F.glu] never completes a forward step:
    whatever the input, the masks, the dropout probability and the
    attention, [linear2] is handed [dim_mlp / 2] features where it takes
    [dim_mlp]. *)
Lemma glu_layer_never_returns (e m : nat) (p : Q) (layer : TransformerSALayer.t)
    (tgt : Tensor F) (am : option (Tensor F)) (kpm : option (Tensor bool))
    (query_pos : option (Tensor F)) (g g' : G) (out : Tensor F) :
  Layer_built e m p F_glu layer ->
  0 < m ->
  TransformerSALayer.forward layer tgt am kpm query_pos g <> Ok (out, g').
Proof.
  intros (_ & (Hw1 & _) & (Hw2 & _) & _ & _ & _ & _ & _ & Hact & _) Hm E.
  unfold TransformerSALayer.forward in E.
  apply bind_ok_inv in E. destruct E as (n1 & g1 & _ & E).
  apply bind_ok_inv in E. destruct E as (q & g2 & _ & E). cbv zeta in E.
  apply bind_ok_inv in E. destruct E as (att & g3 & _ & E).
  apply bind_ok_inv in E. destruct E as (d1 & g4 & _ & E).
  apply bind_ok_inv in E. destruct E as (t1 & g5 & _ & E).
  apply bind_ok_inv in E. destruct E as (n2 & g6 & _ & E).
  apply bind_ok_inv in E. destruct E as (h & g7 & Hh & E).
  apply bind_ok_inv in E. destruct E as (a & g8 & Ha & E).
  apply bind_ok_inv in E. destruct E as (d & g9 & Hd & E).
  apply bind_ok_inv in E. destruct E as (f & g10 & Hf & _).
  apply lift_ok_inv in Hh, Ha, Hf.
  destruct Hh as [Hh _], Ha as [Ha _], Hf as [Hf _].
  apply Dropout_forward_shape in Hd.
  assert (Sh : last (shape h) 0 = m).
  { revert Hh. unfold Linear.forward. rewrite Hw1.
    destruct (negb (List.length (shape n2) =? 0) && (last (shape n2) 0 =? e));
      [|discriminate].
    intros Eh. inversion Eh. cbn [shape]. apply last_last. }
  assert (Sa : last (shape a) 0 = m / 2).
  { revert Ha. rewrite Hact. unfold apply_activation. rewrite Sh.
    destruct (List.length (shape h) =? 0); [discriminate|].
    destruct (Nat.even m); [|discriminate].
    intros Ea. inversion Ea. cbn [shape]. apply last_last. }
  revert Hf. unfold Linear.forward. rewrite Hw2, Hd, Sa.
  destruct (Nat.eqb_spec (m / 2) m) as [Heq|_].
  - exfalso. pose proof (Nat.div_lt m 2 Hm). lia.
  - rewrite andb_false_r. discriminate.
Qed.

Lemma layer_forward_built (e m L B : nat) (act : activation_fn)
    (layer : TransformerSALayer.t) (tgt : Tensor F)
    (am : option (Tensor F)) (kpm : option (Tensor bool))
    (query_pos : option (Tensor F)) :
  Layer_built e m 0 act layer ->
  act = F_relu \/ act = F_gelu ->
  shape tgt = [L; B; e] ->
  (forall pos, query_pos = Some pos -> shape pos = [L; B; e]) ->
  attention_contract K L B e am kpm ->
  exists out,
    layer_steps layer tgt am kpm query_pos out
    /\ shape out = [L; B; e]
    /\ forall g : G,
        TransformerSALayer.forward layer tgt am kpm query_pos g = Ok (out, g).
Proof.
  intros (Hsa & Hl1 & Hl2 & Hn1 & Hn2 & Hd & Hd1 & Hd2 & Hact & _) Hpw Htgt Hpos Hatt.
  destruct Hsa as (He & Hp & _). destruct Hl1 as [Hw1 _]. destruct Hl2 as [Hw2 _].
  destruct (LayerNorm_forward_ok _ _ Hn1 Htgt) as (n1 & En1 & Sn1).
  assert (Hq : exists q, TransformerSALayer.with_pos_embed n1 query_pos = Ok q
                         /\ shape q = [L; B; e]
                         /\ (query_pos = None -> q = n1)
                         /\ (forall pos, query_pos = Some pos ->
                                forall ix, get q ix = fadd (get n1 ix) (get pos ix))).
  { destruct query_pos as [pos|]; simpl.
    - destruct (tensor_add_ok n1 pos Sn1 (Hpos pos eq_refl)) as (q & Eq & Sq & Gq).
      exists q. repeat split; try assumption; [discriminate|].
      intros pos' E. inversion E; subst pos'. exact Gq.
    - exists n1. repeat split; try assumption. discriminate. }
  destruct Hq as (q & Eq & Sq & Hq0 & Hq1).
  destruct (Hatt _ q q n1 He Sq Sq Sn1) as (w & Ew & Ho).
  destruct (Ho w eq_refl) as (att & Eo & So).
  destruct (tensor_add_ok tgt att Htgt So) as (t1 & Et1 & St1 & _).
  destruct (LayerNorm_forward_ok _ _ Hn2 St1) as (n2 & En2 & Sn2).
  destruct (Linear_forward_ok _ _ Hw1 Sn2) as (h & Eh & Sh).
  rewrite <- Hact in Hpw.
  destruct (apply_activation_pointwise h Hpw) as (a & Ea & Sa).
  rewrite Sh in Sa.
  destruct (Linear_forward_ok _ _ Hw2 Sa) as (f & Ef & Sf).
  destruct (tensor_add_ok t1 f St1 Sf) as (out & Eout & Sout & _).
  exists out. split; [|split; [exact Sout|]].
  - exists n1, q, w, att, t1, n2, h, a, f. repeat (split; [assumption|]). assumption.
  - intros g. unfold TransformerSALayer.forward, bind, lift, ret.
    rewrite En1, Eq. cbv beta iota zeta.
    rewrite (MultiheadAttention_forward_zero _ _ _ _ _ _ Hp).
    unfold bind, lift, ret. rewrite Ew, Eo. cbv beta iota zeta. cbn [fst].
    rewrite (Dropout_forward_zero _ _ Hd1). unfold ret.
    rewrite Et1, En2, Eh, Ea. cbv beta iota zeta.
    rewrite (Dropout_forward_zero _ _ Hd). unfold ret.
    rewrite Ef. cbv beta iota zeta.
    rewrite (Dropout_forward_zero _ _ Hd2). unfold ret.
    rewrite Eout. reflexivity.
Qed.
End Layer.

(* ------------------------------------------------------------------ *)
(** ** The forward pass *)

Section Pure.
Context {G : Type}.

Lemma pure_lift {A} (r : result A) : pure_call (G := G) (lift r).
Proof. exists r. reflexivity. Qed.

Lemma pure_ret {A} (a : A) : pure_call (G := G) (ret a).
Proof. exists (Ok a). reflexivity. Qed.

Lemma pure_bind {A B} (c : M G A) (k : A -> M G B) :
  pure_call c -> (forall a, pure_call (k a)) -> pure_call (bind c k).
Proof.
  intros [r Hr] Hk. destruct r as [a|e].
  - destruct (Hk a) as [rb Hb]. exists rb. intros g.
    unfold bind. rewrite Hr. simpl. apply Hb.
  - exists (Raise e). intros g. unfold bind. rewrite Hr. reflexivity.
Qed.

Lemma pure_foldM {A B} (f : A -> B -> M G A) (xs : list B) :
  Forall (fun x => forall a, pure_call (f a x)) xs ->
  forall a, pure_call (foldM f xs a).
Proof.
  induction 1 as [|x r Hx _ IH]; intros a; simpl.
  - apply pure_ret.
  - apply pure_bind; [apply Hx|exact IH].
Qed.

(** What a pure call means for two runs. *)
Lemma pure_call_deterministic {A} (c : M G A) :
  pure_call c ->
  forall g1 g2,
    match c g1, c g2 with
    | Ok (a1, g1'), Ok (a2, g2') => a1 = a2 /\ g1' = g1 /\ g2' = g2
    | Raise e1, Raise e2 => e1 = e2
    | _, _ => False
    end.
Proof.
  intros [r Hr] g1 g2. rewrite !Hr. destruct r; simpl; auto.
Qed.
End Pure.

Section ForwardPass.
Context {F G : Type} {SF : Scalar F} {PF : Pointwise F} {GF : Generator G F}
        {K : MultiheadAttention.Kernel (F := F)} {T : Tokenizer F G}.

Lemma layer_forward_pure (e m : nat) (act : activation_fn)
    (layer : TransformerSALayer.t) (tgt : Tensor F) am kpm query_pos :
  Layer_built e m 0 act layer ->
  pure_call (G := G) (TransformerSALayer.forward layer tgt am kpm query_pos).
Proof.
  intros (Hsa & _ & _ & _ & _ & Hd & Hd1 & Hd2 & _).
  destruct Hsa as (_ & Hp & _).
  unfold TransformerSALayer.forward.
  apply pure_bind; [apply pure_lift|intros n1].
  apply pure_bind; [apply pure_lift|intros q]. cbv zeta.
  apply pure_bind.
  { rewrite (MultiheadAttention_forward_zero _ _ _ _ _ _ Hp).
    apply pure_bind; [apply pure_lift|intros w].
    apply pure_bind; [apply pure_lift|intros o]. apply pure_ret. }
  intros att.
  apply pure_bind; [rewrite (Dropout_forward_zero _ _ Hd1); apply pure_ret|intros d1].
  apply pure_bind; [apply pure_lift|intros t1].
  apply pure_bind; [apply pure_lift|intros n2].
  apply pure_bind; [apply pure_lift|intros h].
  apply pure_bind; [apply pure_lift|intros a].
  apply pure_bind; [rewrite (Dropout_forward_zero _ _ Hd); apply pure_ret|intros d].
  apply pure_bind; [apply pure_lift|intros f].
  apply pure_bind; [rewrite (Dropout_forward_zero _ _ Hd2); apply pure_ret|intros d2].
  apply pure_bind; [apply pure_lift|intros t2]. apply pure_ret.
Qed.

Lemma forward_pure (dim_embd n_layers codebook_size : nat) (cl : list string)
    (self : CodeFormer2.t) (x : Tensor F) (w : F) (detach_16 code_only adain : bool) :
  CodeFormer2_built dim_embd n_layers codebook_size cl self ->
  pure_call (G := G) (CodeFormer2.forward self x w detach_16 code_only adain).
Proof.
  intros (_ & _ & _ & _ & _ & _ & _ & Hlayers & _).
  unfold CodeFormer2.forward.
  repeat (apply pure_bind; [apply pure_lift|intros ?]). cbv zeta.
  apply pure_bind.
  { apply pure_foldM. eapply Forall_impl; [|exact Hlayers].
    intros layer Hl q. eapply layer_forward_pure; exact Hl. }
  intros q.
  repeat (apply pure_bind; [apply pure_lift|intros ?]). apply pure_ret.
Qed.

Lemma layers_forward_built (e m L B : nat) (pos : Tensor F)
    (layers : list TransformerSALayer.t) :
  Forall (Layer_built e m 0 F_gelu) layers ->
  shape pos = [L; B; e] ->
  attention_contract K L B e None None ->
  forall q, shape q = [L; B; e] ->
    exists out,
      shape out = [L; B; e]
      /\ forall g : G,
          foldM (fun q layer =>
                   TransformerSALayer.forward layer q None None (Some pos))
                layers q g = Ok (out, g).
Proof.
  intros Hall Hpos Hatt. induction Hall as [|layer r Hl _ IH]; intros q Hq.
  - exists q. split; [exact Hq|reflexivity].
  - destruct (@layer_forward_built F G SF PF GF K e m L B F_gelu layer q None None
                (Some pos) Hl (or_intror eq_refl) Hq) as (q1 & _ & Hq1 & Hrun).
    { intros pos' E. inversion E; subst. exact Hpos. }
    { exact Hatt. }
    destruct (IH q1 Hq1) as (out & Hout & Hrest).
    exists out. split; [exact Hout|]. intros g. simpl.
    unfold bind. rewrite Hrun. apply Hrest.
Qed.
End ForwardPass.

Section Shapes.
Context {F G : Type} {SF : Scalar F} {PF : Pointwise F} {GF : Generator G F}
        {K : MultiheadAttention.Kernel (F := F)} {T : Tokenizer F G}.

Lemma position_emb_broadcast (dim_embd batch : nat) :
  exists u pos_emb,
    unsqueeze1 (data (new_parameter (full [680; dim_embd] (f0 (F := F))))) = Ok u
    /\ repeat3 u 1 batch 1 = Ok pos_emb
    /\ shape pos_emb = [680; batch; dim_embd].
Proof.
  eexists. eexists. split; [reflexivity|]. split; [reflexivity|].
  cbn [shape]. rewrite Nat.mul_1_r, Nat.mul_1_l, Nat.mul_1_r. reflexivity.
Qed.

Lemma forward_built (dim_embd n_layers codebook_size batch : nat) (cl : list string)
    (self : CodeFormer2.t) (x lat : Tensor F) (w : F)
    (detach_16 code_only adain : bool) :
  CodeFormer2_built dim_embd n_layers codebook_size cl self ->
  tokenizer_contract T (CodeFormer2.vqvae self) batch codebook_size
    (CodeFormer2.patch_hws self) x lat ->
  attention_contract K 680 batch dim_embd None None ->
  exists logits,
    shape logits = [batch; 680; codebook_size]
    /\ forall g : G,
        CodeFormer2.forward self x w detach_16 code_only adain g
        = Ok ((logits, lat), g).
Proof.
  intros Hb (qc & enc & qz & e & idx_list & Hqc & Henc & Hqz & He & Hlat & Slat
             & Hidx & Hpyr) Hatt.
  destruct (embed_tokens_layout Hb Hpyr) as (idx_embed & Hemb & Semb & _).
  destruct Hb as (_ & _ & _ & Hpos & _ & _ & _ & Hlayers & Hln & Hlin & _).
  destruct (position_emb_broadcast dim_embd batch) as (u & pos_emb & Hu & Hrep & Spos).
  rewrite <- Hpos in Hu.
  destruct (layers_forward_built (G := G) pos_emb Hlayers Spos Hatt idx_embed Semb)
    as (q & Sq & Hrun).
  assert (Hnorm : LayerNorm.normalized_shape (fst (CodeFormer2.idx_pred_layer self))
                  = dim_embd) by (rewrite Hln; reflexivity).
  destruct (LayerNorm_forward_ok _ _ Hnorm Sq) as (n & Hn & Sn).
  destruct Hlin as [Hw _].
  destruct (Linear_forward_ok _ _ Hw Sn) as (l & Hl & Sl).
  exists (mkTensor [batch; 680; codebook_size]
            (fun ix => match ix with
                       | [j; i; k] => get l [i; j; k]
                       | _ => get l ix
                       end)).
  split; [reflexivity|]. intros g.
  unfold CodeFormer2.forward, bind, lift, ret.
  rewrite Hqc, Henc, He, Hlat, Hqz, Hidx, Hu. cbv beta iota zeta.
  unfold CodeFormer2.shape0. rewrite Slat, Hrep, Hemb. cbv beta iota zeta.
  rewrite Hrun, Hn, Hl. unfold permute102. rewrite Sl. reflexivity.
Qed.
End Shapes.

(* ------------------------------------------------------------------ *)
(** ** The claims on the forward pass *)

Section Claims.
Context {F G : Type} {SF : Scalar F} {PF : Pointwise F} {GF : Generator G F}
        {K : MultiheadAttention.Kernel (F := F)} {T : Tokenizer F G}.

(** C1.  On a constructed model and an image batch on which the inherited
    tokenizer does what its interface says (a latent of shape
    (batch, 32, 16, 16) and one index tensor of shape (batch, ph * pw) per
    scale), [forward] returns the pair (logits, latent) where the logits
    have shape (batch, L, codebook_size), L being the sum of ph * pw over
    the scales (1,2,3,4,5,6,8,10,13,16), that is 680, and the latent is the
    tokenizer's, of shape (batch, 32, 16, 16).  The generator is left as it
    was. *)
Theorem forward_shapes :
  forall (dim_embd n_head n_layers codebook_size latent_size : nat)
         (connect_list : list string) (vqvae_path : option string)
         (g0 g1 : G) (self : CodeFormer2.t)
         (batch : nat) (x lat : Tensor F) (w : F)
         (detach_16 code_only adain : bool) (g : G),
    CodeFormer2.__init__ dim_embd n_head n_layers codebook_size latent_size
      connect_list vqvae_path g0 = Ok (self, g1) ->
    tokenizer_contract T (CodeFormer2.vqvae self) batch codebook_size
      (CodeFormer2.patch_hws self) x lat ->
    attention_contract K 680 batch dim_embd None None ->
    exists logits,
      CodeFormer2.forward self x w detach_16 code_only adain g
      = Ok ((logits, lat), g)
      /\ shape logits
         = [batch; list_sum (map tokens (CodeFormer2.patch_hws self)); codebook_size]
      /\ CodeFormer2.patch_hws self
         = [(1, 1); (2, 2); (3, 3); (4, 4); (5, 5); (6, 6); (8, 8); (10, 10);
            (13, 13); (16, 16)]
      /\ list_sum (map tokens (CodeFormer2.patch_hws self)) = 680
      /\ shape lat = [batch; 32; 16; 16].
Proof.
  intros dim_embd n_head n_layers codebook_size latent_size connect_list vqvae_path
    g0 g1 self batch x lat w detach_16 code_only adain g Hinit Htok Hatt.
  apply CodeFormer2_init_built in Hinit.
  destruct (forward_built (G := G) w detach_16 code_only adain Hinit Htok Hatt)
    as (logits & Slog & Hrun).
  assert (Hhws : CodeFormer2.patch_hws self
                 = [(1, 1); (2, 2); (3, 3); (4, 4); (5, 5); (6, 6); (8, 8); (10, 10);
                    (13, 13); (16, 16)]) by apply Hinit.
  exists logits. split; [apply Hrun|].
  rewrite Hhws. split; [exact Slog|]. split; [reflexivity|]. split; [reflexivity|].
  destruct Htok as (? & ? & ? & ? & ? & _ & _ & _ & _ & _ & Slat & _). exact Slat.
Qed.

(** C4.  On a constructed model and an index pyramid of the configured
    scales, the sequence [idx_embed] that [forward] hands to the attention
    layers has shape (680, batch, dim_embd) and keeps the order of the
    pyramid: the tokens of level [i] fill the positions from the sum of the
    token counts of the levels before it, for ph_i * pw_i positions, and
    position [j] of that slice holds, for batch entry [b], row
    [idx_i[b, j]] of the [i]-th table [feat_emb[i]]. *)
Theorem embed_tokens_keeps_pyramid_order :
  forall (dim_embd n_head n_layers codebook_size latent_size : nat)
         (connect_list : list string) (vqvae_path : option string)
         (g0 g1 : G) (self : CodeFormer2.t)
         (batch : nat) (idx_list : list (Tensor nat)),
    CodeFormer2.__init__ dim_embd n_head n_layers codebook_size latent_size
      connect_list vqvae_path g0 = Ok (self, g1) ->
    pyramid batch codebook_size (CodeFormer2.patch_hws self) idx_list ->
    exists idx_embed,
      CodeFormer2.embed_tokens self idx_list = Ok idx_embed
      /\ shape idx_embed = [680; batch; dim_embd]
      /\ forall i hw idx,
          nth_error (CodeFormer2.patch_hws self) i = Some hw ->
          nth_error idx_list i = Some idx ->
          exists table,
            nth_error (CodeFormer2.feat_emb self) i = Some table
            /\ level_offset (CodeFormer2.patch_hws self) i + tokens hw <= 680
            /\ forall j b d,
                j < tokens hw ->
                get idx_embed [level_offset (CodeFormer2.patch_hws self) i + j; b; d]
                = get (data (Embedding.weight table)) [get idx [b; j]; d].
Proof.
  intros dim_embd n_head n_layers codebook_size latent_size connect_list vqvae_path
    g0 g1 self batch idx_list Hinit Hpyr.
  apply CodeFormer2_init_built in Hinit.
  exact (embed_tokens_layout Hinit Hpyr).
Qed.

(** C5.  A constructed model has dropout probability 0 in every attention
    layer, and its [forward] neither reads nor advances the random
    generator: two calls on the same input return the same pair (or raise
    the same exception) whatever the generator states, and leave each
    generator as it was.  The model itself is a value that [forward] only
    reads. *)
Theorem forward_deterministic :
  forall (dim_embd n_head n_layers codebook_size latent_size : nat)
         (connect_list : list string) (vqvae_path : option string)
         (g0 g1 : G) (self : CodeFormer2.t)
         (x : Tensor F) (w : F) (detach_16 code_only adain : bool),
    CodeFormer2.__init__ dim_embd n_head n_layers codebook_size latent_size
      connect_list vqvae_path g0 = Ok (self, g1) ->
    Forall (fun layer =>
              MultiheadAttention.dropout (TransformerSALayer.self_attn layer) = 0%Q
              /\ Dropout.p (TransformerSALayer.dropout layer) = 0%Q
              /\ Dropout.p (TransformerSALayer.dropout1 layer) = 0%Q
              /\ Dropout.p (TransformerSALayer.dropout2 layer) = 0%Q)
           (CodeFormer2.ft_layers self)
    /\ forall g g' : G,
        match CodeFormer2.forward self x w detach_16 code_only adain g,
              CodeFormer2.forward self x w detach_16 code_only adain g'
        with
        | Ok (r, h), Ok (r', h') => r = r' /\ h = g /\ h' = g'
        | Raise e, Raise e' => e = e'
        | _, _ => False
        end.
Proof.
  intros dim_embd n_head n_layers codebook_size latent_size connect_list vqvae_path
    g0 g1 self x w detach_16 code_only adain Hinit.
  apply CodeFormer2_init_built in Hinit. split.
  - destruct Hinit as (_ & _ & _ & _ & _ & _ & _ & Hlayers & _).
    eapply Forall_impl; [|exact Hlayers].
    intros layer ((_ & Hp & _) & _ & _ & _ & _ & Hd & Hd1 & Hd2 & _). auto.
  - apply pure_call_deterministic.
    eapply forward_pure; exact Hinit.
Qed.

(** C3, as the code has it.  On a layer constructed with dropout 0 (the
    default) and activation relu or gelu (the default), for every [tgt] of
    shape (L, B, embed_dim) and every position bias that is absent or of
    that shape, one [forward] step computes [n1 = norm1(tgt)], attends
    with query and key [n1 + query_pos] ([n1] when there is no bias) and
    value [n1], adds the attention output to [tgt], then adds to that sum
    [linear2(activation(linear1(norm2(sum))))], and returns the result,
    of the shape of [tgt], without touching the generator. *)
Theorem layer_forward_dataflow :
  forall (embed_dim nhead dim_mlp : nat) (activation : string) (g0 g1 : G)
         (layer : TransformerSALayer.t) (L B : nat) (tgt : Tensor F)
         (tgt_mask : option (Tensor F)) (tgt_key_padding_mask : option (Tensor bool))
         (query_pos : option (Tensor F)) (g : G),
    TransformerSALayer.__init__ embed_dim nhead dim_mlp 0 activation g0
    = Ok (layer, g1) ->
    activation = "relu" \/ activation = "gelu" ->
    shape tgt = [L; B; embed_dim] ->
    (forall pos, query_pos = Some pos -> shape pos = shape tgt) ->
    attention_contract K L B embed_dim tgt_mask tgt_key_padding_mask ->
    exists n1 q w att t1 n2 h a f out,
      LayerNorm.forward (TransformerSALayer.norm1 layer) tgt = Ok n1
      /\ TransformerSALayer.with_pos_embed n1 query_pos = Ok q
      /\ (query_pos = None -> q = n1)
      /\ (forall pos, query_pos = Some pos ->
                      forall ix, get q ix = fadd (get n1 ix) (get pos ix))
      /\ MultiheadAttention.weights (TransformerSALayer.self_attn layer) q q
           tgt_mask tgt_key_padding_mask = Ok w
      /\ MultiheadAttention.output (TransformerSALayer.self_attn layer) w n1 = Ok att
      /\ tensor_add tgt att = Ok t1
      /\ LayerNorm.forward (TransformerSALayer.norm2 layer) t1 = Ok n2
      /\ Linear.forward (TransformerSALayer.linear1 layer) n2 = Ok h
      /\ _get_activation_fn activation = Ok (TransformerSALayer.activation layer)
      /\ apply_activation (TransformerSALayer.activation layer) h = Ok a
      /\ Linear.forward (TransformerSALayer.linear2 layer) a = Ok f
      /\ tensor_add t1 f = Ok out
      /\ TransformerSALayer.spec_forward layer tgt tgt_mask tgt_key_padding_mask
           query_pos = Ok out
      /\ TransformerSALayer.forward layer tgt tgt_mask tgt_key_padding_mask
           query_pos g = Ok (out, g)
      /\ shape out = shape tgt.
Proof.
  intros embed_dim nhead dim_mlp activation g0 g1 layer L B tgt tgt_mask
    tgt_key_padding_mask query_pos g Hinit Hact Htgt Hpos Hatt.
  apply Layer_init_built in Hinit. destruct Hinit as (act & Hget & Hbuilt).
  assert (Hpw : act = F_relu \/ act = F_gelu).
  { destruct Hact as [-> | ->]; inversion Hget; auto. }
  assert (Hlayer : TransformerSALayer.activation layer = act) by apply Hbuilt.
  rewrite Htgt in Hpos.
  destruct (layer_forward_built (G := G) tgt Hbuilt Hpw Htgt Hpos Hatt)
    as (out & Hsteps & Sout & Hrun).
  destruct Hsteps as (n1 & q & w & att & t1 & n2 & h & a & f & Hsteps).
  exists n1, q, w, att, t1, n2, h, a, f, out.
  decompose [and] Hsteps.
  repeat (split; [assumption|]).
  split; [rewrite Hlayer; exact Hget|].
  repeat (split; [assumption|]).
  split.
  { unfold TransformerSALayer.spec_forward.
    repeat match goal with
           | E : ?c = Ok _ |- context [rbind ?c _] => rewrite E; cbn [rbind]
           end.
    assumption. }
  split; [apply Hrun|]. rewrite Htgt. exact Sout.
Qed.
End Claims.

(* ------------------------------------------------------------------ *)
(** ** The sine position embedding *)

Lemma even_mod2 (c : nat) : Nat.even c = (c mod 2 =? 0).
Proof.
  destruct (Nat.even c) eqn:E.
  - apply Nat.even_spec in E. destruct E as [k ->].
    rewrite Nat.mul_comm, Nat.Div0.mod_mul. reflexivity.
  - assert (Ho : Nat.odd c = true) by (unfold Nat.odd; rewrite E; reflexivity).
    apply Nat.odd_spec in Ho. destruct Ho as [k ->].
    rewrite Nat.add_comm, Nat.mul_comm, Nat.Div0.mod_add. reflexivity.
Qed.

Lemma even_halves (n : nat) : Nat.even n = true -> (n + 1) / 2 = n / 2 /\ n / 2 * 2 = n.
Proof.
  intros E. apply Nat.even_spec in E. destruct E as [k ->].
  assert (H1 : (2 * k + 1) / 2 = k) by (symmetry; apply (Nat.div_unique _ 2 k 1); lia).
  assert (H2 : 2 * k / 2 = k) by (symmetry; apply (Nat.div_unique _ 2 k 0); lia).
  rewrite H1, H2. lia.
Qed.

Lemma odd_halves (n : nat) : Nat.even n = false -> (n + 1) / 2 <> n / 2.
Proof.
  intros E.
  assert (Ho : Nat.odd n = true) by (unfold Nat.odd; rewrite E; reflexivity).
  apply Nat.odd_spec in Ho. destruct Ho as [k ->].
  assert (H1 : (2 * k + 1 + 1) / 2 = k + 1)
    by (symmetry; apply (Nat.div_unique _ 2 (k + 1) 0); lia).
  assert (H2 : (2 * k + 1) / 2 = k) by (symmetry; apply (Nat.div_unique _ 2 k 1); lia).
  rewrite H1, H2. lia.
Qed.

Section Sine.
Context {F : Type} {SF : Scalar F}.

Lemma sin_cos_even (p : Tensor F) (b h w n : nat) :
  shape p = [b; h; w; n] ->
  Nat.even n = true ->
  exists q,
    PositionEmbeddingSine.sin_cos p = Ok q
    /\ shape q = [b; h; w; n]
    /\ forall bi i j c,
        get q [bi; i; j; c]
        = PositionEmbeddingSine.sin_or_cos c (get p [bi; i; j; c]).
Proof.
  intros Hp En. destruct (even_halves n En) as [Hh Hn].
  unfold PositionEmbeddingSine.sin_cos. rewrite Hp, Hh, Nat.eqb_refl.
  eexists. split; [reflexivity|]. split; [cbn [shape]; rewrite Hn; reflexivity|].
  intros bi i j c. cbn [get]. unfold PositionEmbeddingSine.sin_or_cos.
  rewrite even_mod2.
  pose proof (Nat.div_mod_eq c 2) as Hc.
  pose proof (Nat.mod_upper_bound c 2) as Hm.
  destruct (c mod 2 =? 0) eqn:E.
  - apply Nat.eqb_eq in E. replace (2 * (c / 2)) with c by lia. reflexivity.
  - apply Nat.eqb_neq in E. replace (2 * (c / 2) + 1) with c by lia. reflexivity.
Qed.

Lemma sin_cos_odd (p : Tensor F) (b h w n : nat) :
  shape p = [b; h; w; n] ->
  Nat.even n = false ->
  PositionEmbeddingSine.sin_cos p
  = Raise (RuntimeError "stack expects each tensor to be equal size").
Proof.
  intros Hp En. unfold PositionEmbeddingSine.sin_cos. rewrite Hp.
  destruct (Nat.eqb_spec ((n + 1) / 2) (n / 2)) as [E|_]; [|reflexivity].
  exfalso. exact (odd_halves n En E).
Qed.

Lemma y_embed_shape (self : PositionEmbeddingSine.t) (m : Tensor bool) :
  shape (PositionEmbeddingSine.y_embed_of self m) = shape m.
Proof.
  unfold PositionEmbeddingSine.y_embed_of.
  destruct (PositionEmbeddingSine.normalize self); reflexivity.
Qed.

Lemma x_embed_shape (self : PositionEmbeddingSine.t) (m : Tensor bool) :
  shape (PositionEmbeddingSine.x_embed_of self m) = shape m.
Proof.
  unfold PositionEmbeddingSine.x_embed_of.
  destruct (PositionEmbeddingSine.normalize self); reflexivity.
Qed.

Lemma mask_or_default_none (x : Tensor F) (B C H W : nat) :
  shape x = [B; C; H; W] ->
  PositionEmbeddingSine.mask_or_default x None = Ok (full [B; H; W] false).
Proof.
  intros Hx. unfold PositionEmbeddingSine.mask_or_default, PositionEmbeddingSine.size.
  rewrite Hx. reflexivity.
Qed.

Lemma forward_channels :
  forall (self : PositionEmbeddingSine.t) (x : Tensor F)
         (mask : option (Tensor bool)) (m : Tensor bool) (B H W : nat),
    PositionEmbeddingSine.mask_or_default x mask = Ok m ->
    shape m = [B; H; W] ->
    (Nat.even (PositionEmbeddingSine.num_pos_feats self) = true ->
     exists pos,
       PositionEmbeddingSine.forward self x mask = Ok pos
       /\ shape pos = [B; 2 * PositionEmbeddingSine.num_pos_feats self; H; W]
       /\ forall b i j c,
           c < PositionEmbeddingSine.num_pos_feats self ->
           get pos [b; c; i; j]
           = PositionEmbeddingSine.sin_or_cos c
               (fdiv (get (PositionEmbeddingSine.y_embed_of self m) [b; i; j])
                     (PositionEmbeddingSine.channel_divisor self c))
           /\ get pos [b; PositionEmbeddingSine.num_pos_feats self + c; i; j]
              = PositionEmbeddingSine.sin_or_cos c
                  (fdiv (get (PositionEmbeddingSine.x_embed_of self m) [b; i; j])
                        (PositionEmbeddingSine.channel_divisor self c)))
    /\ (Nat.even (PositionEmbeddingSine.num_pos_feats self) = false ->
        exists e, PositionEmbeddingSine.forward self x mask = Raise e).
Proof.
  intros self x mask m B H W Hm Sm.
  set (n := PositionEmbeddingSine.num_pos_feats self).
  assert (Sx : shape (PositionEmbeddingSine.div_dim_t
                        (PositionEmbeddingSine.x_embed_of self m)
                        (PositionEmbeddingSine.dim_t self)) = [B; H; W; n]).
  { unfold PositionEmbeddingSine.div_dim_t. cbn [shape].
    rewrite x_embed_shape, Sm. reflexivity. }
  assert (Sy : shape (PositionEmbeddingSine.div_dim_t
                        (PositionEmbeddingSine.y_embed_of self m)
                        (PositionEmbeddingSine.dim_t self)) = [B; H; W; n]).
  { unfold PositionEmbeddingSine.div_dim_t. cbn [shape].
    rewrite y_embed_shape, Sm. reflexivity. }
  split; intros En.
  - destruct (sin_cos_even _ Sx En) as (px & Epx & Spx & Gpx).
    destruct (sin_cos_even _ Sy En) as (py & Epy & Spy & Gpy).
    unfold PositionEmbeddingSine.forward. rewrite Hm. cbn [rbind]. rewrite Sm.
    cbn [List.length Nat.eqb negb]. cbv zeta. rewrite Epx. cbn [rbind]. rewrite Epy.
    cbn [rbind]. unfold PositionEmbeddingSine.cat3_permute. rewrite Spx, Spy.
    rewrite !Nat.eqb_refl. cbn [andb].
    eexists. split; [reflexivity|].
    split; [cbn [shape]; f_equal; f_equal; lia|].
    intros b i j c Hc. cbn [get]. split.
    + apply Nat.ltb_lt in Hc. rewrite Hc. rewrite Gpy. reflexivity.
    + replace (n + c <? n) with false by (symmetry; apply Nat.ltb_ge; lia).
      replace (n + c - n) with c by lia. rewrite Gpx. reflexivity.
  - unfold PositionEmbeddingSine.forward. rewrite Hm. cbn [rbind]. rewrite Sm.
    cbn [List.length Nat.eqb negb]. cbv zeta.
    rewrite (sin_cos_odd _ Sx En). eexists. reflexivity.
Qed.

(** C7, as the code has it.  For an even number of position features and
    a mask of shape (batch, H, W) (the one passed, or the all-valid one of
    the size of [x]), [forward] returns a tensor of shape
    (batch, 2 * num_pos_feats, H, W): first the y-axis then the x-axis
    embedding, each channel [c] being the position index (the cumulative
    count, normalized and scaled if [normalize]) divided by
    [temperature ** (2 * (c // 2) / num_pos_feats)], under sine for even
    [c] and cosine for odd [c].  For an odd number of position features
    the call raises. *)
Theorem PositionEmbeddingSine_forward_channels :
  forall (self : PositionEmbeddingSine.t) (x : Tensor F)
         (mask : option (Tensor bool)) (m : Tensor bool) (B H W : nat),
    PositionEmbeddingSine.mask_or_default x mask = Ok m ->
    shape m = [B; H; W] ->
    (Nat.even (PositionEmbeddingSine.num_pos_feats self) = true ->
     exists pos,
       PositionEmbeddingSine.forward self x mask = Ok pos
       /\ shape pos = [B; 2 * PositionEmbeddingSine.num_pos_feats self; H; W]
       /\ forall b i j c,
           c < PositionEmbeddingSine.num_pos_feats self ->
           get pos [b; c; i; j]
           = PositionEmbeddingSine.sin_or_cos c
               (fdiv (get (PositionEmbeddingSine.y_embed_of self m) [b; i; j])
                     (PositionEmbeddingSine.channel_divisor self c))
           /\ get pos [b; PositionEmbeddingSine.num_pos_feats self + c; i; j]
              = PositionEmbeddingSine.sin_or_cos c
                  (fdiv (get (PositionEmbeddingSine.x_embed_of self m) [b; i; j])
                        (PositionEmbeddingSine.channel_divisor self c)))
    /\ (Nat.even (PositionEmbeddingSine.num_pos_feats self) = false ->
        exists e, PositionEmbeddingSine.forward self x mask = Raise e).
Proof.
  intros self x mask m B H W Hm Sm. exact (forward_channels self x mask Hm Sm).
Qed.
End Sine.

(* ------------------------------------------------------------------ *)
(** ** The divisor of the sine embedding, in the real numbers *)

Lemma sin_inv_Rpower_lt (T y z : R) :
  (1 < T)%R -> (0 <= y)%R -> (y < z)%R ->
  (sin (1 / Rpower T z) < sin (1 / Rpower T y))%R.
Proof.
  intros HT Hy Hyz.
  assert (H0 : (0 < T)%R) by lra.
  assert (Hone : (1 <= Rpower T y)%R).
  { destruct (Req_dec y 0) as [->|Hne].
    - rewrite Rpower_O by exact H0. lra.
    - rewrite <- (Rpower_O T H0). left. apply Rpower_lt; lra. }
  assert (Hlt : (Rpower T y < Rpower T z)%R) by (apply Rpower_lt; assumption).
  assert (Hinv : (/ Rpower T z < / Rpower T y)%R).
  { apply Rinv_lt_contravar; [|exact Hlt]. apply Rmult_lt_0_compat; lra. }
  assert (Hpos : (0 < / Rpower T z)%R) by (apply Rinv_0_lt_compat; lra).
  assert (Hle : (/ Rpower T y <= 1)%R).
  { rewrite <- Rinv_1. apply Rinv_le_contravar; lra. }
  pose proof PI2_1 as Hpi.
  unfold Rdiv. rewrite !Rmult_1_l.
  apply sin_increasing_1; lra.
Qed.

(** C7 fails as stated.  With four position features, on one unmasked pixel,
    channel 2 of the result is [sin(1 / 10000 ** (1/2))]: the exponent the
    code computes is [2 * (2 // 2) / 4], neither [2 * (2 * 2) / 4] (the
    stated formula at channel 2) nor [2 * (2 * 1) / 4] (the stated formula at
    the index of the sine-cosine pair).  With one position feature the call
    raises, so no tensor of shape (1, 2, 1, 1) is returned. *)
Lemma PositionEmbeddingSine_spec_divisor_counterexample :
  PositionEmbeddingSine.__init__ 4 10000%R false None = Ok sine4
  /\ (exists pos,
        PositionEmbeddingSine.forward sine4 (full [1; 1; 1; 1] 0%R) None = Ok pos
        /\ get pos [0; 2; 0; 0]
           <> PositionEmbeddingSine.sin_or_cos 2
                (fdiv (get (PositionEmbeddingSine.y_embed_of sine4 (full [1; 1; 1] false))
                           [0; 0; 0])
                      (PositionEmbeddingSine.spec_divisor sine4 2))
        /\ get pos [0; 2; 0; 0]
           <> PositionEmbeddingSine.sin_or_cos 2
                (fdiv (get (PositionEmbeddingSine.y_embed_of sine4 (full [1; 1; 1] false))
                           [0; 0; 0])
                      (PositionEmbeddingSine.spec_divisor sine4 1)))
  /\ PositionEmbeddingSine.__init__ 1 10000%R false None = Ok sine1
  /\ exists e,
       PositionEmbeddingSine.forward sine1 (full [1; 1; 1; 1] 0%R) None = Raise e.
Proof.
  split; [reflexivity|]. split.
  - destruct (proj1 (forward_channels sine4 (full [1; 1; 1; 1] 0%R) None
                       (m := full [1; 1; 1] false) eq_refl eq_refl) eq_refl)
      as (pos & Hpos & _ & Hget).
    exists pos. split; [exact Hpos|].
    destruct (Hget 0 0 0 2) as [Hy _]; [simpl; lia|].
    rewrite Hy.
    unfold PositionEmbeddingSine.sin_or_cos, PositionEmbeddingSine.channel_divisor,
      PositionEmbeddingSine.spec_divisor, PositionEmbeddingSine.y_embed_of,
      PositionEmbeddingSine.cumsum1, PositionEmbeddingSine.count_true.
    simpl.
    split; apply Rgt_not_eq, Rlt_gt, sin_inv_Rpower_lt; lra.
  - split; [reflexivity|].
    exact (proj2 (forward_channels sine1 (full [1; 1; 1; 1] 0%R) None
                    (m := full [1; 1; 1] false) eq_refl eq_refl) eq_refl).
Qed.

(* ------------------------------------------------------------------ *)
(** ** Runs on small models *)

(** The toy attention meets the contract of the layer. *)
Lemma toy_attention_contract (L B E : nat) :
  attention_contract ZInst.kernel L B E None None.
Proof.
  intros m q k v _ _ _ Sv. exists q. split; [reflexivity|].
  intros w' _. exists v. split; [reflexivity|exact Sv].
Qed.

(** C3 fails as stated, in two ways.  A layer constructed with the
    activation "glu", which [_get_activation_fn] accepts, has no forward
    step: [F.glu] halves the last axis of the output of [linear1], and
    [linear2] rejects it.  And on a layer constructed with a dropout
    probability other than 0 the step is not the stated one: with
    probability 1 the attention and feed-forward outputs are zeroed before
    they are added, and the layer returns [tgt]. *)
Lemma layer_forward_counterexample :
  (exists layer g1,
      TransformerSALayer.__init__ (F := Z) (G := nat) 2 1 4 0 "glu" 0 = Ok (layer, g1)
      /\ TransformerSALayer.forward layer (full [1; 1; 2] 1%Z) None None None g1
         = Raise (RuntimeError "mat1 and mat2 shapes cannot be multiplied"))
  /\ (exists layer g1 out out',
        TransformerSALayer.__init__ (F := Z) (G := nat) 2 1 4 1 "gelu" 0 = Ok (layer, g1)
        /\ TransformerSALayer.forward layer (full [1; 1; 2] 1%Z) None None None g1
           = Ok (out, g1)
        /\ TransformerSALayer.spec_forward layer (full [1; 1; 2] 1%Z) None None None
           = Ok out'
        /\ get out [0; 0; 0] <> get out' [0; 0; 0]).
Proof.
  split.
  - eexists. eexists. split; [vm_compute; reflexivity|].
    vm_compute. reflexivity.
  - eexists. eexists. eexists. eexists.
    split; [vm_compute; reflexivity|].
    split; [vm_compute; reflexivity|].
    split; [vm_compute; reflexivity|].
    vm_compute. discriminate.
Qed.

(** A gelu layer of width 2 and feed-forward width 4 on one token with a
    position bias. *)
Lemma layer_forward_dataflow_witness :
  exists layer g1 out,
    TransformerSALayer.__init__ (F := Z) (G := nat) 2 1 4 0 "gelu" 0 = Ok (layer, g1)
    /\ TransformerSALayer.forward layer (full [1; 1; 2] 1%Z) None None
         (Some (full [1; 1; 2] 1%Z)) g1 = Ok (out, g1)
    /\ shape out = [1; 1; 2].
Proof.
  eexists. eexists.
  assert (Hinit : TransformerSALayer.__init__ (F := Z) (G := nat) 2 1 4 0 "gelu" 0
                  = Ok (?[layer], ?[g1])) by (vm_compute; reflexivity).
  destruct (@layer_forward_dataflow Z nat _ _ _ ZInst.kernel 2 1 4 "gelu" 0 _ _ 1 1
              (full [1; 1; 2] 1%Z) None None (Some (full [1; 1; 2] 1%Z)) 40
              Hinit (or_intror eq_refl) eq_refl
              (fun pos E => match E in _ = o
                                  return match o with
                                         | Some p => shape p = [1; 1; 2]
                                         | None => True
                                         end
                            with eq_refl => eq_refl end)
              (@toy_attention_contract 1 1 2))
    as (n1 & q & w & att & t1 & n2 & h & a & f & out & Hsteps).
  exists out. split; [exact Hinit|]. split; apply Hsteps.
Defined.

(** A model of width 2 with one layer over a codebook of 3 entries. *)
Lemma init_freezes_tokenizer_only_witness :
  exists self g1,
    CodeFormer2.__init__ (F := Z) (G := nat) 2 1 1 3 32 ["32"; "64"; "128"; "256"] None 0
    = Ok (self, g1)
    /\ Forall (fun p => requires_grad p = false) (parameters (CodeFormer2.vqvae self))
    /\ Forall (fun p => requires_grad p = true) (CodeFormer2.new_parameters self).
Proof.
  eexists. eexists.
  assert (Hinit : CodeFormer2.__init__ (F := Z) (G := nat) 2 1 1 3 32
                    ["32"; "64"; "128"; "256"] None 0
                  = Ok (?[self], ?[g1])) by (vm_compute; reflexivity).
  split; [exact Hinit|].
  destruct (@init_freezes_tokenizer_only Z nat _ _ _ 2 1 1 3 32
              ["32"; "64"; "128"; "256"] None 0 _ _ Hinit) as (Hvq & _ & Hnew & _).
  split; [exact Hvq|exact Hnew].
Defined.

(** A model of width 1 on the pyramid of two images. *)
Lemma embed_tokens_keeps_pyramid_order_witness :
  exists self g1 idx_embed,
    CodeFormer2.__init__ (F := Z) (G := nat) 1 1 1 1 32 ["32"; "64"; "128"; "256"] None 0
    = Ok (self, g1)
    /\ CodeFormer2.embed_tokens self zero_pyramid = Ok idx_embed
    /\ shape idx_embed = [680; 2; 1].
Proof.
  eexists. eexists.
  assert (Hinit : CodeFormer2.__init__ (F := Z) (G := nat) 1 1 1 1 32
                    ["32"; "64"; "128"; "256"] None 0
                  = Ok (?[self], ?[g1])) by (vm_compute; reflexivity).
  match type of Hinit with
  | _ = Ok (?s, _) => assert (Hpyr : pyramid 2 1 (CodeFormer2.patch_hws s) zero_pyramid)
  end.
  { unfold pyramid, zero_pyramid. cbn [CodeFormer2.patch_hws map].
    repeat (constructor; [split; vm_compute; reflexivity|]). constructor. }
  destruct (@embed_tokens_keeps_pyramid_order Z nat _ _ _ 1 1 1 1 32
              ["32"; "64"; "128"; "256"] None 0 _ _ 2 zero_pyramid Hinit Hpyr)
    as (idx_embed & Hemb & Hshape & _).
  exists idx_embed. split; [exact Hinit|]. split; [exact Hemb|exact Hshape].
Defined.

(** A model of width 1 with one layer, on a batch of two images. *)
Lemma forward_shapes_witness :
  exists self g1 logits lat,
    CodeFormer2.__init__ (F := Z) (G := nat) 1 1 1 1 32 ["32"; "64"; "128"; "256"] None 0
    = Ok (self, g1)
    /\ CodeFormer2.forward self (full [2; 3; 256; 256] 0%Z) 0%Z true false false g1
       = Ok ((logits, lat), g1)
    /\ shape logits = [2; 680; 1]
    /\ shape lat = [2; 32; 16; 16].
Proof.
  eexists. eexists.
  assert (Hinit : CodeFormer2.__init__ (F := Z) (G := nat) 1 1 1 1 32
                    ["32"; "64"; "128"; "256"] None 0
                  = Ok (?[self], ?[g1])) by (vm_compute; reflexivity).
  match type of Hinit with
  | _ = Ok (?s, _) =>
      assert (Htok : tokenizer_contract ZInst.tokenizer (CodeFormer2.vqvae s) 2 1
                       (CodeFormer2.patch_hws s)
                       (full [2; 3; 256; 256] 0%Z) (full [2; 32; 16; 16] 0%Z))
  end.
  { unfold tokenizer_contract. do 5 eexists.
    split; [vm_compute; reflexivity|]. split; [vm_compute; reflexivity|].
    split; [vm_compute; reflexivity|]. split; [reflexivity|].
    split; [reflexivity|]. split; [reflexivity|]. split; [reflexivity|].
    unfold pyramid. cbn [CodeFormer2.patch_hws map].
    repeat (constructor; [split; vm_compute; reflexivity|]). constructor. }
  destruct (@forward_shapes Z nat _ _ _ ZInst.kernel ZInst.tokenizer 1 1 1 1 32
              ["32"; "64"; "128"; "256"] None 0 _ _ 2 _ _ 0%Z true false false 23
              Hinit Htok (@toy_attention_contract 680 2 1))
    as (logits & Hrun & Hshape & Hhws & _ & Hlat).
  exists logits, (full [2; 32; 16; 16] 0%Z).
  split; [exact Hinit|]. split; [exact Hrun|].
  split; [rewrite Hshape, Hhws; reflexivity|exact Hlat].
Defined.

(** Two runs of one model from the generator states 0 and 7. *)
Lemma forward_deterministic_witness :
  exists self g1,
    CodeFormer2.__init__ (F := Z) (G := nat) 1 1 1 1 32 ["32"; "64"; "128"; "256"] None 0
    = Ok (self, g1)
    /\ match CodeFormer2.forward self (full [2; 3; 256; 256] 0%Z) 0%Z true false false 0,
             CodeFormer2.forward self (full [2; 3; 256; 256] 0%Z) 0%Z true false false 7
       with
       | Ok (r, h), Ok (r', h') => r = r' /\ h = 0 /\ h' = 7
       | Raise e, Raise e' => e = e'
       | _, _ => False
       end.
Proof.
  eexists. eexists.
  assert (Hinit : CodeFormer2.__init__ (F := Z) (G := nat) 1 1 1 1 32
                    ["32"; "64"; "128"; "256"] None 0
                  = Ok (?[self], ?[g1])) by (vm_compute; reflexivity).
  split; [exact Hinit|].
  pose proof (@forward_deterministic Z nat _ _ _ ZInst.kernel ZInst.tokenizer
                1 1 1 1 32 ["32"; "64"; "128"; "256"] None 0 _ _
                (full [2; 3; 256; 256] 0%Z) 0%Z true false false Hinit) as [_ Hdet].
  exact (Hdet 0 7).
Defined.

(** Two position features on an unmasked 2 x 2 grid. *)
Lemma PositionEmbeddingSine_forward_channels_witness :
  exists pos,
    PositionEmbeddingSine.forward
      (PositionEmbeddingSine.mk 2 10000%Z false 6%Z) (full [1; 1; 2; 2] 0%Z) None
    = Ok pos
    /\ shape pos = [1; 4; 2; 2].
Proof.
  destruct (proj1 (@PositionEmbeddingSine_forward_channels Z _
                     (PositionEmbeddingSine.mk 2 10000%Z false 6%Z)
                     (full [1; 1; 2; 2] 0%Z) None (full [1; 2; 2] false) 1 2 2
                     eq_refl eq_refl) eq_refl)
    as (pos & Hpos & Hshape & _).
  exists pos. split; [exact Hpos|exact Hshape].
Defined.

(** Two constructions that differ in [latent_size] (32, 64) and in
    [connect_list], behind a tokenizer constructor that accepts the fixed
    configuration only. *)
Lemma latent_size_and_connect_list_unused_witness :
  @CodeFormer2.__init__ Z nat _ _ (with_VQVAE_init ZInst.tokenizer strict_VQVAE_init)
    1 1 1 1 32 ["32"; "64"; "128"; "256"] None 0
  = @CodeFormer2.__init__ Z nat _ _ ZInst.tokenizer
      1 1 1 1 32 ["32"; "64"; "128"; "256"] None 0
  /\ match @CodeFormer2.__init__ Z nat _ _ ZInst.tokenizer 1 1 1 1 32
             ["32"; "64"; "128"; "256"] None 0,
           @CodeFormer2.__init__ Z nat _ _ ZInst.tokenizer 1 1 1 1 64 [] None 0
     with
     | Ok (m1, g1), Ok (m2, g2) =>
         g1 = g2
         /\ forall x w detach_16 code_only adain g',
             CodeFormer2.forward m1 x w detach_16 code_only adain g'
             = CodeFormer2.forward m2 x w detach_16 code_only adain g'
     | Raise e1, Raise e2 => e1 = e2
     | _, _ => False
     end.
Proof.
  exact (@latent_size_and_connect_list_unused Z nat _ _ _ ZInst.kernel
           ZInst.tokenizer strict_VQVAE_init
           1 1 1 1 32 64 ["32"; "64"; "128"; "256"] [] None 0 eq_refl).
Defined.


(* ------------------------------------------------------------------ *)
(** ** Adaptive instance normalization: statistics and shapes *)

Section AdaINFacts.
Context {F : Type} {SF : Scalar F}.

Lemma view_b_c_ok (feat : Tensor F) (b c h w : nat) :
  shape feat = [b; c; h; w] -> b * c <> 0 ->
  view_b_c feat b c
  = Ok (mkTensor [b; c; h * w]
          (fun ix => match ix with
                     | [bi; ci; k] => get feat [bi; ci; k / w; k mod w]
                     | _ => f0
                     end)).
Proof.
  intros Hs Hbc. unfold view_b_c. rewrite Hs.
  destruct (Nat.eqb_spec (b * c) 0) as [E|_]; [contradiction|reflexivity].
Qed.

Lemma calc_mean_std_ok (feat : Tensor F) (eps : Q) (b c h w : nat) :
  shape feat = [b; c; h; w] -> b * c <> 0 ->
  exists mean std,
    calc_mean_std feat eps = Ok (mean, std)
    /\ shape mean = [b; c; 1; 1]
    /\ shape std = [b; c; 1; 1]
    /\ forall bi ci i j,
        get mean [bi; ci; i; j] = channel_mean feat h w bi ci
        /\ get std [bi; ci; i; j] = channel_std feat eps h w bi ci.
Proof.
  intros Hs Hbc. unfold calc_mean_std. rewrite Hs. cbn [List.length Nat.eqb negb nth].
  rewrite (view_b_c_ok feat Hs Hbc). cbn [rbind].
  eexists. eexists. split; [reflexivity|]. split; [reflexivity|]. split; [reflexivity|].
  intros bi ci i j. split; reflexivity.
Qed.

(** X1.  [calc_mean_std] takes feature maps of four axes only, with at least one
    channel in the batch: any other number of axes fails the assertion, an
    empty batch or channel axis makes [view(b, c, -1)] raise; otherwise it
    returns the per-channel mean and standard deviation, both of shape
    (b, c, 1, 1), the deviation being the root of the unbiased variance
    plus [eps]. *)
Theorem calc_mean_std_cases :
  forall (feat : Tensor F) (eps : Q),
    (List.length (shape feat) <> 4 ->
     calc_mean_std feat eps
     = Raise (AssertionError "The input feature should be 4D tensor."))
    /\ (forall b c h w,
           shape feat = [b; c; h; w] -> b * c = 0 ->
           exists msg, calc_mean_std feat eps = Raise (RuntimeError msg))
    /\ (forall b c h w,
           shape feat = [b; c; h; w] -> b * c <> 0 ->
           exists mean std,
             calc_mean_std feat eps = Ok (mean, std)
             /\ shape mean = [b; c; 1; 1]
             /\ shape std = [b; c; 1; 1]
             /\ forall bi ci,
                 get mean [bi; ci; 0; 0] = channel_mean feat h w bi ci
                 /\ get std [bi; ci; 0; 0] = channel_std feat eps h w bi ci).
Proof.
  intros feat eps. split; [|split].
  - intros Hn. unfold calc_mean_std.
    destruct (Nat.eqb_spec (List.length (shape feat)) 4) as [E|_]; [contradiction|].
    reflexivity.
  - intros b c h w Hs Hbc. unfold calc_mean_std, view_b_c. rewrite Hs.
    cbn [List.length Nat.eqb negb nth]. rewrite Hbc. cbn. eexists. reflexivity.
  - intros b c h w Hs Hbc.
    destruct (calc_mean_std_ok feat eps Hs Hbc) as (mean & std & E & Sm & Ss & Hv).
    exists mean, std. repeat (split; [assumption|]). intros bi ci. apply Hv.
Qed.
End AdaINFacts.

Section AdaINShape.
Context {F : Type} {SF : Scalar F}.

Lemma compatible_dec (n' n : nat) :
  ((n' =? n) || (n' =? 1)) = true <-> compatible n' n.
Proof.
  unfold compatible. rewrite orb_true_iff, !Nat.eqb_eq. reflexivity.
Qed.

Lemma expand_stats (t : Tensor F) (a b a' b' h w : nat) :
  shape t = [a; b; 1; 1] -> compatible a a' -> compatible b b' ->
  expand t [a'; b'; h; w]
  = Ok (mkTensor [a'; b'; h; w]
          (fun ix => match ix with
                     | [i; j; k; l] =>
                         get t [if a =? 1 then 0 else i; if b =? 1 then 0 else j; 0; 0]
                     | _ => f0
                     end)).
Proof.
  intros Hs Ha Hb. unfold expand. rewrite Hs.
  apply compatible_dec in Ha, Hb. rewrite Ha, Hb. cbn [andb Nat.eqb orb].
  rewrite !orb_true_r. reflexivity.
Qed.

Lemma expand_stats_fails (t : Tensor F) (a b a' b' h w : nat) :
  shape t = [a; b; 1; 1] -> ~ (compatible a a' /\ compatible b b') ->
  exists msg, expand t [a'; b'; h; w] = Raise (RuntimeError msg).
Proof.
  intros Hs Hn. unfold expand. rewrite Hs.
  destruct (((a =? a') || (a =? 1)) && ((b =? b') || (b =? 1))) eqn:E.
  - exfalso. apply Hn. apply andb_true_iff in E. destruct E as [Ea Eb].
    split; apply compatible_dec; assumption.
  - cbn [andb]. eexists. reflexivity.
Qed.

Lemma in_range_index (n i : nat) : i < n -> (if n =? 1 then 0 else i) = i.
Proof.
  intros Hi. destruct (Nat.eqb_spec n 1) as [->|_]; [lia|reflexivity].
Qed.

Lemma adaptive_instance_normalization_ok
    (content_feat style_feat : Tensor F) (b c h w b' c' h' w' : nat) :
  shape content_feat = [b; c; h; w] ->
  shape style_feat = [b'; c'; h'; w'] ->
  b * c <> 0 -> b' * c' <> 0 ->
  compatible b' b -> compatible c' c ->
  exists out,
    adaptive_instance_normalization content_feat style_feat = Ok out
    /\ shape out = [b; c; h; w]
    /\ forall bi ci i j,
        bi < b -> ci < c ->
        let sb := if b' =? 1 then 0 else bi in
        let sc := if c' =? 1 then 0 else ci in
        get out [bi; ci; i; j]
        = fadd (fmul (fdiv (fsub (get content_feat [bi; ci; i; j])
                                 (channel_mean content_feat h w bi ci))
                           (channel_std content_feat default_eps h w bi ci))
                     (channel_std style_feat default_eps h' w' sb sc))
               (channel_mean style_feat h' w' sb sc).
Proof.
  intros Hc Hs Hbc Hbc' Hb Hcc.
  destruct (calc_mean_std_ok content_feat default_eps Hc Hbc)
    as (cm & cs & Ec & Scm & Scs & Vc).
  destruct (calc_mean_std_ok style_feat default_eps Hs Hbc')
    as (sm & ss & Es & Ssm & Sss & Vs).
  assert (Hrefl : forall n, compatible n n) by (intros n; left; reflexivity).
  unfold adaptive_instance_normalization. rewrite Es. cbn [rbind]. rewrite Ec. cbn [rbind].
  rewrite Hc.
  rewrite (expand_stats cm h w Scm (Hrefl b) (Hrefl c)). cbn [rbind].
  unfold tensor_map2 at 1. cbn [shape]. rewrite ?Hc, shape_eqb_refl. cbn [rbind].
  rewrite (expand_stats cs h w Scs (Hrefl b) (Hrefl c)). cbn [rbind].
  unfold tensor_map2 at 1. cbn [shape]. rewrite ?Hc, shape_eqb_refl. cbn [rbind].
  rewrite (expand_stats ss h w Sss Hb Hcc). cbn [rbind].
  unfold tensor_map2 at 1. cbn [shape]. rewrite ?Hc, shape_eqb_refl. cbn [rbind].
  rewrite (expand_stats sm h w Ssm Hb Hcc). cbn [rbind].
  unfold tensor_map2 at 1. cbn [shape]. rewrite ?Hc, shape_eqb_refl.
  eexists. split; [reflexivity|]. split; [reflexivity|].
  intros bi ci i j Hbi Hci. cbv zeta. cbn [get].
  rewrite (in_range_index Hbi), (in_range_index Hci).
  rewrite (proj1 (Vc bi ci 0 0)), (proj2 (Vc bi ci 0 0)).
  rewrite (proj1 (Vs _ _ 0 0)), (proj2 (Vs _ _ 0 0)). reflexivity.
Qed.

Lemma adaptive_instance_normalization_fails
    (content_feat style_feat : Tensor F) (b c h w b' c' h' w' : nat) :
  shape content_feat = [b; c; h; w] ->
  shape style_feat = [b'; c'; h'; w'] ->
  b * c <> 0 -> b' * c' <> 0 ->
  ~ (compatible b' b /\ compatible c' c) ->
  exists msg,
    adaptive_instance_normalization content_feat style_feat = Raise (RuntimeError msg).
Proof.
  intros Hc Hs Hbc Hbc' Hn.
  destruct (calc_mean_std_ok content_feat default_eps Hc Hbc)
    as (cm & cs & Ec & Scm & Scs & Vc).
  destruct (calc_mean_std_ok style_feat default_eps Hs Hbc')
    as (sm & ss & Es & Ssm & Sss & Vs).
  assert (Hrefl : forall n, compatible n n) by (intros n; left; reflexivity).
  unfold adaptive_instance_normalization. rewrite Es. cbn [rbind]. rewrite Ec. cbn [rbind].
  rewrite Hc.
  rewrite (expand_stats cm h w Scm (Hrefl b) (Hrefl c)). cbn [rbind].
  unfold tensor_map2 at 1. cbn [shape]. rewrite ?Hc, shape_eqb_refl. cbn [rbind].
  rewrite (expand_stats cs h w Scs (Hrefl b) (Hrefl c)). cbn [rbind].
  unfold tensor_map2 at 1. cbn [shape]. rewrite ?Hc, shape_eqb_refl. cbn [rbind].
  destruct (expand_stats_fails ss h w Sss Hn) as [msg Hmsg].
  rewrite Hmsg. cbn [rbind]. exists msg. reflexivity.
Qed.

(** X2.  [adaptive_instance_normalization] on two feature maps of four axes with
    at least one channel each: it succeeds exactly when the batch and
    channel extents of the style map are those of the content map or 1 (the
    style statistics are then shared), whatever the spatial size of the
    style map; the result has the shape of the content map, and each of its
    channels is the content channel shifted and scaled from its own mean and
    deviation to those of the style channel. *)
Theorem adaptive_instance_normalization_cases :
  forall (content_feat style_feat : Tensor F) (b c h w b' c' h' w' : nat),
    shape content_feat = [b; c; h; w] ->
    shape style_feat = [b'; c'; h'; w'] ->
    b * c <> 0 -> b' * c' <> 0 ->
    (compatible b' b /\ compatible c' c ->
     exists out,
       adaptive_instance_normalization content_feat style_feat = Ok out
       /\ shape out = [b; c; h; w]
       /\ forall bi ci i j,
           bi < b -> ci < c ->
           let sb := if b' =? 1 then 0 else bi in
           let sc := if c' =? 1 then 0 else ci in
           get out [bi; ci; i; j]
           = fadd (fmul (fdiv (fsub (get content_feat [bi; ci; i; j])
                                    (channel_mean content_feat h w bi ci))
                              (channel_std content_feat default_eps h w bi ci))
                        (channel_std style_feat default_eps h' w' sb sc))
                  (channel_mean style_feat h' w' sb sc))
    /\ (~ (compatible b' b /\ compatible c' c) ->
        exists msg,
          adaptive_instance_normalization content_feat style_feat
          = Raise (RuntimeError msg)).
Proof.
  intros content style b c h w b' c' h' w' Hc Hs Hbc Hbc'. split.
  - intros [Hb Hcc].
    exact (adaptive_instance_normalization_ok content style Hc Hs Hbc Hbc' Hb Hcc).
  - intros Hn.
    exact (adaptive_instance_normalization_fails content style Hc Hs Hbc Hbc' Hn).
Qed.
End AdaINShape.

(** The style statistics of one grey 5 x 5 map, shared by the two channels
    of a 2 x 2 content map. *)
Lemma adaptive_instance_normalization_cases_witness :
  exists out,
    adaptive_instance_normalization (full [1; 2; 2; 2] 3%Z) (full [1; 1; 5; 5] 7%Z)
    = Ok out
    /\ shape out = [1; 2; 2; 2].
Proof.
  destruct (proj1 (@adaptive_instance_normalization_cases Z _
                     (full [1; 2; 2; 2] 3%Z) (full [1; 1; 5; 5] 7%Z)
                     1 2 2 2 1 1 5 5 eq_refl eq_refl
                     (fun E => match E in _ = n return match n with 0 => False | _ => True end
                               with eq_refl => I end)
                     (fun E => match E in _ = n return match n with 0 => False | _ => True end
                               with eq_refl => I end))
                  (conj (or_introl eq_refl) (or_intror eq_refl)))
    as (out & Hout & Hshape & _).
  exists out. split; [exact Hout|exact Hshape].
Defined.

(* ------------------------------------------------------------------ *)
(** ** Adaptive instance normalization in the real numbers *)

Lemma fold_sum_nonneg (f : nat -> R) (l : list nat) :
  (forall k, (0 <= f k)%R) ->
  forall acc, (0 <= acc)%R ->
    (0 <= fold_left (fun acc k => (acc + f k)%R) l acc)%R.
Proof.
  intros Hf. induction l as [|k l IH]; intros acc Hacc; simpl; [exact Hacc|].
  apply IH. specialize (Hf k). lra.
Qed.

Lemma channel_std_pos (x : Tensor R) (h w bi ci : nat) :
  2 <= h * w -> (0 < channel_std x default_eps h w bi ci)%R.
Proof.
  intros Hn. unfold channel_std.
  set (total := fsum (h * w) _).
  set (n := h * w - 1).
  assert (Hsum : (0 <= total)%R).
  { subst total. unfold fsum. cbn [fadd f0 fmul fsub RInst.scalar].
    apply fold_sum_nonneg; [|lra]. intros k. apply Rle_0_sqr. }
  assert (Hden : (0 < INR n)%R) by (apply lt_0_INR; subst n; lia).
  cbn [fsqrt fadd fdiv f_of_Q f_of_nat RInst.scalar].
  apply sqrt_lt_R0.
  assert (Hq : (0 <= total / INR n)%R).
  { apply Rmult_le_pos; [exact Hsum|]. left. apply Rinv_0_lt_compat. exact Hden. }
  unfold default_eps. cbn [Qnum Qden]. lra.
Qed.

(** X3.  Read in exact real arithmetic, normalizing a feature map to its own
    statistics gives it back: for a map with at least one channel and at
    least two pixels per channel,
    [adaptive_instance_normalization(x, x)] has the shape of [x] and equals
    it entry by entry. *)
Theorem adaptive_instance_normalization_self :
  forall (x : Tensor R) (b c h w : nat),
    shape x = [b; c; h; w] -> b * c <> 0 -> 2 <= h * w ->
    exists out,
      adaptive_instance_normalization x x = Ok out
      /\ shape out = shape x
      /\ forall bi ci i j,
          bi < b -> ci < c -> get out [bi; ci; i; j] = get x [bi; ci; i; j].
Proof.
  intros x b c h w Hx Hbc Hn.
  destruct (adaptive_instance_normalization_ok x x Hx Hx Hbc Hbc
              (or_introl eq_refl) (or_introl eq_refl)) as (out & Hout & Hshape & Hget).
  exists out. split; [exact Hout|]. split; [rewrite Hx; exact Hshape|].
  intros bi ci i j Hbi Hci. rewrite (Hget bi ci i j Hbi Hci). cbv zeta.
  rewrite (in_range_index Hbi), (in_range_index Hci).
  pose proof (channel_std_pos x h w bi ci Hn) as Hpos.
  cbn [fadd fmul fdiv fsub RInst.scalar]. field. lra.
Qed.

(** A 1 x 2 map with the entries 0 and 1. *)
Lemma adaptive_instance_normalization_self_witness :
  exists out,
    adaptive_instance_normalization
      (mkTensor [1; 1; 1; 2] (fun ix => INR (last ix 0)))
      (mkTensor [1; 1; 1; 2] (fun ix => INR (last ix 0))) = Ok out
    /\ get out [0; 0; 0; 1] = 1%R.
Proof.
  destruct (@adaptive_instance_normalization_self
              (mkTensor [1; 1; 1; 2] (fun ix => INR (last ix 0))) 1 1 1 2 eq_refl
              (fun E => match E in _ = n return match n with 0 => False | _ => True end
                        with eq_refl => I end)
              (le_n 2))
    as (out & Hout & _ & Hget).
  exists out. split; [exact Hout|].
  rewrite (Hget 0 0 0 1 (le_n 1) (le_n 1)). reflexivity.
Defined.

(* ------------------------------------------------------------------ *)
(** ** Construction and error behaviour of a self-attention layer *)

Section LayerCases.
Context {F G : Type} {SF : Scalar F} {PF : Pointwise F} {GF : Generator G F}
        {K : MultiheadAttention.Kernel (F := F)}.

Lemma random_tensor_total (s : list nat) (g : G) :
  exists t g', random_tensor (F := F) s g = Ok (t, g').
Proof.
  unfold random_tensor. destruct (samples (numel s) g) as [l g']. eauto.
Qed.

Lemma Linear_init_total (i o : nat) (b : bool) (g : G) :
  exists m g', Linear.__init__ (F := F) i o b g = Ok (m, g').
Proof.
  unfold Linear.__init__, bind.
  destruct (random_tensor_total [o; i] g) as (w & g1 & ->).
  destruct b.
  - destruct (random_tensor_total [o] g1) as (bt & g2 & ->). unfold ret. eauto.
  - unfold ret. eauto.
Qed.

Lemma MultiheadAttention_init_total (e h : nat) (p : Q) (g : G) :
  h <> 0 -> e mod h = 0 ->
  exists m g', MultiheadAttention.__init__ (F := F) e h p g = Ok (m, g').
Proof.
  intros Hh Hd. unfold MultiheadAttention.__init__.
  destruct (Nat.eqb_spec h 0) as [E|_]; [contradiction|].
  rewrite Hd. cbn [Nat.eqb negb orb]. unfold bind.
  destruct (Linear_init_total e e true g) as (out & g1 & ->).
  destruct (random_tensor_total [3 * e; e] g1) as (w & g2 & ->).
  unfold ret. eauto.
Qed.

(** X4.  [TransformerSALayer.__init__] checks its arguments in this order: the
    number of heads has to be positive and divide [embed_dim] (else the
    attention module raises, by its assertion when the division leaves a
    rest), the dropout probability has to lie in [0, 1] (else [nn.Dropout]
    raises [ValueError]), the activation has to be relu, gelu or glu (else
    [RuntimeError]); when all three hold a layer is returned, whatever
    [dim_mlp] and the state of the generator. *)
Theorem layer_init_cases :
  forall (embed_dim nhead dim_mlp : nat) (dropout : Q) (activation : string) (g : G),
    (nhead = 0 ->
     exists e,
       TransformerSALayer.__init__ (F := F) embed_dim nhead dim_mlp dropout activation g
       = Raise e)
    /\ (nhead <> 0 -> embed_dim mod nhead <> 0 ->
        TransformerSALayer.__init__ (F := F) embed_dim nhead dim_mlp dropout activation g
        = Raise (AssertionError "embed_dim must be divisible by num_heads"))
    /\ (0 < embed_dim -> nhead <> 0 -> embed_dim mod nhead = 0 ->
        Qle_bool 0 dropout && Qle_bool dropout 1 = false ->
        exists msg,
          TransformerSALayer.__init__ (F := F) embed_dim nhead dim_mlp dropout activation g
          = Raise (ValueError msg))
    /\ (0 < embed_dim -> nhead <> 0 -> embed_dim mod nhead = 0 ->
        Qle_bool 0 dropout && Qle_bool dropout 1 = true ->
        ~ In activation supported_activations ->
        TransformerSALayer.__init__ (F := F) embed_dim nhead dim_mlp dropout activation g
        = Raise (RuntimeError
                   ("activation should be relu/gelu, not " ++ activation ++ ".")))
    /\ (0 < embed_dim -> nhead <> 0 -> embed_dim mod nhead = 0 ->
        Qle_bool 0 dropout && Qle_bool dropout 1 = true ->
        In activation supported_activations ->
        exists layer g',
          TransformerSALayer.__init__ (F := F) embed_dim nhead dim_mlp dropout
            activation g = Ok (layer, g')).
Proof.
  intros e h m p act g. split; [|split; [|split; [|split]]].
  - intros ->. unfold TransformerSALayer.__init__, bind, MultiheadAttention.__init__.
    cbn [Nat.eqb orb]. eexists. reflexivity.
  - intros Hh Hm. unfold TransformerSALayer.__init__, bind, MultiheadAttention.__init__.
    assert (Hc : (h =? 0) || negb (e mod h =? 0) = true).
    { apply orb_true_iff. right. apply negb_true_iff. apply Nat.eqb_neq. exact Hm. }
    rewrite Hc. reflexivity.
  - intros _ Hh Hd Hp. unfold TransformerSALayer.__init__, bind.
    destruct (MultiheadAttention_init_total e p g Hh Hd) as (sa & g1 & ->).
    destruct (Linear_init_total e m true g1) as (l1 & g2 & ->).
    unfold lift, Dropout.__init__. rewrite Hp. eexists. reflexivity.
  - intros _ Hh Hd Hp Hact. unfold TransformerSALayer.__init__, bind.
    destruct (MultiheadAttention_init_total e p g Hh Hd) as (sa & g1 & ->).
    destruct (Linear_init_total e m true g1) as (l1 & g2 & ->).
    unfold lift, Dropout.__init__. rewrite Hp.
    destruct (Linear_init_total m e true g2) as (l2 & g3 & ->).
    rewrite (get_activation_fn_unsupported Hact). reflexivity.
  - intros _ Hh Hd Hp Hact. unfold TransformerSALayer.__init__, bind.
    destruct (MultiheadAttention_init_total e p g Hh Hd) as (sa & g1 & ->).
    destruct (Linear_init_total e m true g1) as (l1 & g2 & ->).
    unfold lift, Dropout.__init__. rewrite Hp.
    destruct (Linear_init_total m e true g2) as (l2 & g3 & ->).
    destruct (get_activation_fn_supported Hact) as [fn ->].
    unfold ret. eauto.
Qed.
End LayerCases.

(* ------------------------------------------------------------------ *)
(** ** The forward step of a layer when dropout is inactive, and its
       failures *)

Section LayerForwardFacts.
Context {F G : Type} {SF : Scalar F} {PF : Pointwise F} {GF : Generator G F}
        {K : MultiheadAttention.Kernel (F := F)}.

Lemma Dropout_forward_idle (d : Dropout.t) (x : Tensor F) (g : G) :
  dropout_idle d -> Dropout.forward d x g = Ok (x, g).
Proof.
  intros [Hr Hi]. unfold Dropout.forward, Dropout.functional. rewrite Hr, Hi.
  reflexivity.
Qed.

Lemma forward_idle (layer : TransformerSALayer.t) (tgt : Tensor F)
    (am : option (Tensor F)) (kpm : option (Tensor bool))
    (query_pos : option (Tensor F)) (g : G) :
  MultiheadAttention.training (TransformerSALayer.self_attn layer)
    && negb (Qle_bool (MultiheadAttention.dropout (TransformerSALayer.self_attn layer)) 0)
  = false ->
  dropout_idle (TransformerSALayer.dropout layer) ->
  dropout_idle (TransformerSALayer.dropout1 layer) ->
  dropout_idle (TransformerSALayer.dropout2 layer) ->
  TransformerSALayer.forward layer tgt am kpm query_pos g
  = lift (TransformerSALayer.spec_forward layer tgt am kpm query_pos) g.
Proof.
  intros Ha Hd Hd1 Hd2.
  unfold TransformerSALayer.forward, TransformerSALayer.spec_forward.
  unfold bind at 1. unfold lift at 1.
  destruct (LayerNorm.forward (TransformerSALayer.norm1 layer) tgt) as [n1|e];
    [|reflexivity].
  cbn [rbind]. unfold bind at 1. unfold lift at 1.
  destruct (TransformerSALayer.with_pos_embed n1 query_pos) as [q|e]; [|reflexivity].
  cbn [rbind]. cbv zeta. unfold bind at 1.
  unfold MultiheadAttention.forward. rewrite Ha.
  unfold bind at 1. unfold lift at 1.
  destruct (MultiheadAttention.weights (TransformerSALayer.self_attn layer) q q am kpm)
    as [w|e]; [|reflexivity].
  cbn [rbind]. unfold bind at 1. unfold ret at 1. unfold bind at 1. unfold lift at 1.
  destruct (MultiheadAttention.output (TransformerSALayer.self_attn layer) w n1)
    as [att|e]; [|reflexivity].
  cbn [rbind]. unfold ret at 1. cbn [fst]. unfold bind at 1.
  rewrite Dropout_forward_idle by exact Hd1.
  unfold bind at 1. unfold lift at 1.
  destruct (tensor_add tgt att) as [t1|e]; [|reflexivity].
  cbn [rbind]. unfold bind at 1. unfold lift at 1.
  destruct (LayerNorm.forward (TransformerSALayer.norm2 layer) t1) as [n2|e];
    [|reflexivity].
  cbn [rbind]. unfold bind at 1. unfold lift at 1.
  destruct (Linear.forward (TransformerSALayer.linear1 layer) n2) as [h|e];
    [|reflexivity].
  cbn [rbind]. unfold bind at 1. unfold lift at 1.
  destruct (apply_activation (TransformerSALayer.activation layer) h) as [a|e];
    [|reflexivity].
  cbn [rbind]. unfold bind at 1.
  rewrite Dropout_forward_idle by exact Hd.
  unfold bind at 1. unfold lift at 1.
  destruct (Linear.forward (TransformerSALayer.linear2 layer) a) as [f|e];
    [|reflexivity].
  cbn [rbind]. unfold bind at 1.
  rewrite Dropout_forward_idle by exact Hd2.
  unfold bind at 1. unfold lift at 1.
  destruct (tensor_add t1 f) as [out|e]; reflexivity.
Qed.

Lemma Layer_init_range (e h m : nat) (p : Q) (activation : string) (g g' : G)
    (layer : TransformerSALayer.t) :
  TransformerSALayer.__init__ e h m p activation g = Ok (layer, g') ->
  Qle_bool 0 p && Qle_bool p 1 = true.
Proof.
  unfold TransformerSALayer.__init__. intros E.
  apply bind_ok_inv in E. destruct E as (sa & g1 & _ & E).
  apply bind_ok_inv in E. destruct E as (l1 & g2 & _ & E).
  apply bind_ok_inv in E. destruct E as (d0 & g3 & Hd0 & _).
  apply lift_ok_inv in Hd0. destruct Hd0 as [Hd0 _].
  unfold Dropout.__init__ in Hd0.
  destruct (Qle_bool 0 p && Qle_bool p 1); [reflexivity|discriminate].
Qed.

Lemma Qeq_bool_Qle_bool (p : Q) : Qeq_bool p 0 = true -> Qle_bool p 0 = true.
Proof.
  intros E. apply Qle_bool_iff. apply Qeq_bool_iff in E. rewrite E. apply Qle_refl.
Qed.

(** X5.  In evaluation mode, and in training mode when the layer was constructed
    with dropout probability 0, [forward] is the dropout-free step on every
    input: it returns the same tensor or raises the same exception as
    [linear2(activation(linear1(norm2(.))))] added to the attention residual,
    and it leaves the random generator as it was, whatever the masks, the
    shapes and the activation. *)
Theorem layer_forward_without_dropout :
  forall (embed_dim nhead dim_mlp : nat) (dropout : Q) (activation : string)
         (g0 g1 : G) (layer : TransformerSALayer.t) (tgt : Tensor F)
         (tgt_mask : option (Tensor F)) (tgt_key_padding_mask : option (Tensor bool))
         (query_pos : option (Tensor F)) (g : G),
    TransformerSALayer.__init__ embed_dim nhead dim_mlp dropout activation g0
    = Ok (layer, g1) ->
    TransformerSALayer.forward (layer_eval layer) tgt tgt_mask tgt_key_padding_mask
      query_pos g
    = lift (TransformerSALayer.spec_forward (layer_eval layer) tgt tgt_mask
              tgt_key_padding_mask query_pos) g
    /\ (Qeq_bool dropout 0 = true ->
        TransformerSALayer.forward layer tgt tgt_mask tgt_key_padding_mask query_pos g
        = lift (TransformerSALayer.spec_forward layer tgt tgt_mask
                  tgt_key_padding_mask query_pos) g).
Proof.
  intros e h m p act g0 g1 layer tgt am kpm pos g Hinit.
  pose proof (Layer_init_range _ _ _ _ _ _ Hinit) as Hr.
  apply Layer_init_built in Hinit. destruct Hinit as (fn & _ & Hb).
  destruct Hb as ((_ & Hp & _) & _ & _ & _ & _ & Hd & Hd1 & Hd2 & _).
  split.
  - apply forward_idle; unfold layer_eval, dropout_idle; cbn; rewrite ?Hd, ?Hd1, ?Hd2, ?Hr;
      try reflexivity; split; try reflexivity; apply orb_true_r.
  - intros Hz. apply forward_idle.
    + rewrite Hp, (Qeq_bool_Qle_bool _ Hz). apply andb_false_r.
    + unfold dropout_idle. rewrite Hd, Hr, Hz. split; reflexivity.
    + unfold dropout_idle. rewrite Hd1, Hr, Hz. split; reflexivity.
    + unfold dropout_idle. rewrite Hd2, Hr, Hz. split; reflexivity.
Qed.

(** X6.  A layer constructed with the activation "glu" and a positive [dim_mlp]
    raises on every forward call, whatever the input, the masks, the
    position bias, the dropout probability and the attention: [F.glu] halves
    the width that [linear2] expects. *)
Theorem glu_layer_forward_always_raises :
  forall (embed_dim nhead dim_mlp : nat) (dropout : Q) (g0 g1 : G)
         (layer : TransformerSALayer.t) (tgt : Tensor F)
         (tgt_mask : option (Tensor F)) (tgt_key_padding_mask : option (Tensor bool))
         (query_pos : option (Tensor F)) (g : G),
    TransformerSALayer.__init__ embed_dim nhead dim_mlp dropout "glu" g0
    = Ok (layer, g1) ->
    0 < dim_mlp ->
    exists e,
      TransformerSALayer.forward layer tgt tgt_mask tgt_key_padding_mask query_pos g
      = Raise e.
Proof.
  intros e h m p g0 g1 layer tgt am kpm pos g Hinit Hm.
  apply Layer_init_built in Hinit. destruct Hinit as (fn & Hfn & Hb).
  inversion Hfn; subst fn.
  destruct (TransformerSALayer.forward layer tgt am kpm pos g) as [[out g']|err] eqn:E.
  - exfalso. eapply glu_layer_never_returns; eassumption.
  - eauto.
Qed.

(** X7.  A constructed layer rejects, before anything else is computed, an input
    with no axis or whose last axis is not [embed_dim]. *)
Theorem layer_forward_rejects_wrong_width :
  forall (embed_dim nhead dim_mlp : nat) (dropout : Q) (activation : string)
         (g0 g1 : G) (layer : TransformerSALayer.t) (tgt : Tensor F)
         (tgt_mask : option (Tensor F)) (tgt_key_padding_mask : option (Tensor bool))
         (query_pos : option (Tensor F)) (g : G),
    TransformerSALayer.__init__ embed_dim nhead dim_mlp dropout activation g0
    = Ok (layer, g1) ->
    shape tgt = [] \/ last (shape tgt) 0 <> embed_dim ->
    exists msg,
      TransformerSALayer.forward layer tgt tgt_mask tgt_key_padding_mask query_pos g
      = Raise (RuntimeError msg).
Proof.
  intros e h m p act g0 g1 layer tgt am kpm pos g Hinit Hbad.
  apply Layer_init_built in Hinit. destruct Hinit as (fn & _ & Hb).
  destruct Hb as (_ & _ & _ & Hn1 & _).
  unfold TransformerSALayer.forward, bind, lift, LayerNorm.forward. rewrite Hn1.
  assert (Hc : negb (List.length (shape tgt) =? 0) && (last (shape tgt) 0 =? e)
               = false).
  { destruct Hbad as [->|Hne]; [reflexivity|].
    apply andb_false_iff. right. apply Nat.eqb_neq. exact Hne. }
  rewrite Hc. eexists. reflexivity.
Qed.
End LayerForwardFacts.

(** A layer with dropout probability 1/2, switched to evaluation mode. *)
Lemma layer_forward_without_dropout_witness :
  exists layer g1,
    TransformerSALayer.__init__ (F := Z) (G := nat) 2 1 4 (1 # 2) "relu" 0
    = Ok (layer, g1)
    /\ TransformerSALayer.forward (layer_eval layer) (full [1; 1; 2] 1%Z) None None None 5
       = lift (TransformerSALayer.spec_forward (layer_eval layer) (full [1; 1; 2] 1%Z)
                 None None None) 5.
Proof.
  eexists. eexists.
  assert (Hinit : TransformerSALayer.__init__ (F := Z) (G := nat) 2 1 4 (1 # 2) "relu" 0
                  = Ok (?[layer], ?[g1])) by (vm_compute; reflexivity).
  split; [exact Hinit|].
  pose proof (@layer_forward_without_dropout Z nat _ _ _ ZInst.kernel 2 1 4 (1 # 2)
                "relu" 0 _ _ (full [1; 1; 2] 1%Z) None None None 5 Hinit) as [Heval _].
  exact Heval.
Defined.

(** A glu layer of width 2 and feed-forward width 4. *)
Lemma glu_layer_forward_always_raises_witness :
  exists layer g1 e,
    TransformerSALayer.__init__ (F := Z) (G := nat) 2 1 4 0 "glu" 0 = Ok (layer, g1)
    /\ TransformerSALayer.forward layer (full [3; 1; 2] 1%Z) None None None 9 = Raise e.
Proof.
  eexists. eexists.
  assert (Hinit : TransformerSALayer.__init__ (F := Z) (G := nat) 2 1 4 0 "glu" 0
                  = Ok (?[layer], ?[g1])) by (vm_compute; reflexivity).
  pose proof (@glu_layer_forward_always_raises Z nat _ _ _ ZInst.kernel 2 1 4 0 0 _ _
                (full [3; 1; 2] 1%Z) None None None 9 Hinit (le_S _ _ (le_S _ _ (le_S _ _ (le_n 1)))))
    as [e He].
  exists e. split; [exact Hinit|exact He].
Defined.

(** A layer of width 2 handed tokens of width 3. *)
Lemma layer_forward_rejects_wrong_width_witness :
  exists layer g1 msg,
    TransformerSALayer.__init__ (F := Z) (G := nat) 2 1 4 0 "gelu" 0 = Ok (layer, g1)
    /\ TransformerSALayer.forward layer (full [1; 1; 3] 1%Z) None None None 0
       = Raise (RuntimeError msg).
Proof.
  eexists. eexists.
  assert (Hinit : TransformerSALayer.__init__ (F := Z) (G := nat) 2 1 4 0 "gelu" 0
                  = Ok (?[layer], ?[g1])) by (vm_compute; reflexivity).
  assert (Hbad : shape (full [1; 1; 3] 1%Z) = [] \/ last (shape (full [1; 1; 3] 1%Z)) 0 <> 2).
  { right. cbn. discriminate. }
  destruct (@layer_forward_rejects_wrong_width Z nat _ _ _ ZInst.kernel 2 1 4 0 "gelu" 0 _ _
              (full [1; 1; 3] 1%Z) None None None 0 Hinit Hbad) as [msg Hmsg].
  exists msg. split; [exact Hinit|exact Hmsg].
Defined.

(* ------------------------------------------------------------------ *)
(** ** Construction of the network: position bias, freezing loop, failures *)

Section InitFacts.
Context {F G : Type} {SF : Scalar F} {PF : Pointwise F} {GF : Generator G F}
        {K : MultiheadAttention.Kernel (F := F)} {T : Tokenizer F G}.

(** X8.  The position bias handed to the attention layers,
    [position_emb.unsqueeze(1).repeat(1, batch, 1)], has shape
    (L, batch, dim_embd) and holds row [l] of [position_emb] at every batch
    entry: the bias does not depend on the image. *)
Theorem position_bias_is_shared :
  forall (self : CodeFormer2.t (F := F)) (L D batch : nat),
    shape (data (CodeFormer2.position_emb self)) = [L; D] ->
    exists u pos_emb,
      unsqueeze1 (data (CodeFormer2.position_emb self)) = Ok u
      /\ repeat3 u 1 batch 1 = Ok pos_emb
      /\ shape pos_emb = [L; batch; D]
      /\ forall l b d,
          l < L -> d < D ->
          get pos_emb [l; b; d] = get (data (CodeFormer2.position_emb self)) [l; d].
Proof.
  intros self L D batch Hs. unfold unsqueeze1. rewrite Hs.
  eexists. eexists. split; [reflexivity|]. unfold repeat3. cbn [shape].
  split; [reflexivity|]. split.
  - cbn [shape]. rewrite !Nat.mul_1_r, Nat.mul_1_l. reflexivity.
  - intros l b d Hl Hd. cbn [get].
    rewrite (Nat.mod_small l L Hl), (Nat.mod_small d D Hd). reflexivity.
Qed.

Lemma assoc_map_snd {A} (f : A -> A) (name : string) (l : list (string * A)) :
  assoc name (map (fun c => (fst c, f (snd c))) l)
  = match assoc name l with Some a => Some (f a) | None => None end.
Proof.
  induction l as [|[n a] r IH]; simpl; [reflexivity|].
  destruct (n =? name)%string; [reflexivity|exact IH].
Qed.

Lemma getattr_requires_grad_ (b : bool) (m : nn_Module F) (name : string) :
  getattr (requires_grad_ b m) name
  = match getattr m name with
    | Ok c => Ok (requires_grad_ b c)
    | Raise e => Raise e
    end.
Proof.
  destruct m as [own cs]. unfold getattr. simpl.
  rewrite (assoc_map_snd (requires_grad_ b) name cs).
  destruct (assoc name cs); reflexivity.
Qed.

Lemma freeze_modules_frozen (names : list string) (m : nn_Module F) :
  all_flags false (parameters m) ->
  has_modules m names ->
  CodeFormer2.freeze_modules names m = Ok m.
Proof.
  intros Hall Hhas. induction names as [|name names IH]; simpl; [reflexivity|].
  destruct (Hhas name (or_introl eq_refl)) as [c Hc].
  assert (Hstep : requires_grad_in false m name = Ok m).
  { destruct (requires_grad_in false m name) as [m'|e] eqn:E.
    - f_equal. eapply requires_grad_in_fixed; eassumption.
    - unfold requires_grad_in in E. rewrite Hc in E. discriminate E. }
  rewrite Hstep. simpl. apply IH. intros n Hn. apply Hhas. right. exact Hn.
Qed.

Lemma freeze_modules_missing (names : list string) (m : nn_Module F) :
  all_flags false (parameters m) ->
  ~ has_modules m names ->
  exists name, In name names /\ CodeFormer2.freeze_modules names m = Raise (AttributeError name).
Proof.
  intros Hall. induction names as [|name names IH]; intros Hn.
  - exfalso. apply Hn. intros n [].
  - simpl. destruct (getattr m name) as [c|e] eqn:Hc.
    + assert (Hstep : requires_grad_in false m name = Ok m).
      { destruct (requires_grad_in false m name) as [m'|e] eqn:E.
        - f_equal. eapply requires_grad_in_fixed; eassumption.
        - unfold requires_grad_in in E. rewrite Hc in E. discriminate E. }
      rewrite Hstep. simpl.
      destruct IH as (n & Hin & Hr).
      { intros Hrest. apply Hn. intros n [<-|Hin]; [eauto|auto]. }
      exists n. split; [right; exact Hin|exact Hr].
    + exists name. split; [left; reflexivity|].
      unfold requires_grad_in. rewrite Hc. simpl.
      revert Hc. unfold getattr. destruct (assoc name (named_children m)); [discriminate|].
      intros E. inversion E. reflexivity.
Qed.

(** X9.  After [for param in self.parameters(): param.requires_grad = False] the
    loop over [fix_modules] changes nothing: on any module tree it either
    returns the tree as the first loop left it (when decoder, quantize and
    post_quant_conv are attributes of it) or raises [AttributeError] for a
    missing one. *)
Theorem fix_modules_loop_changes_nothing :
  forall (m : nn_Module F),
    (has_modules m CodeFormer2.fix_modules ->
     CodeFormer2.freeze_modules CodeFormer2.fix_modules (requires_grad_ false m)
     = Ok (requires_grad_ false m))
    /\ (~ has_modules m CodeFormer2.fix_modules ->
        exists name,
          In name CodeFormer2.fix_modules
          /\ CodeFormer2.freeze_modules CodeFormer2.fix_modules (requires_grad_ false m)
             = Raise (AttributeError name)).
Proof.
  intros m.
  assert (Hiff : has_modules (requires_grad_ false m) CodeFormer2.fix_modules
                 <-> has_modules m CodeFormer2.fix_modules).
  { unfold has_modules. split; intros Hh name Hin; destruct (Hh name Hin) as [c Hc].
    - rewrite getattr_requires_grad_ in Hc.
      destruct (getattr m name) as [c'|e]; [eauto|discriminate].
    - rewrite getattr_requires_grad_, Hc. eauto. }
  split; intros Hh.
  - apply freeze_modules_frozen; [apply requires_grad__all_flags|]. apply Hiff, Hh.
  - apply freeze_modules_missing; [apply requires_grad__all_flags|].
    intros Hc. apply Hh, Hiff, Hc.
Qed.
End InitFacts.

(* ------------------------------------------------------------------ *)
(** ** When the constructor of the network returns a model *)

Section InitCases.
Context {F G : Type} {SF : Scalar F} {PF : Pointwise F} {GF : Generator G F}
        {K : MultiheadAttention.Kernel (F := F)} {T : Tokenizer F G}.

Lemma mapM_total {A B} (f : A -> M G B) :
  (forall x g, exists y g', f x g = Ok (y, g')) ->
  forall xs g, exists ys g', mapM f xs g = Ok (ys, g').
Proof.
  intros Hf xs. induction xs as [|x r IH]; intros g; simpl.
  - unfold ret. eauto.
  - unfold bind. destruct (Hf x g) as (y & g1 & ->).
    destruct (IH g1) as (ys & g2 & ->). unfold ret. eauto.
Qed.

Lemma Embedding_init_total (v d : nat) (g : G) :
  exists m g', Embedding.__init__ (F := F) v d g = Ok (m, g').
Proof.
  unfold Embedding.__init__, bind.
  destruct (random_tensor_total (F := F) [v; d] g) as (w & g1 & ->). unfold ret. eauto.
Qed.

Lemma Layer_init_total (e h m : nat) (g : G) :
  h <> 0 -> e mod h = 0 ->
  exists layer g',
    TransformerSALayer.__init__ (F := F) e h m 0 TransformerSALayer.default_activation g
    = Ok (layer, g').
Proof.
  intros Hh Hd. unfold TransformerSALayer.__init__, bind.
  destruct (MultiheadAttention_init_total (F := F) e 0 g Hh Hd) as (sa & g1 & ->).
  destruct (Linear_init_total (F := F) e m true g1) as (l1 & g2 & ->).
  destruct (Linear_init_total (F := F) m e true g2) as (l2 & g3 & E).
  unfold lift, Dropout.__init__. cbn. rewrite E. cbn. unfold ret. eauto.
Qed.

Lemma Layer_init_bad_heads (e h m : nat) (p : Q) (a : string) (g : G) :
  h = 0 \/ e mod h <> 0 ->
  exists err, TransformerSALayer.__init__ (F := F) e h m p a g = Raise err.
Proof.
  intros Hbad. unfold TransformerSALayer.__init__, bind, MultiheadAttention.__init__.
  assert (Hc : (h =? 0) || negb (e mod h =? 0) = true).
  { apply orb_true_iff. destruct Hbad as [->|Hm]; [left; reflexivity|].
    right. apply negb_true_iff. apply Nat.eqb_neq. exact Hm. }
  rewrite Hc. eexists. reflexivity.
Qed.

Lemma load_step_lift (vqvae_path : option string) (base : nn_Module F) (g : G) :
  match vqvae_path with
  | Some path => sd <- lift (torch_load path) ;; lift (load_state_dict base sd)
  | None => ret base
  end g
  = lift (load_step vqvae_path base) g.
Proof.
  destruct vqvae_path as [path|]; [|reflexivity].
  unfold load_step, bind, lift. destruct (torch_load path) as [sd|e]; reflexivity.
Qed.

(** X10.  [CodeFormer2.__init__] fails where one of its steps fails and nowhere
    else: an exception of the inherited constructor or of the loading of the
    checkpoint is passed on; a tokenizer without decoder, quantize or
    post_quant_conv gives [AttributeError]; with at least one layer, a number
    of heads that is zero or does not divide [dim_embd] raises.  In every
    other case (no layer at all, or heads that divide a positive [dim_embd])
    a model is returned, whatever [codebook_size], [latent_size] and
    [connect_list], and its inherited part is the loaded tokenizer with every
    parameter frozen. *)
Theorem CodeFormer2_init_cases :
  forall (dim_embd n_head n_layers codebook_size latent_size : nat)
         (connect_list : list string) (vqvae_path : option string) (g : G),
    let init := CodeFormer2.__init__ dim_embd n_head n_layers codebook_size
                  latent_size connect_list vqvae_path g in
    (forall e, VQVAE_init (CodeFormer2.super_args codebook_size) g = Raise e ->
               init = Raise e)
    /\ forall base g1,
        VQVAE_init (CodeFormer2.super_args codebook_size) g = Ok (base, g1) ->
        (forall e, load_step vqvae_path base = Raise e -> init = Raise e)
        /\ forall loaded,
            load_step vqvae_path base = Ok loaded ->
            (~ has_modules loaded CodeFormer2.fix_modules ->
             exists name,
               In name CodeFormer2.fix_modules /\ init = Raise (AttributeError name))
            /\ (has_modules loaded CodeFormer2.fix_modules ->
                0 < n_layers -> n_head = 0 \/ dim_embd mod n_head <> 0 ->
                exists e, init = Raise e)
            /\ (has_modules loaded CodeFormer2.fix_modules ->
                n_layers = 0 \/ (0 < dim_embd /\ n_head <> 0 /\ dim_embd mod n_head = 0) ->
                exists self g',
                  init = Ok (self, g')
                  /\ CodeFormer2.vqvae self = requires_grad_ false loaded).
Proof.
  intros d h n v ls cl path g init. subst init. split.
  - intros e E. unfold CodeFormer2.__init__, bind. rewrite E. reflexivity.
  - intros base g1 E. split.
    + intros e El. unfold CodeFormer2.__init__. unfold bind at 1. rewrite E.
      unfold bind at 1. rewrite load_step_lift. unfold lift. rewrite El. reflexivity.
    + intros loaded El.
      assert (Hall : all_flags false (parameters (requires_grad_ false loaded)))
        by apply requires_grad__all_flags.
      assert (Hiff : has_modules (requires_grad_ false loaded) CodeFormer2.fix_modules
                     <-> has_modules loaded CodeFormer2.fix_modules).
      { unfold has_modules. split; intros Hh name Hin; destruct (Hh name Hin) as [c Hc].
        - rewrite getattr_requires_grad_ in Hc.
          destruct (getattr loaded name) as [c'|e]; [eauto|discriminate].
        - rewrite getattr_requires_grad_, Hc. eauto. }
      assert (Hstart :
        CodeFormer2.__init__ d h n v ls cl path g
        = (base <- lift (CodeFormer2.freeze_modules CodeFormer2.fix_modules
                           (requires_grad_ false loaded)) ;;
           feat_emb <- mapM (fun _ => Embedding.__init__ v d)
                            (patch_hws_of (CodeFormer2.super_args v)) ;;
           ft_layers <- mapM (fun _ => TransformerSALayer.__init__ d h (d * 2) 0
                                         TransformerSALayer.default_activation)
                             (seq 0 n) ;;
           lin <- Linear.__init__ d v false ;;
           ret (CodeFormer2.mk base (patch_hws_of (CodeFormer2.super_args v)) cl n d
                  (d * 2) (new_parameter (full [680; d] f0)) feat_emb ft_layers
                  (LayerNorm.__init__ d, lin))) g1).
      { unfold CodeFormer2.__init__. unfold bind at 1. rewrite E.
        unfold bind at 1. rewrite load_step_lift. unfold lift at 1. rewrite El.
        reflexivity. }
      rewrite Hstart. clear Hstart.
      split; [|split].
      * intros Hmiss.
        destruct (@freeze_modules_missing F CodeFormer2.fix_modules
                    (requires_grad_ false loaded) Hall) as (name & Hin & Hr).
        { intros Hc. apply Hmiss, Hiff, Hc. }
        exists name. split; [exact Hin|]. unfold bind at 1. unfold lift. rewrite Hr.
        reflexivity.
      * intros Hhas Hn Hbad. unfold bind at 1. unfold lift.
        rewrite (@freeze_modules_frozen F CodeFormer2.fix_modules _ Hall
                   (proj2 Hiff Hhas)).
        unfold bind at 1.
        destruct (mapM_total (fun _ : nat * nat => Embedding.__init__ (F := F) v d)
                    (fun _ g0 => Embedding_init_total v d g0)
                    (patch_hws_of (CodeFormer2.super_args v)) g1) as (fe & g2 & ->).
        unfold bind at 1. destruct n as [|n]; [inversion Hn|].
        change (seq 0 (S n)) with (0 :: seq 1 n). cbn [mapM]. unfold bind at 1.
        destruct (Layer_init_bad_heads d (d * 2) 0 TransformerSALayer.default_activation
                    g2 Hbad) as [err ->].
        eauto.
      * intros Hhas Hok. unfold bind at 1. unfold lift.
        rewrite (@freeze_modules_frozen F CodeFormer2.fix_modules _ Hall
                   (proj2 Hiff Hhas)).
        unfold bind at 1.
        destruct (mapM_total (fun _ : nat * nat => Embedding.__init__ (F := F) v d)
                    (fun _ g0 => Embedding_init_total v d g0)
                    (patch_hws_of (CodeFormer2.super_args v)) g1) as (fe & g2 & ->).
        unfold bind at 1.
        assert (Hl : exists ls' g3,
                   mapM (fun _ : nat => TransformerSALayer.__init__ (F := F) d h (d * 2) 0
                                          TransformerSALayer.default_activation)
                        (seq 0 n) g2 = Ok (ls', g3)).
        { destruct Hok as [->|(_ & Hh & Hd)].
          - simpl. unfold ret. eauto.
          - apply mapM_total. intros _ g0. apply Layer_init_total; assumption. }
        destruct Hl as (ls' & g3 & ->).
        unfold bind at 1.
        destruct (Linear_init_total (F := F) d v false g3) as (lin & g4 & ->).
        unfold ret. eexists. eexists. split; reflexivity.
Qed.
End InitCases.

(* ------------------------------------------------------------------ *)
(** ** The embedding of the token levels on inputs of any form *)

Section EmbedTokensCases.
Context {F G : Type} {SF : Scalar F} {PF : Pointwise F} {GF : Generator G F}
        {K : MultiheadAttention.Kernel (F := F)} {T : Tokenizer F G}.



End EmbedTokensCases.


(* ------------------------------------------------------------------ *)
(** ** The sine position encoding: no mask, and the pairs of channels *)

Section PositionFacts.
Context {F : Type} {SF : Scalar F}.

Lemma count_true_all {A} (f : A -> bool) (l : list A) :
  (forall a, f a = true) -> PositionEmbeddingSine.count_true (map f l) = List.length l.
Proof.
  intros Hf. unfold PositionEmbeddingSine.count_true.
  induction l as [|a r IH]; simpl; [reflexivity|].
  rewrite Hf. simpl. rewrite IH. reflexivity.
Qed.

Lemma y_embed_unmasked (self : PositionEmbeddingSine.t) (B H W b i j : nat) :
  i < H ->
  get (PositionEmbeddingSine.y_embed_of self (full [B; H; W] false)) [b; i; j]
  = unmasked_position self H i.
Proof.
  intros Hi. unfold PositionEmbeddingSine.y_embed_of, unmasked_position.
  assert (Hc : forall k,
             get (PositionEmbeddingSine.cumsum1 (F := F) (tmap negb (full [B; H; W] false)))
                 [b; k; j] = f_of_nat (S k)).
  { intros k. cbn [PositionEmbeddingSine.cumsum1 get].
    rewrite (count_true_all (fun i' => get (tmap negb (full [B; H; W] false)) [b; i'; j]))
      by (intros a; reflexivity).
    rewrite length_seq. reflexivity. }
  destruct (PositionEmbeddingSine.normalize self).
  - unfold PositionEmbeddingSine.normalize_y. cbn [get shape nth tmap full].
    cbn [PositionEmbeddingSine.cumsum1 shape tmap full nth].
    rewrite !Hc. replace (S (H - 1)) with H by lia. reflexivity.
  - apply Hc.
Qed.

Lemma x_embed_unmasked (self : PositionEmbeddingSine.t) (B H W b i j : nat) :
  j < W ->
  get (PositionEmbeddingSine.x_embed_of self (full [B; H; W] false)) [b; i; j]
  = unmasked_position self W j.
Proof.
  intros Hj. unfold PositionEmbeddingSine.x_embed_of, unmasked_position.
  assert (Hc : forall k,
             get (PositionEmbeddingSine.cumsum2 (F := F) (tmap negb (full [B; H; W] false)))
                 [b; i; k] = f_of_nat (S k)).
  { intros k. cbn [PositionEmbeddingSine.cumsum2 get].
    rewrite (count_true_all (fun j' => get (tmap negb (full [B; H; W] false)) [b; i; j']))
      by (intros a; reflexivity).
    rewrite length_seq. reflexivity. }
  destruct (PositionEmbeddingSine.normalize self).
  - unfold PositionEmbeddingSine.normalize_x. cbn [get shape nth tmap full].
    cbn [PositionEmbeddingSine.cumsum2 shape tmap full nth].
    rewrite !Hc. replace (S (W - 1)) with W by lia. reflexivity.
  - apply Hc.
Qed.

Lemma mask_or_default_rank4 (x : Tensor F) (B C H W : nat) (rest : list nat) :
  shape x = B :: C :: H :: W :: rest ->
  PositionEmbeddingSine.mask_or_default x None = Ok (full [B; H; W] false).
Proof.
  intros Hx. unfold PositionEmbeddingSine.mask_or_default, PositionEmbeddingSine.size.
  rewrite Hx. reflexivity.
Qed.

(** X12.  Without a mask the encoding depends on the sizes of [x] only, not on
    its entries: an input with fewer than four axes raises [IndexError];
    for an input of shape (B, C, H, W, ...) and an even [num_pos_feats]
    the result has shape (B, 2 * num_pos_feats, H, W), and its entry at
    row [i], column [j] is, in the first half of the channels, the sine or
    cosine of the row position [i + 1] over the divisor of the channel and,
    in the second half, that of the column position [j + 1], the same for
    every image of the batch; with [normalize] the positions are divided by
    [H + eps], [W + eps] and multiplied by [scale]. *)
Theorem PositionEmbeddingSine_forward_no_mask :
  forall (self : PositionEmbeddingSine.t) (x : Tensor F),
    (List.length (shape x) < 4 ->
     exists msg, PositionEmbeddingSine.forward self x None = Raise (IndexError msg))
    /\ forall (B C H W : nat) (rest : list nat),
        shape x = B :: C :: H :: W :: rest ->
        Nat.even (PositionEmbeddingSine.num_pos_feats self) = true ->
        exists pos,
          PositionEmbeddingSine.forward self x None = Ok pos
          /\ shape pos = [B; 2 * PositionEmbeddingSine.num_pos_feats self; H; W]
          /\ forall b c i j,
              c < PositionEmbeddingSine.num_pos_feats self -> i < H -> j < W ->
              get pos [b; c; i; j]
              = PositionEmbeddingSine.sin_or_cos c
                  (fdiv (unmasked_position self H i)
                        (PositionEmbeddingSine.channel_divisor self c))
              /\ get pos [b; PositionEmbeddingSine.num_pos_feats self + c; i; j]
                 = PositionEmbeddingSine.sin_or_cos c
                     (fdiv (unmasked_position self W j)
                           (PositionEmbeddingSine.channel_divisor self c)).
Proof.
  intros self x. split.
  - intros Hlen. unfold PositionEmbeddingSine.forward,
      PositionEmbeddingSine.mask_or_default, PositionEmbeddingSine.size.
    destruct (shape x) as [|B [|C [|H [|W rest]]]]; cbn; eauto.
    simpl in Hlen. lia.
  - intros B C H W rest Hx En.
    pose proof (mask_or_default_rank4 x Hx) as Hm.
    destruct (forward_channels self x None Hm (eq_refl : shape (full [B; H; W] false) = [B; H; W]))
      as [Hev _].
    destruct (Hev En) as (pos & E & Hs & Hg).
    exists pos. split; [exact E|]. split; [exact Hs|].
    intros b c i j Hc Hi Hj. destruct (Hg b i j c Hc) as [Hy Hxx].
    rewrite Hy, Hxx.
    rewrite (@y_embed_unmasked self B H W b i j Hi).
    rewrite (@x_embed_unmasked self B H W b i j Hj).
    split; reflexivity.
Qed.

Lemma channel_divisor_pair (self : PositionEmbeddingSine.t) (k : nat) :
  PositionEmbeddingSine.channel_divisor self (2 * k + 1)
  = PositionEmbeddingSine.channel_divisor self (2 * k).
Proof.
  unfold PositionEmbeddingSine.channel_divisor.
  assert (H1 : (2 * k + 1) / 2 = k) by (symmetry; apply (Nat.div_unique _ 2 k 1); lia).
  assert (H2 : 2 * k / 2 = k) by (symmetry; apply (Nat.div_unique _ 2 k 0); lia).
  rewrite H1, H2. reflexivity.
Qed.

Lemma sin_or_cos_pair (k : nat) (v : F) :
  PositionEmbeddingSine.sin_or_cos (2 * k) v = fsin v
  /\ PositionEmbeddingSine.sin_or_cos (2 * k + 1) v = fcos v.
Proof.
  unfold PositionEmbeddingSine.sin_or_cos. split.
  - rewrite Nat.even_mul. reflexivity.
  - rewrite Nat.add_comm, Nat.even_add, Nat.even_mul. reflexivity.
Qed.

(** X13.  The channels come in pairs that share one angle: on each axis, channel
    [2k] is the sine and channel [2k + 1] the cosine of the same quotient,
    the position over [temperature ** (2k / num_pos_feats)]. *)
Theorem PositionEmbeddingSine_channel_pairs :
  forall (self : PositionEmbeddingSine.t) (x : Tensor F)
         (mask : option (Tensor bool)) (m : Tensor bool) (B H W : nat) (pos : Tensor F),
    PositionEmbeddingSine.mask_or_default x mask = Ok m ->
    shape m = [B; H; W] ->
    PositionEmbeddingSine.forward self x mask = Ok pos ->
    forall b i j k,
      2 * k + 1 < PositionEmbeddingSine.num_pos_feats self ->
      let n := PositionEmbeddingSine.num_pos_feats self in
      let divisor := fpow (PositionEmbeddingSine.temperature self)
                       (fdiv (fmul (f_of_nat 2) (f_of_nat k)) (f_of_nat n)) in
      let angle_y := fdiv (get (PositionEmbeddingSine.y_embed_of self m) [b; i; j]) divisor in
      let angle_x := fdiv (get (PositionEmbeddingSine.x_embed_of self m) [b; i; j]) divisor in
      get pos [b; 2 * k; i; j] = fsin angle_y
      /\ get pos [b; 2 * k + 1; i; j] = fcos angle_y
      /\ get pos [b; n + 2 * k; i; j] = fsin angle_x
      /\ get pos [b; n + (2 * k + 1); i; j] = fcos angle_x.
Proof.
  intros self x mask m B H W pos Hm Hs E b i j k Hk n divisor angle_y angle_x.
  subst n.
  destruct (forward_channels self x mask Hm Hs) as [Hev Hodd].
  destruct (Nat.even (PositionEmbeddingSine.num_pos_feats self)) eqn:En.
  - destruct (Hev eq_refl) as (pos' & E' & _ & Hg).
    rewrite E in E'. inversion E'; subst pos'.
    destruct (Hg b i j (2 * k) ltac:(lia)) as [Hy0 Hx0].
    destruct (Hg b i j (2 * k + 1) ltac:(lia)) as [Hy1 Hx1].
    destruct (sin_or_cos_pair k angle_y) as [Sy Cy].
    destruct (sin_or_cos_pair k angle_x) as [Sx Cx].
    assert (Hd : PositionEmbeddingSine.channel_divisor self (2 * k) = divisor).
    { unfold PositionEmbeddingSine.channel_divisor, divisor.
      replace (2 * k / 2) with k by (apply (Nat.div_unique _ 2 k 0); lia).
      reflexivity. }
    rewrite Hy0, Hy1, Hx0, Hx1. rewrite channel_divisor_pair, Hd.
    fold angle_y. fold angle_x. rewrite Sy, Cy, Sx, Cx. repeat split; reflexivity.
  - destruct (Hodd eq_refl) as [e E']. rewrite E in E'. discriminate E'.
Qed.
End PositionFacts.

(** Two position features on a 2 x 2 image: channels 0 and 1 of the result
    are the sine and the cosine of one angle. *)
Lemma PositionEmbeddingSine_channel_pairs_witness :
  exists pos angle,
    PositionEmbeddingSine.forward
      (PositionEmbeddingSine.mk 2 10000%Z false 6%Z) (full [1; 1; 2; 2] 0%Z) None
    = Ok pos
    /\ get pos [0; 0; 1; 0] = fsin angle
    /\ get pos [0; 1; 1; 0] = fcos angle.
Proof.
  destruct (PositionEmbeddingSine.forward
              (PositionEmbeddingSine.mk 2 10000%Z false 6%Z) (full [1; 1; 2; 2] 0%Z) None)
    as [pos|e] eqn:E; [|vm_compute in E; discriminate E].
  pose proof (@PositionEmbeddingSine_channel_pairs Z _
                (PositionEmbeddingSine.mk 2 10000%Z false 6%Z)
                (full [1; 1; 2; 2] 0%Z) None (full [1; 2; 2] false) 1 2 2 pos
                eq_refl eq_refl E 0 1 0 0 (le_n 2)) as (Hs & Hc & _).
  exists pos. eexists. split; [reflexivity|]. split; [exact Hs|exact Hc].
Defined.

(* ------------------------------------------------------------------ *)
(** ** Broadcasting and views: what the two blocks below use *)

Section BroadcastFacts.
Context {F : Type} {SF : Scalar F}.

Lemma broadcast_rev_refl (s : list nat) : broadcast_rev s s = Some s.
Proof.
  induction s as [|x r IH]; simpl; [reflexivity|].
  rewrite IH, Nat.eqb_refl. reflexivity.
Qed.

Lemma broadcast_shapes_refl (s : list nat) : broadcast_shapes s s = Some s.
Proof.
  unfold broadcast_shapes. rewrite broadcast_rev_refl. simpl.
  rewrite rev_involutive. reflexivity.
Qed.

Lemma broadcast_index_in_range (s ix : list nat) :
  Forall2 lt ix s -> broadcast_index s ix = ix.
Proof.
  intros Hr. unfold broadcast_index.
  rewrite (Forall2_length Hr), Nat.sub_diag. cbn [skipn].
  induction Hr as [|i n ix s Hi _ IH]; simpl; [reflexivity|].
  rewrite IH. f_equal. destruct (Nat.eqb_spec n 1) as [->|_]; [lia|reflexivity].
Qed.

Lemma broadcast_shapes_middle (B L C : nat) :
  broadcast_shapes [B; L; C] [B; 1; C] = Some [B; L; C].
Proof.
  unfold broadcast_shapes. cbn [rev app broadcast_rev].
  rewrite !Nat.eqb_refl. cbn [Nat.eqb].
  destruct (L =? 1) eqn:E.
  - apply Nat.eqb_eq in E. subst L. reflexivity.
  - reflexivity.
Qed.

Lemma offset_lt (s ix : list nat) : Forall2 lt ix s -> offset s ix < numel s.
Proof.
  induction 1 as [|i n ix s Hi _ IH]; simpl; [lia|].
  unfold numel in *. nia.
Qed.

(** The row-major position of an index inside the shape leads back to the
    index. *)
Lemma unravel_offset (s ix : list nat) :
  Forall2 lt ix s -> unravel s (offset s ix) = ix.
Proof.
  induction 1 as [|i n ix s Hi Hr IH]; simpl; [reflexivity|].
  pose proof (offset_lt Hr) as Ho.
  assert (Hq : (i * numel s + offset s ix) / numel s = i).
  { symmetry. apply (Nat.div_unique _ (numel s) i (offset s ix)); lia. }
  assert (Hm : (i * numel s + offset s ix) mod numel s = offset s ix).
  { symmetry. apply (Nat.mod_unique _ (numel s) i (offset s ix)); lia. }
  rewrite Hq, Hm, IH. reflexivity.
Qed.

Lemma offset_halves (B C b s c : nat) :
  offset [B; 1; 2; C] [b; 0; s; c] = offset [B; 2 * C] [b; s * C + c].
Proof. simpl. lia. Qed.
End BroadcastFacts.

(* ------------------------------------------------------------------ *)
(** ** The fusion block *)

(** X14.  [Fuse_sft_block.forward] in exact arithmetic, when the scale and the
    shift the sub-modules return have the shape of [dec_feat]: the result
    has that shape and is [dec + w * (dec * scale + shift)] entry by entry;
    with [w = 0] the block returns [dec_feat] as it is, and with [w = 1]
    it returns [dec * (1 + scale) + shift]. *)
Theorem Fuse_sft_block_blend :
  forall (self : Fuse_sft_block.t (F := R)) (enc_feat dec_feat : Tensor R) (w : R)
         (c e s t : Tensor R),
    cat1 [enc_feat; dec_feat] = Ok c ->
    Fuse_sft_block.encode_enc self c = Ok e ->
    Fuse_sft_block.scale self e = Ok s ->
    Fuse_sft_block.shift self e = Ok t ->
    shape s = shape dec_feat ->
    shape t = shape dec_feat ->
    exists out,
      Fuse_sft_block.forward self enc_feat dec_feat w = Ok out
      /\ shape out = shape dec_feat
      /\ forall ix,
          Forall2 lt ix (shape dec_feat) ->
          get out ix = (get dec_feat ix + w * (get dec_feat ix * get s ix + get t ix))%R
          /\ (w = 0%R -> get out ix = get dec_feat ix)
          /\ (w = 1%R ->
              get out ix = (get dec_feat ix * (1 + get s ix) + get t ix)%R).
Proof.
  intros self enc dec w c e s t Hc He Hs Ht Ss St.
  unfold Fuse_sft_block.forward. rewrite Hc. cbn [rbind]. rewrite He. cbn [rbind].
  rewrite Hs. cbn [rbind]. rewrite Ht. cbn [rbind].
  unfold broadcast2 at 1. rewrite Ss, broadcast_shapes_refl. cbn [rbind].
  unfold broadcast2 at 1. cbn [shape]. rewrite St, broadcast_shapes_refl. cbn [rbind].
  cbv zeta. unfold broadcast2. cbn [shape tmap]. rewrite broadcast_shapes_refl.
  eexists. split; [reflexivity|]. split; [reflexivity|].
  intros ix Hix. unfold tmap. cbn [get shape]. rewrite ?Ss, ?St.
  rewrite !(broadcast_index_in_range Hix).
  cbn [fadd fmul RInst.scalar].
  split; [reflexivity|]. split.
  - intros ->. ring.
  - intros ->. ring.
Qed.

(** Encoder and decoder features of one pixel and one channel each, the
    sub-modules cutting the concatenation back to one channel. *)
Lemma Fuse_sft_block_blend_witness :
  exists out,
    Fuse_sft_block.forward
      (Fuse_sft_block.mk (fun x : Tensor R => Ok (mkTensor [1; 1; 1; 1] (get x)))
                         (fun x : Tensor R => Ok (mkTensor [1; 1; 1; 1] (get x)))
                         (fun x : Tensor R => Ok (mkTensor [1; 1; 1; 1] (get x))))
      (full [1; 1; 1; 1] 2%R) (full [1; 1; 1; 1] 3%R) 0%R = Ok out
    /\ get out [0; 0; 0; 0] = 3%R.
Proof.
  destruct (@Fuse_sft_block_blend
              (Fuse_sft_block.mk (fun x : Tensor R => Ok (mkTensor [1; 1; 1; 1] (get x)))
                                 (fun x : Tensor R => Ok (mkTensor [1; 1; 1; 1] (get x)))
                                 (fun x : Tensor R => Ok (mkTensor [1; 1; 1; 1] (get x))))
              (full [1; 1; 1; 1] 2%R) (full [1; 1; 1; 1] 3%R) 0%R
              _ _ _ _ eq_refl eq_refl eq_refl eq_refl eq_refl eq_refl)
    as (out & E & _ & Hg).
  exists out. split; [exact E|].
  destruct (Hg [0; 0; 0; 0]) as (_ & H0 & _).
  - repeat constructor.
  - exact (H0 eq_refl).
Defined.

(* ------------------------------------------------------------------ *)
(** ** The adaptive layer norm before the head *)

Section AdaLNFacts.
Context {F G : Type} {SF : Scalar F} {PF : Pointwise F} {GF : Generator G F}.

Lemma AdaLN_init_inv (C D : nat)
    (norm_layer : nat -> bool -> result (Tensor F -> result (Tensor F)))
    (g g' : G) (self : AdaLNBeforeHead.t) :
  AdaLNBeforeHead.__init__ C D norm_layer g = Ok (self, g') ->
  AdaLNBeforeHead.C self = C
  /\ norm_layer C false = Ok (AdaLNBeforeHead.ln_wo_grad self)
  /\ shape (data (Linear.weight (AdaLNBeforeHead.ada_lin self))) = [2 * C; D].
Proof.
  intros E. unfold AdaLNBeforeHead.__init__ in E.
  apply bind_ok_inv in E. destruct E as (ln & g1 & Eln & E).
  apply lift_ok_inv in Eln. destruct Eln as [Eln ->].
  apply bind_ok_inv in E. destruct E as (lin & g2 & Elin & E).
  apply ret_ok_inv in E. destruct E as [-> _].
  apply Linear_init_built in Elin. destruct Elin as [Hw _].
  cbn. auto.
Qed.

Lemma view_halves (lin : Tensor F) (B C b s c : nat) :
  shape lin = [B; 2 * C] ->
  b < B -> s < 2 -> c < C ->
  get lin (unravel (shape lin) (offset [B; 1; 2; C] [b; 0; s; c]))
  = get lin [b; s * C + c].
Proof.
  intros Hs Hb Hs2 Hc. rewrite Hs, offset_halves, unravel_offset; [reflexivity|].
  repeat constructor; [exact Hb|nia].
Qed.

(** X15.  [AdaLNBeforeHead(C, D, norm_layer).forward(x, cond)] for a condition of
    shape (B, D) and a normalized input of shape (B, L, C), with C > 0: the
    linear layer maps the SiLU of the condition to 2 C numbers per image;
    the first C are the scale, the last C the shift; the result has shape
    (B, L, C) and is [norm(x) * (scale + 1) + shift], one scale and one
    shift per image and channel, shared by the L positions. *)
Theorem AdaLNBeforeHead_scale_then_shift :
  forall (C D : nat)
         (norm_layer : nat -> bool -> result (Tensor F -> result (Tensor F)))
         (g g' : G) (self : AdaLNBeforeHead.t)
         (x_BLC cond_BD n : Tensor F) (B L : nat),
    AdaLNBeforeHead.__init__ C D norm_layer g = Ok (self, g') ->
    0 < C ->
    shape cond_BD = [B; D] ->
    AdaLNBeforeHead.ln_wo_grad self x_BLC = Ok n ->
    shape n = [B; L; C] ->
    exists lin out,
      Linear.forward (AdaLNBeforeHead.ada_lin self) (AdaLNBeforeHead.silu cond_BD) = Ok lin
      /\ shape lin = [B; 2 * C]
      /\ AdaLNBeforeHead.forward self x_BLC cond_BD = Ok out
      /\ shape out = [B; L; C]
      /\ forall b l c,
          b < B -> l < L -> c < C ->
          get out [b; l; c]
          = fadd (fmul (get n [b; l; c]) (fadd (get lin [b; c]) f1))
                 (get lin [b; C + c]).
Proof.
  intros C D norm_layer g g' self x cond n B L Hinit HC Hcond Hn Sn.
  pose proof Hinit as Hi. apply AdaLN_init_inv in Hi. destruct Hi as (HCs & _ & Hw).
  assert (Hlin : exists lin,
             Linear.forward (AdaLNBeforeHead.ada_lin self) (AdaLNBeforeHead.silu cond)
             = Ok lin /\ shape lin = [B; 2 * C]).
  { unfold Linear.forward. rewrite Hw. unfold AdaLNBeforeHead.silu. cbn [shape tmap].
    rewrite Hcond. cbn [List.length Nat.eqb negb andb last].
    rewrite Nat.eqb_refl. eexists. split; reflexivity. }
  destruct Hlin as (lin & Elin & Slin).
  exists lin. unfold AdaLNBeforeHead.forward. rewrite Elin. cbn [rbind].
  unfold view_m1_1_2_C. rewrite HCs.
  assert (Hz : (2 * C =? 0) = false) by (apply Nat.eqb_neq; lia).
  rewrite Hz.
  assert (Hnum : numel (shape lin) = B * (2 * C)).
  { rewrite Slin. unfold numel. simpl. lia. }
  rewrite Hnum, Nat.Div0.mod_mul, Nat.eqb_refl.
  rewrite Nat.div_mul by lia. cbn [rbind].
  unfold unbind2. cbn [shape firstn skipn app]. rewrite Hn. cbn [rbind].
  unfold broadcast2. cbn [shape tmap]. rewrite Sn, broadcast_shapes_middle. cbn [rbind].
  unfold broadcast2_. cbn [shape]. rewrite broadcast_shapes_middle, shape_eqb_refl.
  eexists. split; [reflexivity|]. split; [exact Slin|].
  split; [reflexivity|]. split; [reflexivity|].
  intros b l c Hb Hl Hc. cbn [get].
  assert (Hfull : broadcast_index [B; L; C] [b; l; c] = [b; l; c]).
  { apply broadcast_index_in_range. repeat constructor; assumption. }
  assert (Hmid : broadcast_index [B; 1; C] [b; l; c] = [b; 0; c]).
  { unfold broadcast_index. cbn.
    destruct (Nat.eqb_spec B 1) as [->|_]; destruct (Nat.eqb_spec C 1) as [->|_];
      repeat f_equal; lia. }
  rewrite Hfull, Hmid. unfold tmap. cbn [get].
  rewrite (@view_halves lin B C b 0 c Slin Hb (Nat.lt_0_2) Hc).
  rewrite (@view_halves lin B C b 1 c Slin Hb (Nat.lt_1_2) Hc).
  cbn [Nat.mul Nat.add]. rewrite Nat.add_0_r. reflexivity.
Qed.
End AdaLNFacts.

(** One channel, a condition of one number, and a norm layer that returns
    its input. *)
Lemma AdaLNBeforeHead_scale_then_shift_witness :
  exists self g' out,
    @AdaLNBeforeHead.__init__ Z nat _ _ 1 1 (fun _ _ => Ok (fun x => Ok x)) 0
    = Ok (self, g')
    /\ AdaLNBeforeHead.forward self (full [1; 1; 1] 5%Z) (full [1; 1] 0%Z) = Ok out
    /\ shape out = [1; 1; 1].
Proof.
  eexists. eexists.
  assert (Hinit : @AdaLNBeforeHead.__init__ Z nat _ _ 1 1 (fun _ _ => Ok (fun x => Ok x)) 0
                  = Ok (?[self], ?[g1])) by (vm_compute; reflexivity).
  match type of Hinit with
  | _ = Ok (?s, _) =>
      destruct (@AdaLNBeforeHead_scale_then_shift Z nat _ _ _ 1 1
                  (fun _ _ => Ok (fun x => Ok x)) 0 _ s
                  (full [1; 1; 1] 5%Z) (full [1; 1] 0%Z) (full [1; 1; 1] 5%Z) 1 1
                  Hinit (le_n 1) eq_refl eq_refl eq_refl)
        as (lin & out & _ & _ & E & Hs & _)
  end.
  exists out. split; [exact Hinit|]. split; [exact E|exact Hs].
Defined.

(* ------------------------------------------------------------------ *)
(** ** Adaptive instance normalization moves the channel means *)






(* ------------------------------------------------------------------ *)
(** ** Runs of the case theorems *)

(** The statistics of a map of one channel and two pixels. *)
Lemma calc_mean_std_cases_witness :
  exists mean std,
    calc_mean_std (full [1; 1; 1; 2] 3%Z) default_eps = Ok (mean, std)
    /\ shape mean = [1; 1; 1; 1]
    /\ shape std = [1; 1; 1; 1].
Proof.
  destruct (proj2 (proj2 (@calc_mean_std_cases Z _ (full [1; 1; 1; 2] 3%Z) default_eps))
              1 1 1 2 eq_refl
              (fun E => match E in _ = n return match n with 0 => False | _ => True end
                        with eq_refl => I end))
    as (mean & std & E & Sm & Ss & _).
  exists mean, std. split; [exact E|]. split; [exact Sm|exact Ss].
Defined.

(** A layer of width 2 with one head and the gelu activation. *)
Lemma layer_init_cases_witness :
  exists layer g',
    TransformerSALayer.__init__ (F := Z) (G := nat) 2 1 4 0 "gelu" 0 = Ok (layer, g').
Proof.
  destruct (layer_init_cases (F := Z) (G := nat) 2 1 4 0 "gelu" 0) as (_ & _ & _ & _ & Hok).
  exact (Hok (le_S 1 1 (le_n 1))
             (fun E => match E in _ = n return match n with 0 => False | _ => True end
                       with eq_refl => I end)
             eq_refl eq_refl (or_intror (or_introl eq_refl))).
Defined.

(** The position bias of a model of width 1 on a batch of two images. *)
Lemma position_bias_is_shared_witness :
  exists u pos_emb,
    unsqueeze1 (full [680; 1] 0%Z) = Ok u
    /\ repeat3 u 1 2 1 = Ok pos_emb
    /\ shape pos_emb = [680; 2; 1].
Proof.
  destruct (@position_bias_is_shared Z
              (CodeFormer2.mk (nn_mk [] []) [] [] 0 1 2 (new_parameter (full [680; 1] 0%Z))
                 [] []
                 (LayerNorm.__init__ 1, Linear.mk 1 2 (new_parameter (full [2; 1] 0%Z)) None))
              680 1 2 eq_refl)
    as (u & pe & Eu & Ep & Hs & _).
  exists u, pe. split; [exact Eu|]. split; [exact Ep|exact Hs].
Defined.

(** A tokenizer with the three sub-modules, one parameter each. *)
Lemma fix_modules_loop_changes_nothing_witness :
  CodeFormer2.freeze_modules CodeFormer2.fix_modules
    (requires_grad_ false
       (nn_mk []
          [("decoder", nn_mk [("weight", mkParam (full [1] 1%Z) true)] []);
           ("quantize", nn_mk [("embedding", mkParam (full [1] 2%Z) true)] []);
           ("post_quant_conv", nn_mk [("weight", mkParam (full [1] 3%Z) true)] [])]))
  = Ok (requires_grad_ false
          (nn_mk []
             [("decoder", nn_mk [("weight", mkParam (full [1] 1%Z) true)] []);
              ("quantize", nn_mk [("embedding", mkParam (full [1] 2%Z) true)] []);
              ("post_quant_conv", nn_mk [("weight", mkParam (full [1] 3%Z) true)] [])])).
Proof.
  apply (proj1 (@fix_modules_loop_changes_nothing Z _)).
  intros name [<-|[<-|[<-|[]]]]; eexists; reflexivity.
Defined.

(** The construction with one layer of one head over the toy tokenizer. *)
Lemma CodeFormer2_init_cases_witness :
  exists self g',
    @CodeFormer2.__init__ Z nat _ _ ZInst.tokenizer 1 1 1 1 32 [] None 0
    = Ok (self, g').
Proof.
  destruct (CodeFormer2_init_cases (F := Z) (G := nat) (T := ZInst.tokenizer) 1 1 1 1 32 [] None 0)
    as [_ H].
  assert (E : VQVAE_init (CodeFormer2.super_args 1) 0 = Ok (?[base], ?[g1]))
    by (vm_compute; reflexivity).
  match type of E with
  | _ = Ok (?b, ?g) => destruct (H b g E) as [_ H2]; destruct (H2 b eq_refl) as (_ & _ & H3)
  end.
  destruct H3 as (self & g' & Hinit & _).
  - intros name [<-|[<-|[<-|[]]]]; eexists; reflexivity.
  - right. split; [exact (le_n 1)|]. split; [discriminate|reflexivity].
  - exists self, g'. exact Hinit.
Defined.

(** Two position features on a 2 x 2 image without a mask. *)
Lemma PositionEmbeddingSine_forward_no_mask_witness :
  exists pos,
    PositionEmbeddingSine.forward
      (PositionEmbeddingSine.mk 2 10000%Z false 6%Z) (full [1; 1; 2; 2] 0%Z) None
    = Ok pos
    /\ shape pos = [1; 4; 2; 2].
Proof.
  destruct (proj2 (@PositionEmbeddingSine_forward_no_mask Z _
                     (PositionEmbeddingSine.mk 2 10000%Z false 6%Z)
                     (full [1; 1; 2; 2] 0%Z))
              1 1 2 2 [] eq_refl eq_refl)
    as (pos & E & Hs & _).
  exists pos. split; [exact E|exact Hs].
Defined.

(* ------------------------------------------------------------------ *)
(** ** What [_init_weights] writes *)

Section InitWeightsFacts.
Context {F G : Type} {SF : Scalar F} {PF : Pointwise F} {GF : Generator G F}
        {K : MultiheadAttention.Kernel (F := F)} {T : Tokenizer F G}.

End InitWeightsFacts.


(* ------------------------------------------------------------------ *)
(** ** Normalized positions *)




